(** * SnapTrade integration: credential lifecycle, link generation, holdings

    A shallow embedding of [utils/snaptrade.ts] and of the parts of
    [utils/snaptrade-sdk.ts] and of the [DELETE] handler of
    [app/api/snaptrade/register/route.ts] that touch the same table,
    followed by the callers: the handlers of the register and sync routes,
    the account listing, the disconnection, the callback that imports the
    positions into [assets], and the grouping of the dashboard page.

    - JavaScript strings are [string], held in UTF-8; [trim] and
      [toUpperCase] work on the code points, with the white space of
      ECMAScript and the upper case of the Unicode Character Database.
      An optional or nullable string is [option string], and JavaScript
      truthiness is written out ([truthy]).
    - [new Date(v)] reads a stored timestamp as it was written; any
      other text goes through [Date.parse], a parameter ([Dates]) of
      everything that follows.
    - JavaScript numbers are IEEE-754 binary64 values, [spec_float] with
      precision 53 and maximal exponent 1024, and the arithmetic is the
      Standard Library's reference implementation ([SFmul], [SFsub], [SFdiv]).
    - The [broker_connections] table, restricted to [broker_id = "snaptrade"],
      is a [gmap] from [user_id] to rows; [broker_data] is a [gmap] from keys
      to JSON values.
    - The SnapTrade SDK is an interface ([SnapTradeApi]) over an abstract
      remote state; every call may return or throw.
    - [async] functions are computations in a state-and-exception monad [M]
      over the [World]: the table, the remote state, the clock, the outcome
      script of the store operations and the trace of remote calls.

    Line numbers are those of [src/app/api/snaptrade/register/route.ts],
    the listing that carries [utils/snaptrade.ts] from its line 197 on. *)

From Stdlib Require Import ZArith NArith String Ascii List Bool Lia.
From Stdlib Require Import Floats.SpecFloat.
From stdpp Require Import base option gmap strings list fin_maps pretty.

Open Scope string_scope.
Open Scope list_scope.
Open Scope Z_scope.

(** ** JavaScript values *)

Module Js.

(** [!!s] for an optional string: [undefined], [null] and [""] are falsy. *)
Definition truthy (s : option string) : bool :=
  match s with
  | Some s => negb (String.eqb s "")
  | None => false
  end.

(** [a || b] on optional strings. *)
Definition or_else (a : option string) (b : string) : string :=
  match a with
  | Some s => if String.eqb s "" then b else s
  | None => b
  end.

(** *** Strings

    A JavaScript string is held in UTF-8, one [ascii] per byte (a lone
    surrogate, which a JavaScript string may hold, has its three bytes);
    the functions of [String.prototype] that look at characters read the
    code points off the bytes. A byte sequence that is not of this form
    stands for no JavaScript string; its first byte reads as U+FFFD. *)

Definition byte (c : ascii) : N := N_of_ascii c.

(** A continuation byte, [10xxxxxx]. *)
Definition continuation (c : ascii) : bool :=
  ((128 <=? byte c) && (byte c <? 192))%N.

Definition replacement_character : N := 65533.

(** The code points of a string. *)
Fixpoint decode (s : string) : list N :=
  match s with
  | EmptyString => []
  | String c1 r1 =>
      let b1 := byte c1 in
      if (b1 <? 128)%N then b1 :: decode r1
      else
        match r1 with
        | EmptyString => [replacement_character]
        | String c2 r2 =>
            if ((194 <=? b1) && (b1 <? 224) && continuation c2)%N then
              ((b1 - 192) * 64 + (byte c2 - 128))%N :: decode r2
            else
              match r2 with
              | EmptyString => replacement_character :: decode r1
              | String c3 r3 =>
                  let cp3 :=
                    ((b1 - 224) * 4096 + (byte c2 - 128) * 64
                     + (byte c3 - 128))%N in
                  if ((224 <=? b1) && (b1 <? 240)
                      && continuation c2 && continuation c3
                      && (2048 <=? cp3))%N then
                    cp3 :: decode r3
                  else
                    match r3 with
                    | EmptyString => replacement_character :: decode r1
                    | String c4 r4 =>
                        let cp4 :=
                          ((b1 - 240) * 262144 + (byte c2 - 128) * 4096
                           + (byte c3 - 128) * 64 + (byte c4 - 128))%N in
                        if ((240 <=? b1) && (b1 <? 248)
                            && continuation c2 && continuation c3
                            && continuation c4
                            && (65536 <=? cp4) && (cp4 <? 1114112))%N then
                          cp4 :: decode r4
                        else replacement_character :: decode r1
                    end
              end
        end
  end.

Definition of_byte (n : N) : ascii := ascii_of_N n.

(** The bytes of one code point. *)
Definition encode_cp (cp : N) : string :=
  if (cp <? 128)%N then String (of_byte cp) ""
  else if (cp <? 2048)%N then
    String (of_byte (192 + cp / 64)) (String (of_byte (128 + cp mod 64)) "")
  else if (cp <? 65536)%N then
    String (of_byte (224 + cp / 4096))
      (String (of_byte (128 + (cp / 64) mod 64))
         (String (of_byte (128 + cp mod 64)) ""))
  else
    String (of_byte (240 + cp / 262144))
      (String (of_byte (128 + (cp / 4096) mod 64))
         (String (of_byte (128 + (cp / 64) mod 64))
            (String (of_byte (128 + cp mod 64)) ""))).

Fixpoint encode (l : list N) : string :=
  match l with
  | [] => ""
  | cp :: r => encode_cp cp +:+ encode r
  end.

(** The code points that [String.prototype.trim] strips: WhiteSpace
    (TAB, VT, FF, ZWNBSP and the space separators) and LineTerminator
    (LF, CR, LS, PS). *)
Definition white_space : list N :=
  [ 9; 10; 11; 12; 13; 32; 160; 5760;
    8192; 8193; 8194; 8195; 8196; 8197; 8198; 8199; 8200; 8201; 8202;
    8232; 8233; 8239; 8287; 12288; 65279 ]%N.

Definition is_ws (cp : N) : bool := existsb (N.eqb cp) white_space.

Fixpoint trimStart (l : list N) : list N :=
  match l with
  | [] => []
  | cp :: r => if is_ws cp then trimStart r else l
  end.

Definition trimEnd (l : list N) : list N := rev (trimStart (rev l)).

(** [String.prototype.trim]. *)
Definition trim (s : string) : string := encode (trimEnd (trimStart (decode s))).

(** The code points whose upper case is not themselves, each with its
    upper case: the full case mapping of the Unicode Character Database
    (UnicodeData.txt and the unconditional entries of SpecialCasing.txt),
    version 14.0. *)
Definition upper_table : list (N * list N) :=
  [
    (97, [65]); (98, [66]); (99, [67]); (100, [68]); (101, [69]); (102, [70]);
    (103, [71]); (104, [72]); (105, [73]); (106, [74]); (107, [75]);
    (108, [76]); (109, [77]); (110, [78]); (111, [79]); (112, [80]);
    (113, [81]); (114, [82]); (115, [83]); (116, [84]); (117, [85]);
    (118, [86]); (119, [87]); (120, [88]); (121, [89]); (122, [90]);
    (181, [924]); (223, [83; 83]); (224, [192]); (225, [193]); (226, [194]);
    (227, [195]); (228, [196]); (229, [197]); (230, [198]); (231, [199]);
    (232, [200]); (233, [201]); (234, [202]); (235, [203]); (236, [204]);
    (237, [205]); (238, [206]); (239, [207]); (240, [208]); (241, [209]);
    (242, [210]); (243, [211]); (244, [212]); (245, [213]); (246, [214]);
    (248, [216]); (249, [217]); (250, [218]); (251, [219]); (252, [220]);
    (253, [221]); (254, [222]); (255, [376]); (257, [256]); (259, [258]);
    (261, [260]); (263, [262]); (265, [264]); (267, [266]); (269, [268]);
    (271, [270]); (273, [272]); (275, [274]); (277, [276]); (279, [278]);
    (281, [280]); (283, [282]); (285, [284]); (287, [286]); (289, [288]);
    (291, [290]); (293, [292]); (295, [294]); (297, [296]); (299, [298]);
    (301, [300]); (303, [302]); (305, [73]); (307, [306]); (309, [308]);
    (311, [310]); (314, [313]); (316, [315]); (318, [317]); (320, [319]);
    (322, [321]); (324, [323]); (326, [325]); (328, [327]); (329, [700; 78]);
    (331, [330]); (333, [332]); (335, [334]); (337, [336]); (339, [338]);
    (341, [340]); (343, [342]); (345, [344]); (347, [346]); (349, [348]);
    (351, [350]); (353, [352]); (355, [354]); (357, [356]); (359, [358]);
    (361, [360]); (363, [362]); (365, [364]); (367, [366]); (369, [368]);
    (371, [370]); (373, [372]); (375, [374]); (378, [377]); (380, [379]);
    (382, [381]); (383, [83]); (384, [579]); (387, [386]); (389, [388]);
    (392, [391]); (396, [395]); (402, [401]); (405, [502]); (409, [408]);
    (410, [573]); (414, [544]); (417, [416]); (419, [418]); (421, [420]);
    (424, [423]); (429, [428]); (432, [431]); (436, [435]); (438, [437]);
    (441, [440]); (445, [444]); (447, [503]); (453, [452]); (454, [452]);
    (456, [455]); (457, [455]); (459, [458]); (460, [458]); (462, [461]);
    (464, [463]); (466, [465]); (468, [467]); (470, [469]); (472, [471]);
    (474, [473]); (476, [475]); (477, [398]); (479, [478]); (481, [480]);
    (483, [482]); (485, [484]); (487, [486]); (489, [488]); (491, [490]);
    (493, [492]); (495, [494]); (496, [74; 780]); (498, [497]); (499, [497]);
    (501, [500]); (505, [504]); (507, [506]); (509, [508]); (511, [510]);
    (513, [512]); (515, [514]); (517, [516]); (519, [518]); (521, [520]);
    (523, [522]); (525, [524]); (527, [526]); (529, [528]); (531, [530]);
    (533, [532]); (535, [534]); (537, [536]); (539, [538]); (541, [540]);
    (543, [542]); (547, [546]); (549, [548]); (551, [550]); (553, [552]);
    (555, [554]); (557, [556]); (559, [558]); (561, [560]); (563, [562]);
    (572, [571]); (575, [11390]); (576, [11391]); (578, [577]); (583, [582]);
    (585, [584]); (587, [586]); (589, [588]); (591, [590]); (592, [11375]);
    (593, [11373]); (594, [11376]); (595, [385]); (596, [390]); (598, [393]);
    (599, [394]); (601, [399]); (603, [400]); (604, [42923]); (608, [403]);
    (609, [42924]); (611, [404]); (613, [42893]); (614, [42922]); (616, [407]);
    (617, [406]); (618, [42926]); (619, [11362]); (620, [42925]); (623, [412]);
    (625, [11374]); (626, [413]); (629, [415]); (637, [11364]); (640, [422]);
    (642, [42949]); (643, [425]); (647, [42929]); (648, [430]); (649, [580]);
    (650, [433]); (651, [434]); (652, [581]); (658, [439]); (669, [42930]);
    (670, [42928]); (837, [921]); (881, [880]); (883, [882]); (887, [886]);
    (891, [1021]); (892, [1022]); (893, [1023]); (912, [921; 776; 769]);
    (940, [902]); (941, [904]); (942, [905]); (943, [906]);
    (944, [933; 776; 769]); (945, [913]); (946, [914]); (947, [915]);
    (948, [916]); (949, [917]); (950, [918]); (951, [919]); (952, [920]);
    (953, [921]); (954, [922]); (955, [923]); (956, [924]); (957, [925]);
    (958, [926]); (959, [927]); (960, [928]); (961, [929]); (962, [931]);
    (963, [931]); (964, [932]); (965, [933]); (966, [934]); (967, [935]);
    (968, [936]); (969, [937]); (970, [938]); (971, [939]); (972, [908]);
    (973, [910]); (974, [911]); (976, [914]); (977, [920]); (981, [934]);
    (982, [928]); (983, [975]); (985, [984]); (987, [986]); (989, [988]);
    (991, [990]); (993, [992]); (995, [994]); (997, [996]); (999, [998]);
    (1001, [1000]); (1003, [1002]); (1005, [1004]); (1007, [1006]);
    (1008, [922]); (1009, [929]); (1010, [1017]); (1011, [895]); (1013, [917]);
    (1016, [1015]); (1019, [1018]); (1072, [1040]); (1073, [1041]);
    (1074, [1042]); (1075, [1043]); (1076, [1044]); (1077, [1045]);
    (1078, [1046]); (1079, [1047]); (1080, [1048]); (1081, [1049]);
    (1082, [1050]); (1083, [1051]); (1084, [1052]); (1085, [1053]);
    (1086, [1054]); (1087, [1055]); (1088, [1056]); (1089, [1057]);
    (1090, [1058]); (1091, [1059]); (1092, [1060]); (1093, [1061]);
    (1094, [1062]); (1095, [1063]); (1096, [1064]); (1097, [1065]);
    (1098, [1066]); (1099, [1067]); (1100, [1068]); (1101, [1069]);
    (1102, [1070]); (1103, [1071]); (1104, [1024]); (1105, [1025]);
    (1106, [1026]); (1107, [1027]); (1108, [1028]); (1109, [1029]);
    (1110, [1030]); (1111, [1031]); (1112, [1032]); (1113, [1033]);
    (1114, [1034]); (1115, [1035]); (1116, [1036]); (1117, [1037]);
    (1118, [1038]); (1119, [1039]); (1121, [1120]); (1123, [1122]);
    (1125, [1124]); (1127, [1126]); (1129, [1128]); (1131, [1130]);
    (1133, [1132]); (1135, [1134]); (1137, [1136]); (1139, [1138]);
    (1141, [1140]); (1143, [1142]); (1145, [1144]); (1147, [1146]);
    (1149, [1148]); (1151, [1150]); (1153, [1152]); (1163, [1162]);
    (1165, [1164]); (1167, [1166]); (1169, [1168]); (1171, [1170]);
    (1173, [1172]); (1175, [1174]); (1177, [1176]); (1179, [1178]);
    (1181, [1180]); (1183, [1182]); (1185, [1184]); (1187, [1186]);
    (1189, [1188]); (1191, [1190]); (1193, [1192]); (1195, [1194]);
    (1197, [1196]); (1199, [1198]); (1201, [1200]); (1203, [1202]);
    (1205, [1204]); (1207, [1206]); (1209, [1208]); (1211, [1210]);
    (1213, [1212]); (1215, [1214]); (1218, [1217]); (1220, [1219]);
    (1222, [1221]); (1224, [1223]); (1226, [1225]); (1228, [1227]);
    (1230, [1229]); (1231, [1216]); (1233, [1232]); (1235, [1234]);
    (1237, [1236]); (1239, [1238]); (1241, [1240]); (1243, [1242]);
    (1245, [1244]); (1247, [1246]); (1249, [1248]); (1251, [1250]);
    (1253, [1252]); (1255, [1254]); (1257, [1256]); (1259, [1258]);
    (1261, [1260]); (1263, [1262]); (1265, [1264]); (1267, [1266]);
    (1269, [1268]); (1271, [1270]); (1273, [1272]); (1275, [1274]);
    (1277, [1276]); (1279, [1278]); (1281, [1280]); (1283, [1282]);
    (1285, [1284]); (1287, [1286]); (1289, [1288]); (1291, [1290]);
    (1293, [1292]); (1295, [1294]); (1297, [1296]); (1299, [1298]);
    (1301, [1300]); (1303, [1302]); (1305, [1304]); (1307, [1306]);
    (1309, [1308]); (1311, [1310]); (1313, [1312]); (1315, [1314]);
    (1317, [1316]); (1319, [1318]); (1321, [1320]); (1323, [1322]);
    (1325, [1324]); (1327, [1326]); (1377, [1329]); (1378, [1330]);
    (1379, [1331]); (1380, [1332]); (1381, [1333]); (1382, [1334]);
    (1383, [1335]); (1384, [1336]); (1385, [1337]); (1386, [1338]);
    (1387, [1339]); (1388, [1340]); (1389, [1341]); (1390, [1342]);
    (1391, [1343]); (1392, [1344]); (1393, [1345]); (1394, [1346]);
    (1395, [1347]); (1396, [1348]); (1397, [1349]); (1398, [1350]);
    (1399, [1351]); (1400, [1352]); (1401, [1353]); (1402, [1354]);
    (1403, [1355]); (1404, [1356]); (1405, [1357]); (1406, [1358]);
    (1407, [1359]); (1408, [1360]); (1409, [1361]); (1410, [1362]);
    (1411, [1363]); (1412, [1364]); (1413, [1365]); (1414, [1366]);
    (1415, [1333; 1362]); (4304, [7312]); (4305, [7313]); (4306, [7314]);
    (4307, [7315]); (4308, [7316]); (4309, [7317]); (4310, [7318]);
    (4311, [7319]); (4312, [7320]); (4313, [7321]); (4314, [7322]);
    (4315, [7323]); (4316, [7324]); (4317, [7325]); (4318, [7326]);
    (4319, [7327]); (4320, [7328]); (4321, [7329]); (4322, [7330]);
    (4323, [7331]); (4324, [7332]); (4325, [7333]); (4326, [7334]);
    (4327, [7335]); (4328, [7336]); (4329, [7337]); (4330, [7338]);
    (4331, [7339]); (4332, [7340]); (4333, [7341]); (4334, [7342]);
    (4335, [7343]); (4336, [7344]); (4337, [7345]); (4338, [7346]);
    (4339, [7347]); (4340, [7348]); (4341, [7349]); (4342, [7350]);
    (4343, [7351]); (4344, [7352]); (4345, [7353]); (4346, [7354]);
    (4349, [7357]); (4350, [7358]); (4351, [7359]); (5112, [5104]);
    (5113, [5105]); (5114, [5106]); (5115, [5107]); (5116, [5108]);
    (5117, [5109]); (7296, [1042]); (7297, [1044]); (7298, [1054]);
    (7299, [1057]); (7300, [1058]); (7301, [1058]); (7302, [1066]);
    (7303, [1122]); (7304, [42570]); (7545, [42877]); (7549, [11363]);
    (7566, [42950]); (7681, [7680]); (7683, [7682]); (7685, [7684]);
    (7687, [7686]); (7689, [7688]); (7691, [7690]); (7693, [7692]);
    (7695, [7694]); (7697, [7696]); (7699, [7698]); (7701, [7700]);
    (7703, [7702]); (7705, [7704]); (7707, [7706]); (7709, [7708]);
    (7711, [7710]); (7713, [7712]); (7715, [7714]); (7717, [7716]);
    (7719, [7718]); (7721, [7720]); (7723, [7722]); (7725, [7724]);
    (7727, [7726]); (7729, [7728]); (7731, [7730]); (7733, [7732]);
    (7735, [7734]); (7737, [7736]); (7739, [7738]); (7741, [7740]);
    (7743, [7742]); (7745, [7744]); (7747, [7746]); (7749, [7748]);
    (7751, [7750]); (7753, [7752]); (7755, [7754]); (7757, [7756]);
    (7759, [7758]); (7761, [7760]); (7763, [7762]); (7765, [7764]);
    (7767, [7766]); (7769, [7768]); (7771, [7770]); (7773, [7772]);
    (7775, [7774]); (7777, [7776]); (7779, [7778]); (7781, [7780]);
    (7783, [7782]); (7785, [7784]); (7787, [7786]); (7789, [7788]);
    (7791, [7790]); (7793, [7792]); (7795, [7794]); (7797, [7796]);
    (7799, [7798]); (7801, [7800]); (7803, [7802]); (7805, [7804]);
    (7807, [7806]); (7809, [7808]); (7811, [7810]); (7813, [7812]);
    (7815, [7814]); (7817, [7816]); (7819, [7818]); (7821, [7820]);
    (7823, [7822]); (7825, [7824]); (7827, [7826]); (7829, [7828]);
    (7830, [72; 817]); (7831, [84; 776]); (7832, [87; 778]); (7833, [89; 778]);
    (7834, [65; 702]); (7835, [7776]); (7841, [7840]); (7843, [7842]);
    (7845, [7844]); (7847, [7846]); (7849, [7848]); (7851, [7850]);
    (7853, [7852]); (7855, [7854]); (7857, [7856]); (7859, [7858]);
    (7861, [7860]); (7863, [7862]); (7865, [7864]); (7867, [7866]);
    (7869, [7868]); (7871, [7870]); (7873, [7872]); (7875, [7874]);
    (7877, [7876]); (7879, [7878]); (7881, [7880]); (7883, [7882]);
    (7885, [7884]); (7887, [7886]); (7889, [7888]); (7891, [7890]);
    (7893, [7892]); (7895, [7894]); (7897, [7896]); (7899, [7898]);
    (7901, [7900]); (7903, [7902]); (7905, [7904]); (7907, [7906]);
    (7909, [7908]); (7911, [7910]); (7913, [7912]); (7915, [7914]);
    (7917, [7916]); (7919, [7918]); (7921, [7920]); (7923, [7922]);
    (7925, [7924]); (7927, [7926]); (7929, [7928]); (7931, [7930]);
    (7933, [7932]); (7935, [7934]); (7936, [7944]); (7937, [7945]);
    (7938, [7946]); (7939, [7947]); (7940, [7948]); (7941, [7949]);
    (7942, [7950]); (7943, [7951]); (7952, [7960]); (7953, [7961]);
    (7954, [7962]); (7955, [7963]); (7956, [7964]); (7957, [7965]);
    (7968, [7976]); (7969, [7977]); (7970, [7978]); (7971, [7979]);
    (7972, [7980]); (7973, [7981]); (7974, [7982]); (7975, [7983]);
    (7984, [7992]); (7985, [7993]); (7986, [7994]); (7987, [7995]);
    (7988, [7996]); (7989, [7997]); (7990, [7998]); (7991, [7999]);
    (8000, [8008]); (8001, [8009]); (8002, [8010]); (8003, [8011]);
    (8004, [8012]); (8005, [8013]); (8016, [933; 787]); (8017, [8025]);
    (8018, [933; 787; 768]); (8019, [8027]); (8020, [933; 787; 769]);
    (8021, [8029]); (8022, [933; 787; 834]); (8023, [8031]); (8032, [8040]);
    (8033, [8041]); (8034, [8042]); (8035, [8043]); (8036, [8044]);
    (8037, [8045]); (8038, [8046]); (8039, [8047]); (8048, [8122]);
    (8049, [8123]); (8050, [8136]); (8051, [8137]); (8052, [8138]);
    (8053, [8139]); (8054, [8154]); (8055, [8155]); (8056, [8184]);
    (8057, [8185]); (8058, [8170]); (8059, [8171]); (8060, [8186]);
    (8061, [8187]); (8064, [7944; 921]); (8065, [7945; 921]);
    (8066, [7946; 921]); (8067, [7947; 921]); (8068, [7948; 921]);
    (8069, [7949; 921]); (8070, [7950; 921]); (8071, [7951; 921]);
    (8072, [7944; 921]); (8073, [7945; 921]); (8074, [7946; 921]);
    (8075, [7947; 921]); (8076, [7948; 921]); (8077, [7949; 921]);
    (8078, [7950; 921]); (8079, [7951; 921]); (8080, [7976; 921]);
    (8081, [7977; 921]); (8082, [7978; 921]); (8083, [7979; 921]);
    (8084, [7980; 921]); (8085, [7981; 921]); (8086, [7982; 921]);
    (8087, [7983; 921]); (8088, [7976; 921]); (8089, [7977; 921]);
    (8090, [7978; 921]); (8091, [7979; 921]); (8092, [7980; 921]);
    (8093, [7981; 921]); (8094, [7982; 921]); (8095, [7983; 921]);
    (8096, [8040; 921]); (8097, [8041; 921]); (8098, [8042; 921]);
    (8099, [8043; 921]); (8100, [8044; 921]); (8101, [8045; 921]);
    (8102, [8046; 921]); (8103, [8047; 921]); (8104, [8040; 921]);
    (8105, [8041; 921]); (8106, [8042; 921]); (8107, [8043; 921]);
    (8108, [8044; 921]); (8109, [8045; 921]); (8110, [8046; 921]);
    (8111, [8047; 921]); (8112, [8120]); (8113, [8121]); (8114, [8122; 921]);
    (8115, [913; 921]); (8116, [902; 921]); (8118, [913; 834]);
    (8119, [913; 834; 921]); (8124, [913; 921]); (8126, [921]);
    (8130, [8138; 921]); (8131, [919; 921]); (8132, [905; 921]);
    (8134, [919; 834]); (8135, [919; 834; 921]); (8140, [919; 921]);
    (8144, [8152]); (8145, [8153]); (8146, [921; 776; 768]);
    (8147, [921; 776; 769]); (8150, [921; 834]); (8151, [921; 776; 834]);
    (8160, [8168]); (8161, [8169]); (8162, [933; 776; 768]);
    (8163, [933; 776; 769]); (8164, [929; 787]); (8165, [8172]);
    (8166, [933; 834]); (8167, [933; 776; 834]); (8178, [8186; 921]);
    (8179, [937; 921]); (8180, [911; 921]); (8182, [937; 834]);
    (8183, [937; 834; 921]); (8188, [937; 921]); (8526, [8498]);
    (8560, [8544]); (8561, [8545]); (8562, [8546]); (8563, [8547]);
    (8564, [8548]); (8565, [8549]); (8566, [8550]); (8567, [8551]);
    (8568, [8552]); (8569, [8553]); (8570, [8554]); (8571, [8555]);
    (8572, [8556]); (8573, [8557]); (8574, [8558]); (8575, [8559]);
    (8580, [8579]); (9424, [9398]); (9425, [9399]); (9426, [9400]);
    (9427, [9401]); (9428, [9402]); (9429, [9403]); (9430, [9404]);
    (9431, [9405]); (9432, [9406]); (9433, [9407]); (9434, [9408]);
    (9435, [9409]); (9436, [9410]); (9437, [9411]); (9438, [9412]);
    (9439, [9413]); (9440, [9414]); (9441, [9415]); (9442, [9416]);
    (9443, [9417]); (9444, [9418]); (9445, [9419]); (9446, [9420]);
    (9447, [9421]); (9448, [9422]); (9449, [9423]); (11312, [11264]);
    (11313, [11265]); (11314, [11266]); (11315, [11267]); (11316, [11268]);
    (11317, [11269]); (11318, [11270]); (11319, [11271]); (11320, [11272]);
    (11321, [11273]); (11322, [11274]); (11323, [11275]); (11324, [11276]);
    (11325, [11277]); (11326, [11278]); (11327, [11279]); (11328, [11280]);
    (11329, [11281]); (11330, [11282]); (11331, [11283]); (11332, [11284]);
    (11333, [11285]); (11334, [11286]); (11335, [11287]); (11336, [11288]);
    (11337, [11289]); (11338, [11290]); (11339, [11291]); (11340, [11292]);
    (11341, [11293]); (11342, [11294]); (11343, [11295]); (11344, [11296]);
    (11345, [11297]); (11346, [11298]); (11347, [11299]); (11348, [11300]);
    (11349, [11301]); (11350, [11302]); (11351, [11303]); (11352, [11304]);
    (11353, [11305]); (11354, [11306]); (11355, [11307]); (11356, [11308]);
    (11357, [11309]); (11358, [11310]); (11359, [11311]); (11361, [11360]);
    (11365, [570]); (11366, [574]); (11368, [11367]); (11370, [11369]);
    (11372, [11371]); (11379, [11378]); (11382, [11381]); (11393, [11392]);
    (11395, [11394]); (11397, [11396]); (11399, [11398]); (11401, [11400]);
    (11403, [11402]); (11405, [11404]); (11407, [11406]); (11409, [11408]);
    (11411, [11410]); (11413, [11412]); (11415, [11414]); (11417, [11416]);
    (11419, [11418]); (11421, [11420]); (11423, [11422]); (11425, [11424]);
    (11427, [11426]); (11429, [11428]); (11431, [11430]); (11433, [11432]);
    (11435, [11434]); (11437, [11436]); (11439, [11438]); (11441, [11440]);
    (11443, [11442]); (11445, [11444]); (11447, [11446]); (11449, [11448]);
    (11451, [11450]); (11453, [11452]); (11455, [11454]); (11457, [11456]);
    (11459, [11458]); (11461, [11460]); (11463, [11462]); (11465, [11464]);
    (11467, [11466]); (11469, [11468]); (11471, [11470]); (11473, [11472]);
    (11475, [11474]); (11477, [11476]); (11479, [11478]); (11481, [11480]);
    (11483, [11482]); (11485, [11484]); (11487, [11486]); (11489, [11488]);
    (11491, [11490]); (11500, [11499]); (11502, [11501]); (11507, [11506]);
    (11520, [4256]); (11521, [4257]); (11522, [4258]); (11523, [4259]);
    (11524, [4260]); (11525, [4261]); (11526, [4262]); (11527, [4263]);
    (11528, [4264]); (11529, [4265]); (11530, [4266]); (11531, [4267]);
    (11532, [4268]); (11533, [4269]); (11534, [4270]); (11535, [4271]);
    (11536, [4272]); (11537, [4273]); (11538, [4274]); (11539, [4275]);
    (11540, [4276]); (11541, [4277]); (11542, [4278]); (11543, [4279]);
    (11544, [4280]); (11545, [4281]); (11546, [4282]); (11547, [4283]);
    (11548, [4284]); (11549, [4285]); (11550, [4286]); (11551, [4287]);
    (11552, [4288]); (11553, [4289]); (11554, [4290]); (11555, [4291]);
    (11556, [4292]); (11557, [4293]); (11559, [4295]); (11565, [4301]);
    (42561, [42560]); (42563, [42562]); (42565, [42564]); (42567, [42566]);
    (42569, [42568]); (42571, [42570]); (42573, [42572]); (42575, [42574]);
    (42577, [42576]); (42579, [42578]); (42581, [42580]); (42583, [42582]);
    (42585, [42584]); (42587, [42586]); (42589, [42588]); (42591, [42590]);
    (42593, [42592]); (42595, [42594]); (42597, [42596]); (42599, [42598]);
    (42601, [42600]); (42603, [42602]); (42605, [42604]); (42625, [42624]);
    (42627, [42626]); (42629, [42628]); (42631, [42630]); (42633, [42632]);
    (42635, [42634]); (42637, [42636]); (42639, [42638]); (42641, [42640]);
    (42643, [42642]); (42645, [42644]); (42647, [42646]); (42649, [42648]);
    (42651, [42650]); (42787, [42786]); (42789, [42788]); (42791, [42790]);
    (42793, [42792]); (42795, [42794]); (42797, [42796]); (42799, [42798]);
    (42803, [42802]); (42805, [42804]); (42807, [42806]); (42809, [42808]);
    (42811, [42810]); (42813, [42812]); (42815, [42814]); (42817, [42816]);
    (42819, [42818]); (42821, [42820]); (42823, [42822]); (42825, [42824]);
    (42827, [42826]); (42829, [42828]); (42831, [42830]); (42833, [42832]);
    (42835, [42834]); (42837, [42836]); (42839, [42838]); (42841, [42840]);
    (42843, [42842]); (42845, [42844]); (42847, [42846]); (42849, [42848]);
    (42851, [42850]); (42853, [42852]); (42855, [42854]); (42857, [42856]);
    (42859, [42858]); (42861, [42860]); (42863, [42862]); (42874, [42873]);
    (42876, [42875]); (42879, [42878]); (42881, [42880]); (42883, [42882]);
    (42885, [42884]); (42887, [42886]); (42892, [42891]); (42897, [42896]);
    (42899, [42898]); (42900, [42948]); (42903, [42902]); (42905, [42904]);
    (42907, [42906]); (42909, [42908]); (42911, [42910]); (42913, [42912]);
    (42915, [42914]); (42917, [42916]); (42919, [42918]); (42921, [42920]);
    (42933, [42932]); (42935, [42934]); (42937, [42936]); (42939, [42938]);
    (42941, [42940]); (42943, [42942]); (42945, [42944]); (42947, [42946]);
    (42952, [42951]); (42954, [42953]); (42961, [42960]); (42967, [42966]);
    (42969, [42968]); (42998, [42997]); (43859, [42931]); (43888, [5024]);
    (43889, [5025]); (43890, [5026]); (43891, [5027]); (43892, [5028]);
    (43893, [5029]); (43894, [5030]); (43895, [5031]); (43896, [5032]);
    (43897, [5033]); (43898, [5034]); (43899, [5035]); (43900, [5036]);
    (43901, [5037]); (43902, [5038]); (43903, [5039]); (43904, [5040]);
    (43905, [5041]); (43906, [5042]); (43907, [5043]); (43908, [5044]);
    (43909, [5045]); (43910, [5046]); (43911, [5047]); (43912, [5048]);
    (43913, [5049]); (43914, [5050]); (43915, [5051]); (43916, [5052]);
    (43917, [5053]); (43918, [5054]); (43919, [5055]); (43920, [5056]);
    (43921, [5057]); (43922, [5058]); (43923, [5059]); (43924, [5060]);
    (43925, [5061]); (43926, [5062]); (43927, [5063]); (43928, [5064]);
    (43929, [5065]); (43930, [5066]); (43931, [5067]); (43932, [5068]);
    (43933, [5069]); (43934, [5070]); (43935, [5071]); (43936, [5072]);
    (43937, [5073]); (43938, [5074]); (43939, [5075]); (43940, [5076]);
    (43941, [5077]); (43942, [5078]); (43943, [5079]); (43944, [5080]);
    (43945, [5081]); (43946, [5082]); (43947, [5083]); (43948, [5084]);
    (43949, [5085]); (43950, [5086]); (43951, [5087]); (43952, [5088]);
    (43953, [5089]); (43954, [5090]); (43955, [5091]); (43956, [5092]);
    (43957, [5093]); (43958, [5094]); (43959, [5095]); (43960, [5096]);
    (43961, [5097]); (43962, [5098]); (43963, [5099]); (43964, [5100]);
    (43965, [5101]); (43966, [5102]); (43967, [5103]); (64256, [70; 70]);
    (64257, [70; 73]); (64258, [70; 76]); (64259, [70; 70; 73]);
    (64260, [70; 70; 76]); (64261, [83; 84]); (64262, [83; 84]);
    (64275, [1348; 1350]); (64276, [1348; 1333]); (64277, [1348; 1339]);
    (64278, [1358; 1350]); (64279, [1348; 1341]); (65345, [65313]);
    (65346, [65314]); (65347, [65315]); (65348, [65316]); (65349, [65317]);
    (65350, [65318]); (65351, [65319]); (65352, [65320]); (65353, [65321]);
    (65354, [65322]); (65355, [65323]); (65356, [65324]); (65357, [65325]);
    (65358, [65326]); (65359, [65327]); (65360, [65328]); (65361, [65329]);
    (65362, [65330]); (65363, [65331]); (65364, [65332]); (65365, [65333]);
    (65366, [65334]); (65367, [65335]); (65368, [65336]); (65369, [65337]);
    (65370, [65338]); (66600, [66560]); (66601, [66561]); (66602, [66562]);
    (66603, [66563]); (66604, [66564]); (66605, [66565]); (66606, [66566]);
    (66607, [66567]); (66608, [66568]); (66609, [66569]); (66610, [66570]);
    (66611, [66571]); (66612, [66572]); (66613, [66573]); (66614, [66574]);
    (66615, [66575]); (66616, [66576]); (66617, [66577]); (66618, [66578]);
    (66619, [66579]); (66620, [66580]); (66621, [66581]); (66622, [66582]);
    (66623, [66583]); (66624, [66584]); (66625, [66585]); (66626, [66586]);
    (66627, [66587]); (66628, [66588]); (66629, [66589]); (66630, [66590]);
    (66631, [66591]); (66632, [66592]); (66633, [66593]); (66634, [66594]);
    (66635, [66595]); (66636, [66596]); (66637, [66597]); (66638, [66598]);
    (66639, [66599]); (66776, [66736]); (66777, [66737]); (66778, [66738]);
    (66779, [66739]); (66780, [66740]); (66781, [66741]); (66782, [66742]);
    (66783, [66743]); (66784, [66744]); (66785, [66745]); (66786, [66746]);
    (66787, [66747]); (66788, [66748]); (66789, [66749]); (66790, [66750]);
    (66791, [66751]); (66792, [66752]); (66793, [66753]); (66794, [66754]);
    (66795, [66755]); (66796, [66756]); (66797, [66757]); (66798, [66758]);
    (66799, [66759]); (66800, [66760]); (66801, [66761]); (66802, [66762]);
    (66803, [66763]); (66804, [66764]); (66805, [66765]); (66806, [66766]);
    (66807, [66767]); (66808, [66768]); (66809, [66769]); (66810, [66770]);
    (66811, [66771]); (66967, [66928]); (66968, [66929]); (66969, [66930]);
    (66970, [66931]); (66971, [66932]); (66972, [66933]); (66973, [66934]);
    (66974, [66935]); (66975, [66936]); (66976, [66937]); (66977, [66938]);
    (66979, [66940]); (66980, [66941]); (66981, [66942]); (66982, [66943]);
    (66983, [66944]); (66984, [66945]); (66985, [66946]); (66986, [66947]);
    (66987, [66948]); (66988, [66949]); (66989, [66950]); (66990, [66951]);
    (66991, [66952]); (66992, [66953]); (66993, [66954]); (66995, [66956]);
    (66996, [66957]); (66997, [66958]); (66998, [66959]); (66999, [66960]);
    (67000, [66961]); (67001, [66962]); (67003, [66964]); (67004, [66965]);
    (68800, [68736]); (68801, [68737]); (68802, [68738]); (68803, [68739]);
    (68804, [68740]); (68805, [68741]); (68806, [68742]); (68807, [68743]);
    (68808, [68744]); (68809, [68745]); (68810, [68746]); (68811, [68747]);
    (68812, [68748]); (68813, [68749]); (68814, [68750]); (68815, [68751]);
    (68816, [68752]); (68817, [68753]); (68818, [68754]); (68819, [68755]);
    (68820, [68756]); (68821, [68757]); (68822, [68758]); (68823, [68759]);
    (68824, [68760]); (68825, [68761]); (68826, [68762]); (68827, [68763]);
    (68828, [68764]); (68829, [68765]); (68830, [68766]); (68831, [68767]);
    (68832, [68768]); (68833, [68769]); (68834, [68770]); (68835, [68771]);
    (68836, [68772]); (68837, [68773]); (68838, [68774]); (68839, [68775]);
    (68840, [68776]); (68841, [68777]); (68842, [68778]); (68843, [68779]);
    (68844, [68780]); (68845, [68781]); (68846, [68782]); (68847, [68783]);
    (68848, [68784]); (68849, [68785]); (68850, [68786]); (71872, [71840]);
    (71873, [71841]); (71874, [71842]); (71875, [71843]); (71876, [71844]);
    (71877, [71845]); (71878, [71846]); (71879, [71847]); (71880, [71848]);
    (71881, [71849]); (71882, [71850]); (71883, [71851]); (71884, [71852]);
    (71885, [71853]); (71886, [71854]); (71887, [71855]); (71888, [71856]);
    (71889, [71857]); (71890, [71858]); (71891, [71859]); (71892, [71860]);
    (71893, [71861]); (71894, [71862]); (71895, [71863]); (71896, [71864]);
    (71897, [71865]); (71898, [71866]); (71899, [71867]); (71900, [71868]);
    (71901, [71869]); (71902, [71870]); (71903, [71871]); (93792, [93760]);
    (93793, [93761]); (93794, [93762]); (93795, [93763]); (93796, [93764]);
    (93797, [93765]); (93798, [93766]); (93799, [93767]); (93800, [93768]);
    (93801, [93769]); (93802, [93770]); (93803, [93771]); (93804, [93772]);
    (93805, [93773]); (93806, [93774]); (93807, [93775]); (93808, [93776]);
    (93809, [93777]); (93810, [93778]); (93811, [93779]); (93812, [93780]);
    (93813, [93781]); (93814, [93782]); (93815, [93783]); (93816, [93784]);
    (93817, [93785]); (93818, [93786]); (93819, [93787]); (93820, [93788]);
    (93821, [93789]); (93822, [93790]); (93823, [93791]); (125218, [125184]);
    (125219, [125185]); (125220, [125186]); (125221, [125187]);
    (125222, [125188]); (125223, [125189]); (125224, [125190]);
    (125225, [125191]); (125226, [125192]); (125227, [125193]);
    (125228, [125194]); (125229, [125195]); (125230, [125196]);
    (125231, [125197]); (125232, [125198]); (125233, [125199]);
    (125234, [125200]); (125235, [125201]); (125236, [125202]);
    (125237, [125203]); (125238, [125204]); (125239, [125205]);
    (125240, [125206]); (125241, [125207]); (125242, [125208]);
    (125243, [125209]); (125244, [125210]); (125245, [125211]);
    (125246, [125212]); (125247, [125213]); (125248, [125214]);
    (125249, [125215]); (125250, [125216]); (125251, [125217])
  ]%N.

Definition upper_cp (cp : N) : list N :=
  match List.find (fun entry => N.eqb (fst entry) cp) upper_table with
  | Some entry => snd entry
  | None => [cp]
  end.

(** [String.prototype.toUpperCase]. *)
Definition toUpperCase (s : string) : string :=
  encode (flat_map upper_cp (decode s)).

(** A code point: at most U+10FFFF. *)
Definition code_point (cp : N) : Prop := (cp < 1114112)%N.

(** [hay.includes(needle)]. *)
Fixpoint includes (needle hay : string) : bool :=
  (String.prefix needle hay ||
   match hay with
   | EmptyString => false
   | String _ r => includes needle r
   end)%bool.

(** [o?.includes(needle)], falsy when [o] is absent. *)
Definition opt_includes (needle : string) (o : option string) : bool :=
  match o with
  | Some s => includes needle s
  | None => false
  end.

(** *** Numbers *)

Definition number : Type := spec_float.

Definition prec : Z := 53.
Definition emax : Z := 1024.

Definition mul : number -> number -> number := SFmul prec emax.
Definition sub : number -> number -> number := SFsub prec emax.
Definition div : number -> number -> number := SFdiv prec emax.

(** The number denoted by an integer literal. *)
Definition of_Z (z : Z) : number := binary_normalize prec emax z 0 false.

Definition zero : number := S754_zero false.
Definition one : number := of_Z 1.

(** [a > b]; false as soon as one side is [NaN]. *)
Definition gt (a b : number) : bool := SFltb b a.

Definition is_NaN (x : number) : bool :=
  match x with S754_nan => true | _ => false end.

Definition is_infinite (x : number) : bool :=
  match x with S754_infinity _ => true | _ => false end.

Definition is_finite (x : number) : bool :=
  match x with S754_zero _ | S754_finite _ _ _ => true | _ => false end.

(** Truthiness of a number: [0], [-0] and [NaN] are falsy. *)
Definition truthy_num (x : number) : bool :=
  match x with
  | S754_zero _ | S754_nan => false
  | _ => true
  end.

(** [parseFloat(x || "0")] for an optional numeric field: a missing or
    falsy field reads as [+0], every other number as itself. *)
Definition parseFloat_or_0 (x : option number) : number :=
  match x with
  | Some v => if truthy_num v then v else zero
  | None => zero
  end.

(** [parseFloat(x)]: [NaN] when the field is missing. *)
Definition parseFloat (x : option number) : number :=
  match x with
  | Some v => v
  | None => S754_nan
  end.

(** *** JSON values stored in [broker_data] *)

Inductive json : Type :=
| JStr (s : string)
| JBool (b : bool)
| JNum (n : Z)
| JTime (ms : Z)      (* an ISO-8601 timestamp, as epoch milliseconds *)
| JNull.

(** Truthiness of a stored value. *)
Definition truthy_json (v : json) : bool :=
  match v with
  | JStr s => negb (String.eqb s "")
  | JBool b => b
  | JNum n => negb (Z.eqb n 0)
  | JTime _ => true
  | JNull => false
  end.

(** *** Dates *)

(** The time value of a date, in milliseconds since the epoch, is at most
    this far from it. *)
Definition max_time : Z := 8640000000000000.

(** [TimeClip]: [None] is [NaN]. *)
Definition time_clip (t : Z) : option Z :=
  if (- max_time <=? t) && (t <=? max_time) then Some t else None.

Definition digit (c : ascii) : option Z :=
  let n := Z.of_N (N_of_ascii c) in
  if (48 <=? n) && (n <=? 57) then Some (n - 48) else None.

(** [n] digits, read as a number after [acc], and the rest. *)
Fixpoint digits (n : nat) (acc : Z) (s : string) : option (Z * string) :=
  match n with
  | O => Some (acc, s)
  | S n' =>
      match s with
      | String c r =>
          match digit c with
          | Some d => digits n' (10 * acc + d) r
          | None => None
          end
      | EmptyString => None
      end
  end.

(** The rest after the character [c]. *)
Definition expect (c : ascii) (s : string) : option string :=
  match s with
  | String c' r => if Ascii.eqb c c' then Some r else None
  | EmptyString => None
  end.

Definition leap (y : Z) : bool :=
  (y mod 4 =? 0) && (negb (y mod 100 =? 0) || (y mod 400 =? 0)).

Definition days_in_month (y m : Z) : Z :=
  if m =? 2 then (if leap y then 29 else 28)
  else if (m =? 4) || (m =? 6) || (m =? 9) || (m =? 11) then 30
  else 31.

(** The days from 1970-01-01 to the day [d] of the month [m] of the year
    [y], in the proleptic Gregorian calendar. *)
Definition day_number (y m d : Z) : Z :=
  let y' := if m <=? 2 then y - 1 else y in
  let era := y' / 400 in
  let yoe := y' - era * 400 in
  let doy := (153 * (if 2 <? m then m - 3 else m + 9) + 2) / 5 + d - 1 in
  let doe := yoe * 365 + yoe / 4 - yoe / 100 + doy in
  era * 146097 + doe - 719468.

(** [YYYY], or an expanded year [+YYYYYY], [-YYYYYY] other than [-000000]. *)
Definition parse_year (s : string) : option (Z * string) :=
  match s with
  | String "+" r => digits 6 0 r
  | String "-" r =>
      match digits 6 0 r with
      | Some (y, r') => if y =? 0 then None else Some (- y, r')
      | None => None
      end
  | _ => digits 4 0 s
  end.

(** [YYYY], [YYYY-MM] or [YYYY-MM-DD]: year, month, day and the rest. *)
Definition parse_date (s : string) : option (Z * Z * Z * string) :=
  match parse_year s with
  | Some (y, s1) =>
      match expect "-" s1 with
      | None => Some (y, 1, 1, s1)
      | Some s2 =>
          match digits 2 0 s2 with
          | Some (m, s3) =>
              match expect "-" s3 with
              | None => Some (y, m, 1, s3)
              | Some s4 =>
                  match digits 2 0 s4 with
                  | Some (d, s5) => Some (y, m, d, s5)
                  | None => None
                  end
              end
          | None => None
          end
      end
  | None => None
  end.

(** The offset from UTC in minutes: [Z], [+HH:mm] or [-HH:mm]; nothing
    reads as the local time, here UTC. *)
Definition parse_offset (s : string) : option Z :=
  match s with
  | EmptyString => Some 0
  | String "Z" EmptyString => Some 0
  | String sign r =>
      if Ascii.eqb sign "+" || Ascii.eqb sign "-" then
        match digits 2 0 r with
        | Some (h, r1) =>
            match expect ":" r1 with
            | Some r2 =>
                match digits 2 0 r2 with
                | Some (m, r3) =>
                    if String.eqb r3 "" && (h <=? 23) && (m <=? 59) then
                      Some ((if Ascii.eqb sign "+" then 1 else -1) * (h * 60 + m))
                    else None
                | None => None
                end
            | None => None
            end
        | None => None
        end
      else None
  end.

(** [:ss] or [:ss.sss], when present: seconds, milliseconds and the rest. *)
Definition parse_seconds (s : string) : option (Z * Z * string) :=
  match expect ":" s with
  | None => Some (0, 0, s)
  | Some s1 =>
      match digits 2 0 s1 with
      | Some (sec, s2) =>
          match expect "." s2 with
          | None => Some (sec, 0, s2)
          | Some s3 =>
              match digits 3 0 s3 with
              | Some (ms, s4) => Some (sec, ms, s4)
              | None => None
              end
          end
      | None => None
      end
  end.

(** [THH:mm], [THH:mm:ss] or [THH:mm:ss.sss] and the offset: the
    milliseconds to add to the start of the day in UTC. *)
Definition parse_time (s : string) : option Z :=
  match expect "T" s with
  | Some s1 =>
      match digits 2 0 s1 with
      | Some (h, s2) =>
          match expect ":" s2 with
          | Some s3 =>
              match digits 2 0 s3 with
              | Some (mi, s4) =>
                  match parse_seconds s4 with
                  | Some (sec, ms, s5) =>
                      match parse_offset s5 with
                      | Some off =>
                          if (h <=? 24) && (mi <=? 59) && (sec <=? 59)
                             && ((h <? 24) || ((mi =? 0) && (sec =? 0) && (ms =? 0)))
                          then Some (h * 3600000 + mi * 60000 + sec * 1000 + ms
                                     - off * 60000)
                          else None
                      | None => None
                      end
                  | None => None
                  end
              | None => None
              end
          | None => None
          end
      | None => None
      end
  | None => None
  end.

(** The date-time string format of ECMAScript, on a host whose time zone
    is UTC. *)
Definition parse_date_time (s : string) : option Z :=
  match parse_date s with
  | Some (y, m, d, r) =>
      if (1 <=? m) && (m <=? 12) && (1 <=? d) && (d <=? days_in_month y m) then
        match (if String.eqb r "" then Some 0 else parse_time r) with
        | Some t => time_clip (day_number y m d * 86400000 + t)
        | None => None
        end
      else None
  | None => None
  end.

(** [Date.parse]: the time value of a date string, [None] for [NaN].
    ECMAScript fixes it on the date-time string format only, lets the
    host read any other string as it likes, and reads a date-time without
    offset in the time zone of the host: the parser is a parameter. *)
Class Dates : Type := { Date_parse : string -> option Z }.

(** The parser that reads the date-time string format and nothing else. *)
#[global] Instance iso_dates : Dates := {| Date_parse := parse_date_time |}.

(** [new Date(v).getTime()]; [None] is the [NaN] of an invalid date. The
    timestamps that the program writes with [toISOString] are [JTime];
    any other string goes through [Date.parse]. *)
Definition date_getTime `{Dates} (v : json) : option Z :=
  match v with
  | JTime ms => Some ms
  | JNum n => time_clip n
  | JBool b => Some (if b then 1 else 0)
  | JNull => Some 0
  | JStr s => Date_parse s
  end.

(** What a [throw] carries: the fields of the thrown value that the
    callers inspect. *)
Record error : Type := mkError {
  message : option string;                (* error.message *)
  status : option Z;                      (* error.status *)
  response_status : option Z;             (* error.response?.status *)
  response_data : option string;          (* JSON.stringify(error.response.data) *)
  response_detail : option string;        (* error.response?.data?.detail *)
  responseBody_detail : option string;    (* error.responseBody?.detail *)
  responseBody_status_code : option Z;    (* error.responseBody?.status_code *)
  instanceof_Error : bool                 (* error instanceof Error *)
}.

(** [new Error(msg)]. *)
Definition Error (msg : string) : error :=
  {| message := Some msg; status := None; response_status := None;
     response_data := None; response_detail := None;
     responseBody_detail := None; responseBody_status_code := None;
     instanceof_Error := true |}.

End Js.

(** ** [snaptrade-sdk.ts] *)

Definition SUPPORTED_BROKERS : list string :=
  [ "ALPACA"; "FIDELITY"; "QUESTRADE"; "ROBINHOOD"; "TRADIER";
    "TRADESTATION"; "VANGUARD"; "SCHWAB" ].

(** ** The [broker_connections] table *)

(** One row with [broker_id = "snaptrade"]; the key [user_id] is the key of
    the table below. *)
Record Row : Type := mkRow {
  api_key : option string;
  api_secret_encrypted : option string;
  is_active : bool;
  broker_data : gmap string Js.json
}.

Definition set_broker_data (bd : gmap string Js.json) (r : Row) : Row :=
  {| api_key := api_key r; api_secret_encrypted := api_secret_encrypted r;
     is_active := is_active r; broker_data := bd |}.

Definition set_secret_and_data (s : option string) (bd : gmap string Js.json)
    (r : Row) : Row :=
  {| api_key := api_key r; api_secret_encrypted := s;
     is_active := is_active r; broker_data := bd |}.

Definition set_active_and_data (a : bool) (bd : gmap string Js.json)
    (r : Row) : Row :=
  {| api_key := api_key r; api_secret_encrypted := api_secret_encrypted r;
     is_active := a; broker_data := bd |}.

(** The sentinel written before the remote registration completes. *)
Definition pending_registration : string := "pending_registration".

(** [s && s !== "pending_registration"]. *)
Definition real_secret (s : option string) : bool :=
  (Js.truthy s && negb (bool_decide (s = Some pending_registration)))%bool.

(** The result of [.maybeSingle()]: [{ data, error }]. *)
Record selected : Type := mkSelected {
  data : option Row;
  error : option string
}.

(** ** The SnapTrade SDK *)

(** [response.data] of [registerSnapTradeUser]; also what
    [registerSnapTradeUser] of this module returns. *)
Record UserIDandSecret : Type := mkUser {
  userId : option string;
  userSecret : option string
}.

Record LoginParams : Type := mkLogin {
  login_userId : string;
  login_userSecret : option string;
  login_broker : option string;          (* [None]: the key is left out *)
  immediateRedirect : bool;
  customRedirect : string;
  connectionPortalVersion : string
}.

Record LoginData : Type := mkLoginData {
  redirectURI : option string
}.

Record Account : Type := mkAccount {
  account_id : string;
  account_name : option string;
  brokerage_name : option string         (* account.brokerage?.name *)
}.

(** [position.symbol]: an object, a plain string, or missing. *)
Inductive symbol_ref : Type :=
| SymbolObj (symbol description : option string)
| SymbolStr (s : string)
| SymbolMissing.

Record Position : Type := mkPosition {
  position_symbol : symbol_ref;
  position_quantity : option Js.number;
  position_price : option Js.number;
  position_bookValue : option Js.number;
  position_currency : option string
}.

Record Balance : Type := mkBalance {
  balance_cash : bool;
  balance_amount : option Js.number;
  balance_currency : option string
}.

(** One entry of the list returned by [fetchSnapTradeHoldings]; [symbol] and
    [name] hold what the position carries, a string in the common case. *)
Record Holding : Type := mkHolding {
  symbol : symbol_ref;
  name : symbol_ref;
  quantity : Js.number;
  pricePerShare : Js.number;
  totalValue : Js.number;
  gainLoss : Js.number;
  purchasePrice : Js.number;
  accountId : string;
  accountName : string;
  brokerName : string;
  currency : string;
  isPending : bool;                      (* absent reads as [false] *)
  isError : bool;
  errorMessage : option string
}.

(** A call returns or throws. *)
Inductive outcome (A : Type) : Type :=
| Ok (a : A)
| Throw (e : Js.error).

Arguments Ok {A} a.
Arguments Throw {A} e.

(** The endpoints used by the module, over the remote state [R]; each
    returns [response.data] or throws. *)
Class SnapTradeApi (R : Type) : Type := {
  api_registerSnapTradeUser :
    string -> R -> outcome (option UserIDandSecret) * R;
  api_deleteSnapTradeUser :
    string -> R -> outcome unit * R;
  api_loginSnapTradeUser :
    LoginParams -> R -> outcome (option LoginData) * R;
  api_listUserAccounts :
    string -> option string -> R -> outcome (option (list Account)) * R;
  api_getUserAccountPositions :
    string -> option string -> string -> R -> outcome (option (list Position)) * R;
  api_getUserAccountBalance :
    string -> option string -> string -> R -> outcome (option (list Balance)) * R
}.

(** ** The world *)

Inductive Event : Type :=
| CallRegisterSnapTradeUser (uid : string)   (* this module's function entered *)
| CallCreateSnapTradeUserLink (uid : string)
| ApiRegister (uid : string)                 (* remote endpoints *)
| ApiDelete (uid : string)
| ApiLogin (p : LoginParams)
| ApiListAccounts (uid : string)
| ApiPositions (accountId : string)
| ApiBalances (accountId : string).

Record World (R : Type) : Type := mkWorld {
  sdk : bool;                   (* [snaptrade] is not [null] *)
  rows : gmap string Row;       (* broker_connections, by user_id *)
  remote : R;
  clock : Z;                    (* Date.now() *)
  faults : list bool;           (* outcomes of the coming store operations:
                                   [true] is an operation answered with
                                   [{ error }] and without effect *)
  trace : list Event            (* oldest first *)
}.

Arguments mkWorld {R}.
Arguments sdk {R}.
Arguments rows {R}.
Arguments remote {R}.
Arguments clock {R}.
Arguments faults {R}.
Arguments trace {R}.

(** ** Computations: state and exceptions *)

Definition M (S A : Type) : Type := S -> outcome A * S.

Definition ret {S A : Type} (a : A) : M S A := fun w => (Ok a, w).

Definition throw {S A : Type} (e : Js.error) : M S A := fun w => (Throw e, w).

Definition bind {S A B : Type} (c : M S A) (k : A -> M S B) : M S B :=
  fun w =>
    match c w with
    | (Ok a, w') => k a w'
    | (Throw e, w') => (Throw e, w')
    end.

(** [try { c } catch (e) { h e }]. *)
Definition try_catch {S A : Type} (c : M S A) (h : Js.error -> M S A) : M S A :=
  fun w =>
    match c w with
    | (Ok a, w') => (Ok a, w')
    | (Throw e, w') => h e w'
    end.

Declare Scope js_scope.
Delimit Scope js_scope with js.

Notation "x <- c ;; k" := (bind c (fun x => k))
  (at level 100, c at next level, right associativity) : js_scope.
Notation "c ;; k" := (bind c (fun _ => k))
  (at level 100, right associativity) : js_scope.

Open Scope js_scope.

Section Snaptrade.

Context {R : Type} `{SnapTradeApi R} {dates : Js.Dates}.

Abbreviation W := (World R).

(** *** Primitive steps *)

Definition get_world : M W W := fun w => (Ok w, w).

(** [Date.now()]; [new Date().toISOString()] is the same instant. *)
Definition now : M W Z := fun w => (Ok (clock w), w).

(** The world with one more event in its trace. *)
Definition log (e : Event) (w : W) : W :=
  mkWorld (sdk w) (rows w) (remote w) (clock w) (faults w) (trace w ++ [e]).

Definition emit (e : Event) : M W unit := fun w => (Ok tt, log e w).

Definition set_rows (m : gmap string Row) : M W unit :=
  fun w => (Ok tt, mkWorld (sdk w) m (remote w) (clock w) (faults w) (trace w)).

(** Whether the next store operation fails. *)
Definition next_fault : M W bool :=
  fun w =>
    match faults w with
    | [] => (Ok false, w)
    | b :: fs =>
        (Ok b, mkWorld (sdk w) (rows w) (remote w) (clock w) fs (trace w))
    end.

(** A remote call: the event is recorded, then the endpoint runs on the
    remote state. *)
Definition call {A : Type} (e : Event) (f : R -> outcome A * R) : M W A :=
  fun w =>
    let '(o, r') := f (remote w) in
    (o, mkWorld (sdk w) (rows w) r' (clock w) (faults w) (trace w ++ [e])).

(** *** Store operations *)

(** [.from("broker_connections").select(..).eq("user_id", uid)
    .eq("broker_id", "snaptrade")[.eq("is_active", true)].maybeSingle()]. *)
Definition select_connection (uid : string) (only_active : bool) : M W selected :=
  failed <- next_fault ;;
  if failed : bool then
    ret {| data := None; error := Some "store error" |}
  else
    w <- get_world ;;
    let found :=
      match rows w !! uid with
      | Some r => if (negb only_active || is_active r)%bool then Some r else None
      | None => None
      end in
    ret {| data := found; error := None |}.

(** [.update(..).eq("user_id", uid).eq("broker_id", "snaptrade")]: only an
    existing row changes; the result is the [error] of the answer, which
    most callers do not look at. *)
Definition update_connection (uid : string) (f : Row -> Row)
    : M W (option string) :=
  failed <- next_fault ;;
  if failed : bool then ret (Some "store error")
  else w <- get_world ;; set_rows (alter f uid (rows w)) ;; ret None.

(** [.upsert(row, { onConflict: "user_id,broker_id", ignoreDuplicates: false })]. *)
Definition upsert_connection (uid : string) (r : Row) : M W (option string) :=
  failed <- next_fault ;;
  if failed : bool then ret (Some "store error")
  else w <- get_world ;; set_rows (<[uid := r]> (rows w)) ;; ret None.

(** *** [registerSnapTradeUser] *)

Definition already_exist_detail : string :=
  "User with the following userId already exist".

(** The test of lines 307-316 on the caught error. *)
Definition is_already_exists (e : Js.error) : bool :=
  ((bool_decide (Js.response_status e = Some 400) ||
    bool_decide (Js.status e = Some 400)) &&
   (Js.opt_includes already_exist_detail (Js.response_detail e) ||
    Js.opt_includes already_exist_detail (Js.responseBody_detail e)))%bool.

(** [response.data && response.data.userSecret]. *)
Definition has_userSecret (d : option UserIDandSecret) : option UserIDandSecret :=
  match d with
  | Some u => if Js.truthy (userSecret u) then Some u else None
  | None => None
  end.

(** Lines 242-252: the secret of the active row, if there is one. *)
Definition lookupExisting (uid : string) : M W (option string) :=
  existingConnection <- select_connection uid true ;;
  ret (data existingConnection ≫= api_secret_encrypted).

(** Lines 264-276: the placeholder row. *)
Definition writePlaceholder (uid : string) : M W (option string) :=
  t <- now ;;
  upsert_connection uid
    {| api_key := Some "snaptrade_user";
       api_secret_encrypted := Some pending_registration;
       is_active := true;
       broker_data := {[ "registration_started_at" := Js.JTime t ]} |}.

(** Lines 280-304: the body of the inner [try]. *)
Definition directRegistration (uid : string) : M W UserIDandSecret :=
  response <- call (ApiRegister uid) (api_registerSnapTradeUser uid) ;;
  match has_userSecret response with
  | Some d =>
      t <- now ;;
      update_connection uid
        (set_secret_and_data (userSecret d)
           (<[ "registered_at" := Js.JTime t ]>
            (<[ "snap_trade_user_id" :=
                  match userId d with Some i => Js.JStr i | None => Js.JNull end ]>
            {[ "registration_method" := Js.JStr "direct" ]}))) ;;
      ret d
  | None =>
      throw (Js.Error "Failed to register user with SnapTrade - no data returned")
  end.

(** Line 337: [`${userId}_${Date.now()}`]. *)
Definition modified_id (uid : string) (t : Z) : string :=
  uid +:+ "_" +:+ pretty t.

(** Line 369: [`fake_secret_${Date.now()}`]. *)
Definition fake_secret (t : Z) : string := "fake_secret_" +:+ pretty t.

(** Line 509: [`emergency_fallback_${Date.now()}`]. *)
Definition emergency_secret (t : Z) : string :=
  "emergency_fallback_" +:+ pretty t.

(** Lines 336-366: registration under a modified id; [None] when it
    returned no secret or threw. *)
Definition registerModifiedId (uid : string) : M W (option UserIDandSecret) :=
  t <- now ;;
  let modifiedUserId := modified_id uid t in
  try_catch
    (newUserResponse <-
       call (ApiRegister modifiedUserId) (api_registerSnapTradeUser modifiedUserId) ;;
     match has_userSecret newUserResponse with
     | Some d =>
         t' <- now ;;
         update_connection uid
           (set_secret_and_data (userSecret d)
              (<[ "registered_at" := Js.JTime t' ]>
               (<[ "snap_trade_user_id" := Js.JStr modifiedUserId ]>
               (<[ "original_user_id" := Js.JStr uid ]>
               {[ "registration_method" := Js.JStr "modified_id" ]})))) ;;
         ret (Some {| userId := Some uid; userSecret := userSecret d |})
     | None => ret None
     end)
    (fun newUserError => ret None).

(** Lines 368-385: the synthesized secret. *)
Definition fallbackFakeSecret (uid : string) : M W UserIDandSecret :=
  t <- now ;;
  let fakeSecret := fake_secret t in
  t' <- now ;;
  update_connection uid
    (set_secret_and_data (Some fakeSecret)
       (<[ "registered_at" := Js.JTime t' ]>
        (<[ "snap_trade_user_id" := Js.JStr uid ]>
        (<[ "registration_method" := Js.JStr "fallback" ]>
        {[ "is_fake_secret" := Js.JBool true ]})))) ;;
  ret {| userId := Some uid; userSecret := Some fakeSecret |}.

(** Lines 317-386: the branch taken on "user already exists". *)
Definition onUserAlreadyExists (uid : string) : M W UserIDandSecret :=
  existingData <- select_connection uid false ;;
  let stored := data existingData ≫= api_secret_encrypted in
  if real_secret stored then
    ret {| userId := Some uid; userSecret := stored |}
  else
    r <- registerModifiedId uid ;;
    match r with
    | Some u => ret u
    | None => fallbackFakeSecret uid
    end.

(** Lines 388-401: any other error. *)
Definition markRegistrationFailed (uid : string) (registerError : Js.error)
    : M W UserIDandSecret :=
  t <- now ;;
  update_connection uid
    (set_active_and_data false
       (<[ "registration_failed_at" := Js.JTime t ]>
        {[ "error_message" :=
             Js.JStr (Js.or_else (Js.message registerError) "Unknown error") ]})) ;;
  throw registerError.

(** Lines 305-402: the [catch] of the inner [try]. *)
Definition onRegisterError (uid : string) (registerError : Js.error)
    : M W UserIDandSecret :=
  if is_already_exists registerError then onUserAlreadyExists uid
  else markRegistrationFailed uid registerError.

Definition registerSnapTradeUser (uid : string) : M W UserIDandSecret :=
  emit (CallRegisterSnapTradeUser uid) ;;
  w <- get_world ;;
  if negb (sdk w) then throw (Js.Error "SnapTrade SDK not initialized")
  else
    stored <- lookupExisting uid ;;
    if Js.truthy stored then
      ret {| userId := Some uid; userSecret := stored |}
    else
      writePlaceholder uid ;;
      try_catch (directRegistration uid) (onRegisterError uid).

(** *** [getUserSecret] *)

Definition ms_per_day : Z := 1000 * 60 * 60 * 24.

(** Lines 467-478, at time [t]: without [registered_at] a refresh is due;
    with an unreadable date every comparison is false. *)
Definition needsRefresh (bd : gmap string Js.json) (t : Z) : bool :=
  match bd !! "registered_at" with
  | Some registeredAt =>
      if Js.truthy_json registeredAt then
        match Js.date_getTime registeredAt with
        | Some registrationDate =>
            let daysSinceRegistration := (t - registrationDate) / ms_per_day in
            Z.ltb 7 daysSinceRegistration
        | None => false
        end
      else true
  | None => true
  end.

(** [data && data.is_active && data.api_secret_encrypted &&
     data.api_secret_encrypted !== "pending_registration"]. *)
Definition usable (d : option Row) : bool :=
  match d with
  | Some r => (is_active r && real_secret (api_secret_encrypted r))%bool
  | None => false
  end.

(** [data.broker_data?.is_fake_secret === true]. *)
Definition isFakeSecret (r : Row) : bool :=
  match broker_data r !! "is_fake_secret" with
  | Some (Js.JBool true) => true
  | _ => false
  end.

(** Lines 449-484: the stored secret, when it is returned at once. *)
Definition cachedSecret (d : option Row) (forceReregister : bool) (t : Z)
    : option (option string) :=
  match d with
  | Some r =>
      if usable d then
        if isFakeSecret r then
          if negb forceReregister then Some (api_secret_encrypted r) else None
        else
          if (negb (needsRefresh (broker_data r) t) && negb forceReregister)%bool
          then Some (api_secret_encrypted r) else None
      else None
  | None => None
  end.

(** Lines 508-528: the emergency secret. *)
Definition emergencyFallback (uid : string) (regError : Js.error)
    : M W (option string) :=
  t <- now ;;
  let fakeSecret := emergency_secret t in
  t' <- now ;;
  upsert_connection uid
    {| api_key := Some "snaptrade_user";
       api_secret_encrypted := Some fakeSecret;
       is_active := true;
       broker_data :=
         <[ "registered_at" := Js.JTime t' ]>
         (<[ "registration_method" := Js.JStr "emergency_fallback" ]>
         (<[ "is_fake_secret" := Js.JBool true ]>
         {[ "original_error" :=
              Js.JStr (Js.or_else (Js.message regError) "Unknown error") ]})) |} ;;
  ret (Some fakeSecret).

Definition getUserSecret (uid : string) (forceReregister : bool)
    : M W (option string) :=
  sel <- select_connection uid false ;;
  match error sel with
  | Some _ => throw (Js.Error "Database error when retrieving user secret")
  | None =>
      t <- now ;;
      match cachedSecret (data sel) forceReregister t with
      | Some s => ret s
      | None =>
          try_catch
            (registrationResult <- registerSnapTradeUser uid ;;
             ret (userSecret registrationResult))
            (fun regError =>
               if usable (data sel) then
                 ret (data sel ≫= api_secret_encrypted)
               else emergencyFallback uid regError)
      end
  end.

(** *** [createSnapTradeUserLink] *)

(** Lines 688-692. *)
Definition special_broker (upperBrokerId : string) : bool :=
  (String.eqb upperBrokerId "INTERACTIVE_BROKERS" ||
   String.eqb upperBrokerId "IBKR" ||
   String.eqb upperBrokerId "SCHWAB")%bool.

(** Lines 680-711: the value of [snapTradeBrokerId] after the block;
    [None] is [undefined] or [null]. *)
Definition snapTradeBrokerId (brokerId : option string) : option string :=
  match brokerId with
  | Some b =>
      if (Js.truthy brokerId && negb (String.eqb (Js.trim b) ""))%bool then
        let upperBrokerId := Js.toUpperCase b in
        if special_broker upperBrokerId then None else Some upperBrokerId
      else brokerId
  | None => None
  end.

(** Lines 719-725: the [broker] key of the login call, [None] when the key
    is left out. *)
Definition brokerParam (id : option string) : option string :=
  match id with
  | Some b =>
      if (Js.truthy id && negb (String.eqb (Js.trim b) "") &&
          negb (String.eqb b "IBKR") &&
          negb (String.eqb b "INTERACTIVE_BROKERS") &&
          negb (String.eqb b "SCHWAB"))%bool
      then Some b else None
  | None => None
  end.

(** Lines 750-761: the update after a link was generated. *)
Definition recordConnectionStarted (uid : string) (id : option string)
    : M W (option string) :=
  t <- now ;;
  update_connection uid
    (set_broker_data
       (<[ "connection_started" := Js.JTime t ]>
        {[ "broker_id" := Js.JStr (Js.or_else id "any") ]})).

(** Lines 714-729: the argument of [loginSnapTradeUser]. *)
Definition loginRequest (uid : string) (secret : option string)
    (redirectUri : string) (brokerId : option string) : LoginParams :=
  {| login_userId := uid;
     login_userSecret := secret;
     login_broker := brokerParam (snapTradeBrokerId brokerId);
     immediateRedirect := true;
     customRedirect := redirectUri;
     connectionPortalVersion := "v4" |}.

(** Lines 677-763: the body of the inner [try]. *)
Definition linkBody (uid redirectUri : string) (brokerId : option string)
    : M W string :=
  secret <- getUserSecret uid false ;;
  let request := loginRequest uid secret redirectUri brokerId in
  response <- call (ApiLogin request) (api_loginSnapTradeUser request) ;;
  match response with
  | None =>
      throw (Js.Error "Failed to generate connection portal URL - no data returned")
  | Some d =>
      match redirectURI d with
      | Some uri =>
          if String.eqb uri "" then
            throw (Js.Error "Failed to generate connection portal URL - no redirect URI")
          else
            recordConnectionStarted uid (snapTradeBrokerId brokerId) ;;
            ret uri
      | None =>
          throw (Js.Error "Failed to generate connection portal URL - no redirect URI")
      end
  end.

(** One execution of the function body either settles the promise or ends
    in [return createSnapTradeUserLink(userId, redirectUri, brokerId)]:
    the promise of the new call is returned without [await], so none of
    the enclosing [catch] blocks sees its rejection. *)
Inductive link_step : Type :=
| Return (uri : string)
| Reenter.

(** Lines 778-814: delete the remote user and register it again; [true]
    when the function is then called again. *)
Definition recreateUser (uid : string) : M W bool :=
  try_catch
    (call (ApiDelete uid) (api_deleteSnapTradeUser uid) ;;
     newRegistration <- call (ApiRegister uid) (api_registerSnapTradeUser uid) ;;
     match has_userSecret newRegistration with
     | Some d =>
         t <- now ;;
         upsert_connection uid
           {| api_key := Some "snaptrade_user";
              api_secret_encrypted := userSecret d;
              is_active := true;
              broker_data :=
                <[ "registered_at" := Js.JTime t ]>
                {[ "snap_trade_user_id" :=
                     match userId d with
                     | Some i => Js.JStr i
                     | None => Js.JNull
                     end ]} |} ;;
         ret true
     | None => ret false
     end)
    (fun recreateError => ret false).

(** [regError.response?.status === 400 || regError.status === 400]. *)
Definition is_400 (e : Js.error) : bool :=
  (bool_decide (Js.response_status e = Some 400) ||
   bool_decide (Js.status e = Some 400))%bool.

(** Lines 767-820. *)
Definition onNotRegistered (uid : string) : M W link_step :=
  try_catch
    (registerSnapTradeUser uid ;; ret Reenter)
    (fun regError =>
       retried <- (if is_400 regError then recreateUser uid else ret false) ;;
       if retried : bool then ret Reenter
       else
         throw (Js.Error ("Failed to register user: " +:+
                          Js.or_else (Js.message regError) "Unknown error"))).

Definition not_registered_message : string :=
  "User not registered with SnapTrade".

(** Lines 829-834. *)
Definition errorDetails (e : Js.error) : string :=
  Js.or_else (Js.response_detail e)
    (Js.or_else (Js.responseBody_detail e)
       (Js.or_else (Js.response_data e)
          (Js.or_else (Js.message e) "Unknown error"))).

(** One execution of the body of [createSnapTradeUserLink]. *)
Definition linkAttempt (uid redirectUri : string) (brokerId : option string)
    : M W link_step :=
  emit (CallCreateSnapTradeUserLink uid) ;;
  w <- get_world ;;
  if negb (sdk w) then throw (Js.Error "SnapTrade SDK not initialized")
  else
    try_catch
      (try_catch
         (uri <- linkBody uid redirectUri brokerId ;; ret (Return uri))
         (fun secretError =>
            if bool_decide (Js.message secretError = Some not_registered_message)
            then onNotRegistered uid
            else throw secretError))
      (fun error =>
         throw (Js.Error ("Failed to link account: " +:+ errorDetails error))).

(** The function: the body, re-entered as long as it asks for it. The
    source has no counter; [fuel] bounds the number of bodies run, and
    [None] is a run that has not settled within it. *)
Fixpoint createSnapTradeUserLink (fuel : nat) (uid redirectUri : string)
    (brokerId : option string) (w : W) : option (outcome string) * W :=
  match fuel with
  | O => (None, w)
  | S fuel' =>
      match linkAttempt uid redirectUri brokerId w with
      | (Ok (Return uri), w') => (Some (Ok uri), w')
      | (Ok Reenter, w') => createSnapTradeUserLink fuel' uid redirectUri brokerId w'
      | (Throw e, w') => (Some (Throw e), w')
      end
  end.

(** *** [fetchSnapTradeHoldings] *)

(** [a || b] on optional numbers. *)
Definition or_num (a : option Z) (b : Z) : Z :=
  match a with
  | Some n => if Z.eqb n 0 then b else n
  | None => b
  end.

(** [position.symbol.symbol || position.symbol]. *)
Definition symbol_or_self (s : symbol_ref) : symbol_ref :=
  match s with
  | SymbolObj (Some sym) _ => if String.eqb sym "" then s else SymbolStr sym
  | _ => s
  end.

(** [position.symbol.description || position.symbol.symbol || position.symbol]. *)
Definition description_or_symbol (s : symbol_ref) : symbol_ref :=
  match s with
  | SymbolObj _ (Some d) => if String.eqb d "" then symbol_or_self s else SymbolStr d
  | _ => symbol_or_self s
  end.

(** Lines 918-940: the callback of [map]; reading a property of a missing
    [position.symbol] throws a [TypeError]. *)
Definition toHolding (account : Account) (position : Position) : outcome Holding :=
  let quantity := Js.parseFloat_or_0 (position_quantity position) in
  let price := Js.parseFloat_or_0 (position_price position) in
  let bookValue := Js.parseFloat_or_0 (position_bookValue position) in
  let totalValue := Js.mul quantity price in
  match position_symbol position with
  | SymbolMissing =>
      Throw (Js.Error "Cannot read properties of undefined (reading 'symbol')")
  | sym =>
      Ok {| symbol := symbol_or_self sym;
            name := description_or_symbol sym;
            quantity := quantity;
            pricePerShare := price;
            totalValue := totalValue;
            gainLoss := Js.sub totalValue bookValue;
            purchasePrice := Js.div bookValue quantity;
            accountId := account_id account;
            accountName := Js.or_else (account_name account) "Investment Account";
            brokerName := Js.or_else (brokerage_name account) "SnapTrade";
            currency := Js.or_else (position_currency position) "USD";
            isPending := false;
            isError := false;
            errorMessage := None |}
  end.

(** [positions.map(toHolding)]: the first throw ends the map. *)
Fixpoint map_outcome {A B : Type} (f : A -> outcome B) (l : list A)
    : outcome (list B) :=
  match l with
  | [] => Ok []
  | x :: r =>
      match f x with
      | Ok y =>
          match map_outcome f r with
          | Ok ys => Ok (y :: ys)
          | Throw e => Throw e
          end
      | Throw e => Throw e
      end
  end.

(** Lines 957-971: one cash balance. *)
Definition cashHolding (account : Account) (balance : Balance) : Holding :=
  {| symbol := SymbolStr "CASH";
     name := SymbolStr ("Cash (" +:+
               match balance_currency balance with
               | Some c => c
               | None => "undefined"
               end +:+ ")");
     quantity := Js.one;
     pricePerShare := Js.parseFloat (balance_amount balance);
     totalValue := Js.parseFloat (balance_amount balance);
     gainLoss := Js.zero;
     purchasePrice := Js.parseFloat (balance_amount balance);
     accountId := account_id account;
     accountName := Js.or_else (account_name account) "Investment Account";
     brokerName := Js.or_else (brokerage_name account) "SnapTrade";
     currency := Js.or_else (balance_currency balance) "USD";
     isPending := false;
     isError := false;
     errorMessage := None |}.

Definition cashHoldings (account : Account) (balances : list Balance)
    : list Holding :=
  flat_map
    (fun balance =>
       if (balance_cash balance &&
           Js.gt (Js.parseFloat (balance_amount balance)) Js.zero)%bool
       then [cashHolding account balance] else [])
    balances.

(** Lines 991-1004. *)
Definition pendingHolding (account : Account) : Holding :=
  {| symbol := SymbolStr "PENDING";
     name := SymbolStr (Js.or_else (account_name account) "Account" +:+ " (Syncing...)");
     quantity := Js.zero;
     pricePerShare := Js.zero;
     totalValue := Js.zero;
     gainLoss := Js.zero;
     purchasePrice := Js.zero;
     accountId := account_id account;
     accountName := Js.or_else (account_name account) "Investment Account";
     brokerName := Js.or_else (brokerage_name account) "SnapTrade";
     currency := "USD";
     isPending := true;
     isError := false;
     errorMessage := None |}.

(** Lines 1019-1035. *)
Definition errorHolding (error : Js.error) : Holding :=
  {| symbol := SymbolStr "ERROR";
     name := SymbolStr "Error fetching holdings";
     quantity := Js.zero;
     pricePerShare := Js.zero;
     totalValue := Js.zero;
     gainLoss := Js.zero;
     purchasePrice := Js.zero;
     accountId := "error";
     accountName := "Error";
     brokerName := "SnapTrade";
     currency := "USD";
     isPending := false;
     isError := true;
     errorMessage :=
       if Js.instanceof_Error error then Js.message error
       else Some "Unknown error" |}.

(** Lines 908-943: positions of one account, appended to [holdings]. *)
Definition accountPositions (uid : string) (secret : option string)
    (account : Account) (holdings : list Holding) : M W (list Holding) :=
  positionsResponse <-
    call (ApiPositions (account_id account))
         (api_getUserAccountPositions uid secret (account_id account)) ;;
  match positionsResponse with
  | Some positions =>
      match map_outcome (toHolding account) positions with
      | Ok accountHoldings => ret (holdings ++ accountHoldings)
      | Throw e => throw e
      end
  | None => ret holdings
  end.

(** Lines 945-980: cash balances of one account, with their own [try]. *)
Definition accountBalances (uid : string) (secret : option string)
    (account : Account) (holdings : list Holding) : M W (list Holding) :=
  try_catch
    (balancesResponse <-
       call (ApiBalances (account_id account))
            (api_getUserAccountBalance uid secret (account_id account)) ;;
     match balancesResponse with
     | Some balances => ret (holdings ++ cashHoldings account balances)
     | None => ret holdings
     end)
    (fun balanceError => ret holdings).

(** Lines 983-985. *)
Definition is_too_early (positionError : Js.error) : bool :=
  let errorStatus :=
    or_num (Js.status positionError)
      (or_num (Js.responseBody_status_code positionError) 0) in
  (Z.eqb errorStatus 425 ||
   Js.opt_includes "425" (Js.message positionError))%bool.

(** Lines 907-1012: the body of the loop. *)
Definition processAccount (uid : string) (secret : option string)
    (holdings : list Holding) (account : Account) : M W (list Holding) :=
  try_catch
    (hs <- accountPositions uid secret account holdings ;;
     accountBalances uid secret account hs)
    (fun positionError =>
       if is_too_early positionError
       then ret (holdings ++ [pendingHolding account])
       else ret holdings).

Fixpoint processAccounts (uid : string) (secret : option string)
    (accounts : list Account) (holdings : list Holding) : M W (list Holding) :=
  match accounts with
  | [] => ret holdings
  | account :: rest =>
      hs <- processAccount uid secret holdings account ;;
      processAccounts uid secret rest hs
  end.

(** Lines 901-903. *)
Definition accountsToProcess (accountId : option string)
    (accounts : list Account) : list Account :=
  match accountId with
  | Some i =>
      if Js.truthy accountId
      then List.filter (fun acc => String.eqb (account_id acc) i) accounts
      else accounts
  | None => accounts
  end.

Definition fetchSnapTradeHoldings (uid : string) (accountId : option string)
    : M W (list Holding) :=
  w <- get_world ;;
  if negb (sdk w) then throw (Js.Error "SnapTrade SDK not initialized")
  else
    try_catch
      (secret <- getUserSecret uid false ;;
       accountsResponse <-
         call (ApiListAccounts uid) (api_listUserAccounts uid secret) ;;
       match accountsResponse with
       | None => throw (Js.Error "Failed to fetch accounts")
       | Some accounts =>
           processAccounts uid secret (accountsToProcess accountId accounts) []
       end)
      (fun error => ret [errorHolding error]).

(** *** The other updates of the connection row *)

(** [existingData?.broker_data || {}]. *)
Definition existingBrokerData (sel : selected) : gmap string Js.json :=
  match data sel with
  | Some r => broker_data r
  | None => ∅
  end.

(** [v || existing[key] || null]. *)
Definition or_existing (v : option string) (existing : gmap string Js.json)
    (key : string) : Js.json :=
  if Js.truthy v then Js.JStr (default "" v)
  else
    match existing !! key with
    | Some old => if Js.truthy_json old then old else Js.JNull
    | None => Js.JNull
    end.

(** [deleteSnapTradeConnection], lines 603-624: mark the row inactive. *)
Definition markDisconnected (uid authorizationId : string) : M W (option string) :=
  existingData <- select_connection uid false ;;
  let existing := existingBrokerData existingData in
  t <- now ;;
  update_connection uid
    (set_active_and_data false
       (<[ "disconnected_at" := Js.JTime t ]>
        (<[ "authorization_id" := Js.JStr authorizationId ]> existing))).

(** The [DELETE] handler, lines 101-109 and 147-159. *)
Definition markUserDeleted (uid : string) : M W (option string) :=
  existingData <- select_connection uid false ;;
  let existing := existingBrokerData existingData in
  t <- now ;;
  update_connection uid
    (set_active_and_data false
       (<[ "deleted_at" := Js.JTime t ]>
        (<[ "user_deleted" := Js.JBool true ]> existing))).

(** [handleSnapTradeCallback], lines 1061-1084: mark the row active. *)
Definition markConnected (uid : string) (authorizationId brokerage : option string)
    : M W (option string) :=
  existingData <- select_connection uid false ;;
  let existing := existingBrokerData existingData in
  t <- now ;;
  update_connection uid
    (set_active_and_data true
       (<[ "connected_at" := Js.JTime t ]>
        (<[ "brokerage" := or_existing brokerage existing "brokerage" ]>
        (<[ "authorization_id" :=
              or_existing authorizationId existing "authorization_id" ]>
         existing)))).

End Snaptrade.

(** ** Reading runs

    [run c w Q]: the outcome and the final world of [c] started in [w]
    satisfy [Q]. *)

Section Logic.

Context {R : Type} `{SnapTradeApi R} {dates : Js.Dates}.

Definition run {A : Type} (c : M (World R) A) (w : World R)
    (Q : outcome A -> World R -> Prop) : Prop :=
  forall o w', c w = (o, w') -> Q o w'.

(** Whether the next store operation of [w] fails. *)
Definition failing (w : World R) : bool := hd false (faults w).

(** The world after one store operation that leaves the table as [m]. *)
Definition after_store (m : gmap string Row) (w : World R) : World R :=
  mkWorld (sdk w) m (remote w) (clock w) (tl (faults w)) (trace w).

(** The world after a remote call recorded as [e] that leaves the remote
    in [r']. *)
Definition after_call (e : Event) (r' : R) (w : World R) : World R :=
  mkWorld (sdk w) (rows w) r' (clock w) (faults w) (trace w ++ [e]).

(** What [select_connection] answers in [w]. *)
Definition selection (uid : string) (only_active : bool) (w : World R) : selected :=
  if failing w then {| data := None; error := Some "store error" |}
  else
    {| data :=
         match rows w !! uid with
         | Some r => if (negb only_active || is_active r)%bool then Some r else None
         | None => None
         end;
       error := None |}.

(** The [error] of the answer to a write in [w]. *)
Definition write_error (w : World R) : option string :=
  if failing w then Some "store error" else None.

(** [w'] is [w] after some steps that recorded [evs]: the SDK handle and
    the clock are the same, the trace grew by [evs], and a store without
    pending failures still has none. *)
Record frame (w w' : World R) (evs : list Event) : Prop := mkFrame {
  frame_sdk : sdk w' = sdk w;
  frame_clock : clock w' = clock w;
  frame_trace : trace w' = trace w ++ evs;
  frame_reliable : faults w = [] -> faults w' = []
}.

End Logic.

Definition is_api_register (e : Event) : bool :=
  match e with ApiRegister _ => true | _ => false end.

Definition is_call_register (e : Event) : bool :=
  match e with CallRegisterSnapTradeUser _ => true | _ => false end.

Definition is_call_link (e : Event) : bool :=
  match e with CallCreateSnapTradeUserLink _ => true | _ => false end.

Definition is_api_login (e : Event) : bool :=
  match e with ApiLogin _ => true | _ => false end.

(** Events of a registration: the function entered, the endpoint called. *)
Definition registration_event (e : Event) : bool :=
  (is_call_register e || is_api_register e)%bool.

(** How many events of [tr] satisfy [p]. *)
Definition count (p : Event -> bool) (tr : list Event) : nat :=
  length (List.filter p tr).

(** [response.data] of a call that returned; nothing for one that threw. *)
Definition ok_data {A : Type} (o : outcome (option A)) : option A :=
  match o with
  | Ok d => d
  | Throw _ => None
  end.

(** Whether the store operation that comes after [n] others from [w]
    fails. *)
Definition fault {R : Type} (n : nat) (w : World R) : bool :=
  hd false (Nat.iter n (@tl bool) (faults w)).

(** ** Comparing [broker_data] before and after an update *)

(** Every key outside [keys] reads the same in [new] as in [old]. *)
Definition keeps_other_keys (keys : list string) (old new : gmap string Js.json)
    : Prop :=
  forall k, k ∉ keys -> new !! k = old !! k.

(** No key outside [keys] is present in [new]. *)
Definition only_keys (keys : list string) (new : gmap string Js.json) : Prop :=
  forall k, k ∉ keys -> new !! k = None.

(** What every holding made for [account] satisfies: it is not the error
    sentinel and it carries the id of the account. *)
Definition of_account (account : Account) (h : Holding) : Prop :=
  isError h = false /\ accountId h = account_id account.

(** ** Re-entries of [createSnapTradeUserLink] *)

Section Retry.

Context {R : Type} `{SnapTradeApi R} {dates : Js.Dates}.

(** [reenters uid redirectUri brokerId n w w']: [n] executions of the body
    in a row, the first one started in [w], each ended in a call of the
    function again; [w'] is where the next body starts. *)
Inductive reenters (uid redirectUri : string) (brokerId : option string)
    : nat -> World R -> World R -> Prop :=
| reenters_O (w : World R) :
    reenters uid redirectUri brokerId 0 w w
| reenters_S (n : nat) (w w1 w2 : World R) :
    linkAttempt uid redirectUri brokerId w = (Ok Reenter, w1) ->
    reenters uid redirectUri brokerId n w1 w2 ->
    reenters uid redirectUri brokerId (S n) w w2.

(** [w'] follows [w] by steps that record no entry into
    [createSnapTradeUserLink]. *)
Definition quiet (w w' : World R) : Prop :=
  exists evs, frame w w' evs /\ Forall (fun e => is_call_link e = false) evs.

(** What the caller gets from a body that does not ask to be re-entered. *)
Definition settled (o : outcome link_step) : option (outcome string) :=
  match o with
  | Ok (Return uri) => Some (Ok uri)
  | Ok Reenter => None
  | Throw e => Some (Throw e)
  end.

End Retry.

(** ** A scripted remote

    A remote whose answers depend on the request only; the remote state is
    the script itself. *)

Record Script : Type := mkScript {
  on_register : string -> outcome (option UserIDandSecret);
  on_delete : string -> outcome unit;
  on_login : LoginParams -> outcome (option LoginData);
  on_accounts : string -> outcome (option (list Account));
  on_positions : string -> outcome (option (list Position));
  on_balances : string -> outcome (option (list Balance))
}.

#[global] Instance scripted_api : SnapTradeApi Script := {|
  api_registerSnapTradeUser uid s := (on_register s uid, s);
  api_deleteSnapTradeUser uid s := (on_delete s uid, s);
  api_loginSnapTradeUser p s := (on_login s p, s);
  api_listUserAccounts uid _ s := (on_accounts s uid, s);
  api_getUserAccountPositions _ _ acc s := (on_positions s acc, s);
  api_getUserAccountBalance _ _ acc s := (on_balances s acc, s)
|}.

(** The HTTP 400 answer of the register endpoint for a known user id. *)
Definition conflict_error : Js.error :=
  {| Js.message := Some "Request failed with status code 400";
     Js.status := Some 400;
     Js.response_status := None;
     Js.response_data := None;
     Js.response_detail := None;
     Js.responseBody_detail :=
       Some "User with the following userId already exist: u1";
     Js.responseBody_status_code := Some 400;
     Js.instanceof_Error := true |}.

(** The HTTP 425 answer of the positions endpoint during the first sync. *)
Definition too_early_error : Js.error :=
  {| Js.message := Some "Request failed with status code 425";
     Js.status := Some 425;
     Js.response_status := None;
     Js.response_data := None;
     Js.response_detail := None;
     Js.responseBody_detail := None;
     Js.responseBody_status_code := Some 425;
     Js.instanceof_Error := true |}.

(** A remote that is down: every endpoint throws. *)
Definition offline : Script :=
  {| on_register _ := Throw (Js.Error "Network Error");
     on_delete _ := Throw (Js.Error "Network Error");
     on_login _ := Throw (Js.Error "Network Error");
     on_accounts _ := Throw (Js.Error "Network Error");
     on_positions _ := Throw (Js.Error "Network Error");
     on_balances _ := Throw (Js.Error "Network Error") |}.

(** A world with an empty table, a reliable store and an initialised SDK. *)
Definition start (s : Script) (t : Z) : World Script :=
  {| sdk := true; rows := ∅; remote := s; clock := t; faults := []; trace := [] |}.

Definition with_rows (m : gmap string Row) (w : World Script) : World Script :=
  {| sdk := sdk w; rows := m; remote := remote w; clock := clock w;
     faults := faults w; trace := trace w |}.

Definition with_faults (fs : list bool) (w : World Script) : World Script :=
  {| sdk := sdk w; rows := rows w; remote := remote w; clock := clock w;
     faults := fs; trace := trace w |}.

Definition without_sdk (w : World Script) : World Script :=
  {| sdk := false; rows := rows w; remote := remote w; clock := clock w;
     faults := faults w; trace := trace w |}.

(** A position without quantity and without book value, one with a book
    value only, and an ordinary one: 10 shares at 25, bought for 200. *)
Definition acct1 : Account :=
  {| account_id := "acc-1"; account_name := Some "Margin";
     brokerage_name := Some "Questrade" |}.

Definition position_no_quantity : Position :=
  {| position_symbol := SymbolObj (Some "AAPL") (Some "Apple Inc.");
     position_quantity := None; position_price := Some (Js.of_Z 25);
     position_bookValue := None; position_currency := Some "USD" |}.

Definition position_zero_quantity : Position :=
  {| position_symbol := SymbolObj (Some "AAPL") (Some "Apple Inc.");
     position_quantity := Some Js.zero; position_price := Some (Js.of_Z 25);
     position_bookValue := Some (Js.of_Z 200); position_currency := Some "USD" |}.

Definition position_ten_shares : Position :=
  {| position_symbol := SymbolObj (Some "AAPL") (Some "Apple Inc.");
     position_quantity := Some (Js.of_Z 10); position_price := Some (Js.of_Z 25);
     position_bookValue := Some (Js.of_Z 200); position_currency := Some "USD" |}.


(** The remote answers every registration with the conflict. *)
Definition all_taken : Script :=
  {| on_register _ := Throw conflict_error;
     on_delete _ := Ok tt;
     on_login _ := Throw (Js.Error "Network Error");
     on_accounts _ := Throw (Js.Error "Network Error");
     on_positions _ := Throw (Js.Error "Network Error");
     on_balances _ := Throw (Js.Error "Network Error") |}.

(** ** Sample rows and worlds *)

Definition t0 : Z := 1700000000000.

Definition placeholder_row : Row :=
  {| api_key := Some "snaptrade_user";
     api_secret_encrypted := Some pending_registration;
     is_active := true;
     broker_data := {[ "registration_started_at" := Js.JTime (t0 - 60000) ]} |}.

(** An active row with a real secret and the given [broker_data]. *)
Definition real_row (bd : gmap string Js.json) : Row :=
  {| api_key := Some "snaptrade_user";
     api_secret_encrypted := Some "real-secret-1";
     is_active := true;
     broker_data := bd |}.

(** The row of a user who disconnected: the secret is real, the row
    inactive. *)
Definition disconnected_row : Row :=
  {| api_key := Some "snaptrade_user";
     api_secret_encrypted := Some "real-secret-1";
     is_active := false;
     broker_data := {[ "disconnected_at" := Js.JTime (t0 - 60000) ]} |}.

(** Registered [age] milliseconds before [t0], directly. *)
Definition registered_ago (age : Z) : gmap string Js.json :=
  <[ "registered_at" := Js.JTime (t0 - age) ]>
  (<[ "snap_trade_user_id" := Js.JStr "u1" ]>
  {[ "registration_method" := Js.JStr "direct" ]}).

(** What [createSnapTradeUserLink] leaves in [broker_data]. *)
Definition link_started : gmap string Js.json :=
  <[ "connection_started" := Js.JTime (t0 - 60000) ]>
  {[ "broker_id" := Js.JStr "any" ]}.

Definition world_u1 (r : Row) : World Script :=
  with_rows {[ "u1" := r ]} (start offline t0).

(** The remote hands out a portal link. *)
Definition linking : Script :=
  {| on_register uid := Ok (Some {| userId := Some uid; userSecret := Some "fresh-secret" |});
     on_delete _ := Ok tt;
     on_login _ := Ok (Some {| redirectURI := Some "https://portal.example/connect/abc" |});
     on_accounts _ := Ok (Some []);
     on_positions _ := Ok (Some []);
     on_balances _ := Ok (Some []) |}.

(** "u1" holds a real secret registered a day ago; the remote links. *)
Definition world_linking : World Script :=
  with_rows {[ "u1" := real_row (registered_ago ms_per_day) ]} (start linking t0).

(** Two accounts; the first one is still in its initial sync. *)
Definition acct2 : Account :=
  {| account_id := "acc-2"; account_name := None; brokerage_name := None |}.

Definition cash_500 : Balance :=
  {| balance_cash := true; balance_amount := Some (Js.of_Z 500);
     balance_currency := Some "USD" |}.

Definition syncing : Script :=
  {| on_register uid := Ok (Some {| userId := Some uid; userSecret := Some "fresh-secret" |});
     on_delete _ := Ok tt;
     on_login _ := Throw (Js.Error "Network Error");
     on_accounts _ := Ok (Some [acct1; acct2]);
     on_positions acc :=
       if String.eqb acc "acc-1" then Throw too_early_error
       else Ok (Some [position_ten_shares]);
     on_balances _ := Ok (Some [cash_500]) |}.

Definition world_syncing : World Script :=
  with_rows {[ "u2" := real_row (registered_ago ms_per_day) ]} (start syncing t0).

(** The login endpoint answers that the user is not registered, whatever
    the secret; registration works. *)
Definition never_registered : Script :=
  {| on_register uid := Ok (Some {| userId := Some uid; userSecret := Some "fresh-secret" |});
     on_delete _ := Ok tt;
     on_login _ := Throw (Js.Error "User not registered with SnapTrade");
     on_accounts _ := Ok (Some []);
     on_positions _ := Ok (Some []);
     on_balances _ := Ok (Some []) |}.

(** "u1" holds a real secret registered a day ago; [tr] is the trace so far. *)
Definition world_never (tr : list Event) : World Script :=
  {| sdk := true;
     rows := {[ "u1" := real_row (registered_ago ms_per_day) ]};
     remote := never_registered;
     clock := t0;
     faults := [];
     trace := tr |}.

(** A remote whose state counts the logins that are still refused with "not
    registered"; after them it links. *)
#[global] Instance refusing_api : SnapTradeApi nat := {|
  api_registerSnapTradeUser uid n :=
    (Ok (Some {| userId := Some uid; userSecret := Some "fresh-secret" |}), n);
  api_deleteSnapTradeUser _ n := (Ok tt, n);
  api_loginSnapTradeUser _ n :=
    match n with
    | O => (Ok (Some {| redirectURI := Some "https://portal.example/connect/abc" |}), O)
    | S k => (Throw (Js.Error "User not registered with SnapTrade"), k)
    end;
  api_listUserAccounts _ _ n := (Ok (Some []), n);
  api_getUserAccountPositions _ _ _ n := (Ok (Some []), n);
  api_getUserAccountBalance _ _ _ n := (Ok (Some []), n)
|}.

Definition world_refusing (refusals : nat) : World nat :=
  {| sdk := true;
     rows := {[ "u1" := real_row (registered_ago ms_per_day) ]};
     remote := refusals;
     clock := t0;
     faults := [];
     trace := [] |}.

(** * The callers: account listing and the route handlers *)

(** The endpoints of the SDK that the functions below use beyond
    [SnapTradeApi]. The trace has no events for them. *)
Class SnapTradeApiExtra (R : Type) : Type := {
  (* authentication.deleteSnapTradeUser({ userId, userSecret }) *)
  api_deleteSnapTradeUser_with_secret :
    string -> option string -> R -> outcome unit * R;
  (* connections.removeBrokerageAuthorization({ authorizationId, userId, userSecret }) *)
  api_removeBrokerageAuthorization :
    string -> string -> option string -> R -> outcome unit * R;
  (* accountInformation.deleteUserAccount({ userId, userSecret, accountId }) *)
  api_deleteUserAccount :
    string -> option string -> string -> R -> outcome unit * R;
  (* connections.refreshBrokerageAuthorization({ authorizationId, userId, userSecret }) *)
  api_refreshBrokerageAuthorization :
    string -> string -> option string -> R -> outcome unit * R
}.

(** The answer of [supabase.auth.getUser()]: [{ data: { user }, error }],
    with the id of the user. *)
Record AuthAnswer : Type := mkAuth {
  auth_user : option string;
  auth_error : option string
}.

(** [error instanceof Error ? error.message : "Unknown error"]. *)
Definition message_of (e : Js.error) : option string :=
  if Js.instanceof_Error e then Js.message e else Some "Unknown error".

Section Callers.

Context {R : Type} `{SnapTradeApi R} `{SnapTradeApiExtra R} {dates : Js.Dates}.

(** A call on [snaptrade] where the source does not test the handle first:
    on [null] reading [snaptrade.authentication] throws a [TypeError]
    before anything is sent. *)
Definition call_unguarded {A : Type} (e : Event) (f : R -> outcome A * R)
    : M (World R) A :=
  w <- get_world ;;
  if sdk w then call e f
  else throw (Js.Error "Cannot read properties of null (reading 'authentication')").

(** A call of an endpoint without event, behind a tested handle. *)
Definition call_extra {A : Type} (f : R -> outcome A * R) : M (World R) A :=
  fun w =>
    let '(o, r') := f (remote w) in
    (o, mkWorld (sdk w) (rows w) r' (clock w) (faults w) (trace w)).

(** [fetchSnapTradeAccounts], lines 844-868; its [catch] rethrows. *)
Definition fetchSnapTradeAccounts (uid : string) : M (World R) (list Account) :=
  w <- get_world ;;
  if negb (sdk w) then throw (Js.Error "SnapTrade SDK not initialized")
  else
    secret <- getUserSecret uid false ;;
    response <- call (ApiListAccounts uid) (api_listUserAccounts uid secret) ;;
    match response with
    | None => throw (Js.Error "Failed to fetch accounts")
    | Some accounts => ret accounts
    end.

End Callers.

(** ** [app/api/snaptrade/register/route.ts] *)

Module RegisterRoute.

(** A JSON response: the status, the fields of the body that the handlers
    set, and whether the cache-suppressing headers are attached. *)
Record Response : Type := mkResponse {
  http_status : Z;
  body_success : bool;
  body_userId : option string;
  body_message : option string;
  body_error : option string;
  no_store : bool
}.

Definition failure (code : Z) (msg : option string) (headers : bool) : Response :=
  {| http_status := code; body_success := false; body_userId := None;
     body_message := None; body_error := msg; no_store := headers |}.

Section Handlers.

Context {R : Type} `{SnapTradeApi R} `{SnapTradeApiExtra R} {dates : Js.Dates}.

(** Lines 21-37 and 83-99: the caller must be the user named in the
    request. [None] lets the request through. *)
Definition authorize (uid : string) (auth : AuthAnswer) : option Response :=
  match auth_error auth, auth_user auth with
  | Some _, _ | None, None => Some (failure 401 (Some "User not authenticated") false)
  | None, Some id =>
      if String.eqb id uid then None
      else Some (failure 403 (Some "User ID mismatch") false)
  end.

(** [POST], lines 10-69. [body] is [userId] of [await request.json()], or
    what parsing threw; [auth] is the answer of the session check. *)
Definition POST (body : outcome (option string)) (auth : outcome AuthAnswer)
    : M (World R) Response :=
  try_catch
    (match body with
     | Throw e => throw e
     | Ok requested =>
         match requested with
         | Some uid =>
             if String.eqb uid "" then
               ret (failure 400 (Some "User ID is required") false)
             else
               match auth with
               | Throw e => throw e
               | Ok answer =>
                   match authorize uid answer with
                   | Some refusal => ret refusal
                   | None =>
                       snapTradeUser <- registerSnapTradeUser uid ;;
                       ret {| http_status := 200; body_success := true;
                              body_userId := userId snapTradeUser;
                              body_message := None; body_error := None;
                              no_store := true |}
                   end
               end
         | None => ret (failure 400 (Some "User ID is required") false)
         end
     end)
    (fun error => ret (failure 500 (message_of error) true)).

(** Lines 112-145: the two attempts to delete the remote user; never
    throws. *)
Definition deleteRemoteUser (uid : string) (userSecret : option string)
    : M (World R) unit :=
  if Js.truthy userSecret then
    try_catch
      (call_unguarded (ApiDelete uid)
         (api_deleteSnapTradeUser_with_secret uid userSecret))
      (fun deleteWithSecretError =>
         try_catch
           (call_unguarded (ApiDelete uid) (api_deleteSnapTradeUser uid))
           (fun deleteError => ret tt))
  else ret tt.

(** [DELETE], lines 71-196. [requested] is [userId] of the query string. *)
Definition DELETE (requested : option string) (auth : outcome AuthAnswer)
    : M (World R) Response :=
  try_catch
    (match requested with
     | Some uid =>
         if String.eqb uid "" then
           ret (failure 400 (Some "User ID is required") false)
         else
           match auth with
           | Throw e => throw e
           | Ok answer =>
               match authorize uid answer with
               | Some refusal => ret refusal
               | None =>
                   existingData <- select_connection uid false ;;
                   let existing := existingBrokerData existingData in
                   let userSecret := data existingData ≫= api_secret_encrypted in
                   deleteRemoteUser uid userSecret ;;
                   t <- now ;;
                   dbError <-
                     update_connection uid
                       (set_active_and_data false
                          (<[ "deleted_at" := Js.JTime t ]>
                           (<[ "user_deleted" := Js.JBool true ]> existing))) ;;
                   match dbError with
                   | Some msg =>
                       ret (failure 500 (Some ("Database error: " +:+ msg)) false)
                   | None =>
                       ret {| http_status := 200; body_success := true;
                              body_userId := None;
                              body_message := Some "SnapTrade user deleted successfully";
                              body_error := None; no_store := true |}
                   end
               end
           end
     | None => ret (failure 400 (Some "User ID is required") false)
     end)
    (fun error => ret (failure 500 (message_of error) true)).

End Handlers.

End RegisterRoute.

(** ** [app/api/snaptrade/sync/route.ts] *)

Module SyncRoute.

Record Response : Type := mkResponse {
  http_status : Z;
  body_error : option string;
  body_success : option bool;
  syncStatus : option string;
  syncMessage : option string;
  body_accounts : list Account;
  body_holdings : list Holding
}.

Definition unauthorized (msg : string) : Response :=
  {| http_status := 401; body_error := Some msg; body_success := None;
     syncStatus := None; syncMessage := None;
     body_accounts := []; body_holdings := [] |}.

Section Handler.

Context {R : Type} `{SnapTradeApi R} `{SnapTradeApiExtra R} {dates : Js.Dates}.

(** [POST], lines 12-89; [auth] is the answer of the session check, or what
    [createClient] or [getUser] threw. *)
Definition POST (auth : outcome AuthAnswer) : M (World R) Response :=
  try_catch
    (match auth with
     | Throw e => throw e
     | Ok answer =>
         match auth_error answer with
         | Some _ => ret (unauthorized "Authentication error")
         | None =>
             match auth_user answer with
             | None => ret (unauthorized "User not authenticated")
             | Some uid =>
                 a <- try_catch
                        (accounts <- fetchSnapTradeAccounts uid ;;
                         ret (accounts,
                              ("success", "Data synchronized successfully")))
                        (fun accountsError =>
                           ret ([], ("partial",
                                     "Could not fetch all account information"))) ;;
                 h <- try_catch
                        (holdings <- fetchSnapTradeHoldings uid None ;;
                         ret (holdings, a.2))
                        (fun holdingsError =>
                           ret ([], ("partial",
                                     "Could not fetch all holdings information"))) ;;
                 ret {| http_status := 200; body_error := None;
                        body_success := Some true;
                        syncStatus := Some h.2.1; syncMessage := Some h.2.2;
                        body_accounts := a.1; body_holdings := h.1 |}
             end
         end
     end)
    (fun error =>
       ret {| http_status := 500; body_error := message_of error;
              body_success := Some false;
              syncStatus := Some "failed"; syncMessage := message_of error;
              body_accounts := []; body_holdings := [] |}).

End Handler.

End SyncRoute.

(** ** [deleteSnapTradeConnection] *)

Section Connections.

Context {R : Type} `{SnapTradeApi R} `{SnapTradeApiExtra R} {dates : Js.Dates}.

(** [account.brokerage?.authorizationId], a field of the listed accounts
    that [Account] does not carry. *)
Variable authorizationId_of : Account -> option string.

(** Lines 537-652; its [catch] rethrows. *)
Definition deleteSnapTradeConnection (uid authorizationId : string)
    : M (World R) bool :=
  w <- get_world ;;
  if negb (sdk w) then throw (Js.Error "SnapTrade SDK not initialized")
  else
    userSecret <- getUserSecret uid false ;;
    accountsResponse <-
      call (ApiListAccounts uid) (api_listUserAccounts uid userSecret) ;;
    match accountsResponse with
    | None => throw (Js.Error "Failed to fetch accounts")
    | Some accounts =>
        match List.find
                (fun acc => bool_decide (authorizationId_of acc = Some authorizationId))
                accounts with
        | None => ret true
        | Some account =>
            try_catch
              (call_extra
                 (api_removeBrokerageAuthorization authorizationId uid userSecret))
              (fun authError => ret tt) ;;
            try_catch
              (call_extra (api_deleteUserAccount uid userSecret (account_id account)))
              (fun accountError => ret tt) ;;
            dbError <- markDisconnected uid authorizationId ;;
            match dbError with
            | Some msg => throw (Js.Error ("Database error: " +:+ msg))
            | None => ret true
            end
        end
    end.

End Connections.

(** ** The dashboard page: totals and categories *)

Module Dashboard.

(** A row of [assets] with its joined category. *)
Record AssetRow : Type := mkAssetRow {
  value : Js.number;
  is_liability : bool;
  category_slug : option string          (* asset.asset_categories?.slug *)
}.

Definition add : Js.number -> Js.number -> Js.number := SFadd Js.prec Js.emax.

(** [assets.filter(keep).reduce((sum, asset) => sum + asset.value, 0)], and
    0 when the query gave no [assets]. *)
Definition total (keep : AssetRow -> bool) (assets : option (list AssetRow))
    : Js.number :=
  match assets with
  | Some l => fold_left (fun sum asset => add sum (value asset)) (List.filter keep l) Js.zero
  | None => Js.zero
  end.

Definition totalAssets : option (list AssetRow) -> Js.number :=
  total (fun asset => negb (is_liability asset)).

Definition totalLiabilities : option (list AssetRow) -> Js.number :=
  total (fun asset => is_liability asset).

Definition netWorth (assets : option (list AssetRow)) : Js.number :=
  Js.sub (totalAssets assets) (totalLiabilities assets).

(** [asset.asset_categories?.slug || "uncategorized"]. *)
Definition categorySlug (asset : AssetRow) : string :=
  Js.or_else (category_slug asset) "uncategorized".

(** The keys that a plain object inherits from [Object.prototype]: looked
    up on [{}] they read as a function or an object, which is truthy and
    has no [push]. *)
Definition inherited_keys : list string :=
  [ "constructor"; "hasOwnProperty"; "isPrototypeOf"; "propertyIsEnumerable";
    "toLocaleString"; "toString"; "valueOf"; "__proto__";
    "__defineGetter__"; "__defineSetter__"; "__lookupGetter__";
    "__lookupSetter__" ].

Definition inherited (key : string) : bool :=
  existsb (String.eqb key) inherited_keys.

(** The [forEach] that fills [assetsByCategory], from the object [groups]
    on; a slug that names an inherited key ends it with a [TypeError]. *)
Fixpoint groupAssets (assets : list AssetRow) (groups : gmap string (list AssetRow))
    : outcome (gmap string (list AssetRow)) :=
  match assets with
  | [] => Ok groups
  | asset :: rest =>
      let slug := categorySlug asset in
      if inherited slug then
        Throw (Js.Error "assetsByCategory[categorySlug].push is not a function")
      else
        groupAssets rest (<[ slug := default [] (groups !! slug) ++ [asset] ]> groups)
  end.

Definition assetsByCategory (assets : option (list AssetRow))
    : outcome (gmap string (list AssetRow)) :=
  match assets with
  | Some l => groupAssets l ∅
  | None => Ok ∅
  end.

(** [Object.prototype[key].length || 0]: the number of parameters of an
    inherited function; [__proto__] reads the prototype itself, which has
    no [length]. *)
Definition inherited_length (key : string) : nat :=
  if existsb (String.eqb key) [ "__defineGetter__"; "__defineSetter__" ] then 2
  else if existsb (String.eqb key)
            [ "constructor"; "hasOwnProperty"; "isPrototypeOf";
              "propertyIsEnumerable"; "__lookupGetter__"; "__lookupSetter__" ]
  then 1
  else 0.

(** [getCategoryTotal]: a slug without group gives 0, but one that names
    an inherited key reads a function or an object, which is truthy and
    has no [reduce]. *)
Definition getCategoryTotal (groups : gmap string (list AssetRow))
    (slug : string) : outcome Js.number :=
  match groups !! slug with
  | Some l =>
      Ok (fold_left
            (fun sum asset =>
               if is_liability asset then Js.sub sum (value asset)
               else add sum (value asset))
            l Js.zero)
  | None =>
      if inherited slug then
        Throw (Js.Error "assetsByCategory[categorySlug].reduce is not a function")
      else Ok Js.zero
  end.

(** [getCategoryAssetCount]: [assetsByCategory[categorySlug]?.length || 0];
    a slug that names an inherited key reads the [length] of what is
    inherited. *)
Definition getCategoryAssetCount (groups : gmap string (list AssetRow))
    (slug : string) : nat :=
  match groups !! slug with
  | Some l => length l
  | None => if inherited slug then inherited_length slug else 0%nat
  end.

(** The slugs of the six widgets of the page. *)
Definition widgets : list string :=
  [ "cash"; "investments"; "real-estate"; "cryptocurrency";
    "precious-metals"; "debt" ].

End Dashboard.

(** The scripted remote answers the further endpoints as it answers the
    deletion of the user. *)
#[global] Instance scripted_extra : SnapTradeApiExtra Script := {|
  api_deleteSnapTradeUser_with_secret uid _ s := (on_delete s uid, s);
  api_removeBrokerageAuthorization _ uid _ s := (on_delete s uid, s);
  api_deleteUserAccount uid _ _ s := (on_delete s uid, s);
  api_refreshBrokerageAuthorization _ uid _ s := (on_delete s uid, s)
|}.

(** The session of "u1". *)
Definition session_u1 : outcome AuthAnswer :=
  Ok {| auth_user := Some "u1"; auth_error := None |}.

(** A fresh remote: registration and listing work, nothing is linked. *)
Definition registering : Script :=
  {| on_register uid := Ok (Some {| userId := Some uid; userSecret := Some "fresh-secret" |});
     on_delete _ := Ok tt;
     on_login _ := Throw (Js.Error "Network Error");
     on_accounts _ := Ok (Some [acct1; acct2]);
     on_positions _ := Ok (Some [position_ten_shares]);
     on_balances _ := Ok (Some [cash_500]) |}.

(** The register endpoint is broken: status 500, no conflict. *)
Definition server_error : Js.error :=
  {| Js.message := Some "Request failed with status code 500";
     Js.status := Some 500;
     Js.response_status := None;
     Js.response_data := None;
     Js.response_detail := None;
     Js.responseBody_detail := Some "Internal server error";
     Js.responseBody_status_code := Some 500;
     Js.instanceof_Error := true |}.

Definition broken_register : Script :=
  {| on_register _ := Throw server_error;
     on_delete _ := Throw (Js.Error "Network Error");
     on_login _ := Throw (Js.Error "Network Error");
     on_accounts _ := Throw (Js.Error "Network Error");
     on_positions _ := Throw (Js.Error "Network Error");
     on_balances _ := Throw (Js.Error "Network Error") |}.

(** * Further definitions used by the properties *)

(** No active row of [uid] holds a truthy secret: the registration does
    not short-circuit. *)
Definition unregistered {R : Type} (uid : string) (w : World R) : Prop :=
  forall r, rows w !! uid = Some r -> is_active r = true ->
    Js.truthy (api_secret_encrypted r) = false.

(** The account that a remote call asks about, for the two calls made per
    account. *)
Definition about_account (e : Event) : option string :=
  match e with
  | ApiPositions a | ApiBalances a => Some a
  | _ => None
  end.

(** Every per-account call among [evs] asks about the account [i]. *)
Definition only_account (i : string) (evs : list Event) : Prop :=
  Forall (fun e => forall a, about_account e = Some a -> a = i) evs.

(** The keys of [broker_data] that a registration writes. *)
Definition registration_keys : list string :=
  [ "registration_started_at"; "registered_at"; "snap_trade_user_id";
    "registration_method"; "original_user_id"; "is_fake_secret";
    "registration_failed_at"; "error_message"; "original_error" ].

(** Accounts are listed, every removal is refused. *)
Definition removal_refused : Script :=
  {| on_register uid := Ok (Some {| userId := Some uid; userSecret := Some "fresh-secret" |});
     on_delete _ := Throw (Js.Error "Network Error");
     on_login _ := Throw (Js.Error "Network Error");
     on_accounts _ := Ok (Some [acct1; acct2]);
     on_positions _ := Ok (Some [position_ten_shares]);
     on_balances _ := Ok (Some [cash_500]) |}.

(** "u1" holds a real secret registered a day ago. *)
Definition world_connected : World Script :=
  with_rows {[ "u1" := real_row (registered_ago ms_per_day) ]}
    (start removal_refused t0).

(** The first account belongs to the authorization "auth-1". *)
Definition sample_authorization (a : Account) : option string :=
  if String.eqb (account_id a) "acc-1" then Some "auth-1" else None.

(** The assets of the category [slug], in the order of the query. *)
Definition in_category (slug : string) (assets : list Dashboard.AssetRow)
    : list Dashboard.AssetRow :=
  List.filter (fun asset => String.eqb (Dashboard.categorySlug asset) slug) assets.

(** What the page shows in all, the six counters added up. *)
Definition shown_count (groups : gmap string (list Dashboard.AssetRow)) : nat :=
  list_sum (List.map (Dashboard.getCategoryAssetCount groups) Dashboard.widgets).

(** Three assets: cash, a stock, and one without category. *)
Definition sample_assets : list Dashboard.AssetRow :=
  [ {| Dashboard.value := Js.of_Z 500; Dashboard.is_liability := false;
       Dashboard.category_slug := Some "cash" |};
    {| Dashboard.value := Js.of_Z 250; Dashboard.is_liability := false;
       Dashboard.category_slug := Some "investments" |};
    {| Dashboard.value := Js.of_Z 40; Dashboard.is_liability := false;
       Dashboard.category_slug := None |} ].

(** * [handleSnapTradeCallback] *)

(** A row inserted into [assets]. Of its columns, [description] and
    [acquisition_date], texts made from the other columns and from the
    clock, are left out. *)
Record Asset : Type := mkAsset {
  asset_name : symbol_ref;
  asset_value : Js.number;
  asset_location : string;
  acquisition_value : Js.number;
  asset_category_id : string;
  asset_is_liability : bool;
  asset_user_id : string;
  meta_symbol : symbol_ref;
  meta_price_per_share : Js.number;
  meta_purchase_price : Js.number;
  meta_quantity : Js.number;
  meta_currency : string;
  meta_asset_type : string;
  meta_source : string;
  meta_account_id : string;
  meta_account_name : string;
  meta_broker_name : string;
  meta_balance_type : option string      (* absent for a position *)
}.

(** The answer of the query for the category with slug "investments":
    [{ data: categoryData, error: categoryError }], with the id of the
    category and the message of the error. *)
Record CategoryAnswer : Type := mkCategoryAnswer {
  category_id : option string;
  category_error : option string
}.

(** The state of the callback: the world of the module, the [assets]
    table, the answer of the category query, and the outcomes of the
    coming inserts ([true] is an insert answered with [{ error }] and
    without effect). *)
Record Store (R : Type) : Type := mkStore {
  store_world : World R;
  store_assets : list Asset;
  store_category : CategoryAnswer;
  store_insert_faults : list bool
}.

Arguments mkStore {R}.
Arguments store_world {R}.
Arguments store_assets {R}.
Arguments store_category {R}.
Arguments store_insert_faults {R}.

(** The store with [l] as its [assets] table. *)
Definition with_assets {R : Type} (l : list Asset) (s : Store R) : Store R :=
  mkStore (store_world s) l (store_category s) (store_insert_faults s).

(** [a || b] on numbers. *)
Definition num_or (a b : Js.number) : Js.number :=
  if Js.truthy_num a then a else b.

(** Truthiness of [position.symbol]: an object is truthy, a string unless
    it is empty. *)
Definition truthy_symbol (s : symbol_ref) : bool :=
  match s with
  | SymbolObj _ _ => true
  | SymbolStr s => negb (String.eqb s "")
  | SymbolMissing => false
  end.

(** Lines 1157-1186: the row made from a position. *)
Definition positionAsset (uid cid : string) (account : Account)
    (position : Position) : Asset :=
  let quantity := Js.parseFloat_or_0 (position_quantity position) in
  let price := Js.parseFloat_or_0 (position_price position) in
  let bookValue := Js.parseFloat_or_0 (position_bookValue position) in
  let totalValue := Js.mul quantity price in
  {| asset_name := symbol_or_self (position_symbol position);
     asset_value := totalValue;
     asset_location := Js.or_else (account_name account) "SnapTrade";
     acquisition_value := num_or bookValue totalValue;
     asset_category_id := cid;
     asset_is_liability := false;
     asset_user_id := uid;
     meta_symbol := symbol_or_self (position_symbol position);
     meta_price_per_share := price;
     meta_purchase_price := Js.div bookValue quantity;
     meta_quantity := quantity;
     meta_currency := Js.or_else (position_currency position) "USD";
     meta_asset_type := "stock";
     meta_source := "snaptrade";
     meta_account_id := account_id account;
     meta_account_name := Js.or_else (account_name account) "Investment Account";
     meta_broker_name := Js.or_else (brokerage_name account) "SnapTrade";
     meta_balance_type := None |}.

Section Callback.

Context {R : Type} `{SnapTradeApi R} `{SnapTradeApiExtra R} {dates : Js.Dates}.

(** [balance.type], a field that [Balance] does not carry. *)
Variable balance_type : Balance -> option string.

(** A step of the module, run on the world of the store. *)
Definition on_world {A : Type} (c : M (World R) A) : M (Store R) A :=
  fun s =>
    let '(o, w') := c (store_world s) in
    (o, mkStore w' (store_assets s) (store_category s) (store_insert_faults s)).

Definition get_store : M (Store R) (Store R) := fun s => (Ok s, s).

(** [supabase.from("assets").insert(row)]; the result is the [error] of
    the answer. *)
Definition insert_asset (a : Asset) : M (Store R) (option string) :=
  fun s =>
    match store_insert_faults s with
    | true :: fs =>
        (Ok (Some "store error"),
         mkStore (store_world s) (store_assets s) (store_category s) fs)
    | false :: fs =>
        (Ok None,
         mkStore (store_world s) (store_assets s ++ [a]) (store_category s) fs)
    | [] =>
        (Ok None,
         mkStore (store_world s) (store_assets s ++ [a]) (store_category s) [])
    end.

(** Lines 1126-1130. *)
Definition select_category : M (Store R) CategoryAnswer :=
  fun s => (Ok (store_category s), s).

(** [await new Promise((resolve) => setTimeout(resolve, ms))]. *)
Definition sleep (ms : Z) : M (Store R) unit :=
  fun s =>
    let w := store_world s in
    (Ok tt,
     mkStore (mkWorld (sdk w) (rows w) (remote w) (clock w + ms) (faults w) (trace w))
       (store_assets s) (store_category s) (store_insert_faults s)).

(** Lines 1210-1217: whether a balance is imported. *)
Definition importable (account : Account) (balance : Balance) : bool :=
  let isCash :=
    (balance_cash balance || bool_decide (balance_type balance = Some "CASH"))%bool in
  let amount := Js.parseFloat_or_0 (balance_amount balance) in
  let brokerName := Js.or_else (brokerage_name account) "" in
  ((isCash && Js.gt amount Js.zero) ||
   (Js.includes "INTERACTIVE" (Js.toUpperCase brokerName) && Js.gt amount Js.zero))%bool.

(** Lines 1225-1248: the row made from a cash balance. *)
Definition cashAsset (uid cid : string) (account : Account) (balance : Balance)
    : Asset :=
  let amount := Js.parseFloat_or_0 (balance_amount balance) in
  {| asset_name :=
       SymbolStr ("Cash (" +:+
                  match balance_currency balance with
                  | Some c => c
                  | None => "undefined"
                  end +:+ ")");
     asset_value := amount;
     asset_location := Js.or_else (account_name account) "SnapTrade";
     acquisition_value := amount;
     asset_category_id := cid;
     asset_is_liability := false;
     asset_user_id := uid;
     meta_symbol := SymbolStr "CASH";
     meta_price_per_share := amount;
     meta_purchase_price := amount;
     meta_quantity := Js.one;
     meta_currency := Js.or_else (balance_currency balance) "USD";
     meta_asset_type := "cash";
     meta_source := "snaptrade";
     meta_account_id := account_id account;
     meta_account_name := Js.or_else (account_name account) "Investment Account";
     meta_broker_name := Js.or_else (brokerage_name account) "SnapTrade";
     meta_balance_type := Some (Js.or_else (balance_type balance) "CASH") |}.

(** Lines 1154-1194; the error of an insert is only logged. *)
Fixpoint importPositions (uid cid : string) (account : Account)
    (positions : list Position) : M (Store R) unit :=
  match positions with
  | [] => ret tt
  | position :: rest =>
      (if truthy_symbol (position_symbol position) then
         insert_asset (positionAsset uid cid account position) ;; ret tt
       else ret tt) ;;
      importPositions uid cid account rest
  end.

(** Lines 1207-1254. *)
Fixpoint importBalances (uid cid : string) (account : Account)
    (balances : list Balance) : M (Store R) unit :=
  match balances with
  | [] => ret tt
  | balance :: rest =>
      (if importable account balance then
         insert_asset (cashAsset uid cid account balance) ;; ret tt
       else ret tt) ;;
      importBalances uid cid account rest
  end.

(** Lines 1144-1255: the body of the loop over the accounts; nothing
    catches what the two calls throw. *)
Definition importAccount (uid : string) (secret : option string) (cid : string)
    (account : Account) : M (Store R) unit :=
  positionsResponse <-
    on_world (call (ApiPositions (account_id account))
                (api_getUserAccountPositions uid secret (account_id account))) ;;
  match positionsResponse with
  | Some positions => importPositions uid cid account positions
  | None => ret tt
  end ;;
  balancesResponse <-
    on_world (call (ApiBalances (account_id account))
                (api_getUserAccountBalance uid secret (account_id account))) ;;
  match balancesResponse with
  | Some balances => importBalances uid cid account balances
  | None => ret tt
  end.

Fixpoint importAccounts (uid : string) (secret : option string) (cid : string)
    (accounts : list Account) : M (Store R) unit :=
  match accounts with
  | [] => ret tt
  | account :: rest =>
      importAccount uid secret cid account ;;
      importAccounts uid secret cid rest
  end.

(** Lines 1045-1263; the outer [catch] rethrows. *)
Definition handleSnapTradeCallback (uid authorizationId brokerage : string)
    : M (Store R) (list Account) :=
  s <- get_store ;;
  if negb (sdk (store_world s)) then throw (Js.Error "SnapTrade SDK not initialized")
  else
    userSecret <- on_world (getUserSecret uid false) ;;
    on_world (markConnected uid (Some authorizationId) (Some brokerage)) ;;
    (if Js.truthy (Some authorizationId) then
       try_catch
         (on_world
            (call_extra
               (api_refreshBrokerageAuthorization authorizationId uid userSecret)) ;;
          sleep 1000)
         (fun refreshError => ret tt)
     else ret tt) ;;
    accountsResponse <-
      on_world (call (ApiListAccounts uid) (api_listUserAccounts uid userSecret)) ;;
    match accountsResponse with
    | None => throw (Js.Error "Failed to fetch accounts")
    | Some accounts =>
        categoryAnswer <- select_category ;;
        match category_error categoryAnswer with
        | Some msg => throw (Js.Error ("Category error: " +:+ msg))
        | None =>
            match category_id categoryAnswer with
            | None => throw (Js.Error "Category not found")
            | Some cid =>
                importAccounts uid userSecret cid accounts ;;
                ret accounts
            end
        end
    end.

End Callback.

(** What every row imported for [uid] into the category [cid] carries. *)
Definition imported (uid cid : string) (a : Asset) : Prop :=
  asset_user_id a = uid /\ asset_category_id a = cid /\
  asset_is_liability a = false /\ meta_source a = "snaptrade".

Section Appending.

Context {R : Type}.

(** [c], run from [s] with any [assets] table, only appends to it, rows
    that satisfy [P]; what it appends, what it returns and what it leaves
    otherwise do not depend on the table; the answer of the category
    query stays the same. *)
Definition appends {A : Type} (c : M (Store R) A) (s : Store R)
    (P : Asset -> Prop) : Prop :=
  exists (o : outcome A) (added : list Asset) (s' : Store R),
    Forall P added /\
    store_category s' = store_category s /\
    forall l, c (with_assets l s) = (o, with_assets (l ++ added) s').

(** [c] leaves the table of the connections as it is. *)
Definition keeps_rows {A : Type} (c : M (Store R) A) : Prop :=
  forall s o s', c s = (o, s') -> rows (store_world s') = rows (store_world s).

End Appending.

(** A store around a world: no assets yet, the category "cat-inv" found,
    inserts that succeed. *)
Definition store_of (w : World Script) : Store Script :=
  {| store_world := w; store_assets := [];
     store_category := {| category_id := Some "cat-inv"; category_error := None |};
     store_insert_faults := [] |}.

(** [balance.type] of the sample balances: absent. *)
Definition no_balance_type (b : Balance) : option string := None.

(** The positions of "acc-2" cannot be read. *)
Definition second_account_fails : Script :=
  {| on_register uid := Ok (Some {| userId := Some uid; userSecret := Some "fresh-secret" |});
     on_delete _ := Ok tt;
     on_login _ := Throw (Js.Error "Network Error");
     on_accounts _ := Ok (Some [acct1; acct2]);
     on_positions acc :=
       if String.eqb acc "acc-2" then Throw (Js.Error "Network Error")
       else Ok (Some [position_ten_shares]);
     on_balances _ := Ok (Some [cash_500]) |}.

(** * Properties *)

(** ** Strings *)

Section Utf8.

Local Open Scope N_scope.

Lemma byte_lt (c : ascii) : Js.byte c < 256.
Proof. apply N_ascii_bounded. Qed.

Lemma byte_of_byte (n : N) : n < 256 -> Js.byte (Js.of_byte n) = n.
Proof. apply N_ascii_embedding. Qed.

Lemma continuation_true (c : ascii) :
  128 <= Js.byte c < 192 -> Js.continuation c = true.
Proof.
  intros [H1 H2]. unfold Js.continuation.
  apply andb_true_iff. split; [apply N.leb_le, H1 | apply N.ltb_lt, H2].
Qed.

Lemma decode_1 (c : ascii) (r : string) :
  Js.byte c < 128 -> Js.decode (String c r) = Js.byte c :: Js.decode r.
Proof. intros Hc. cbn [Js.decode]. apply N.ltb_lt in Hc. rewrite Hc. reflexivity. Qed.

Lemma decode_2 (c1 c2 : ascii) (r : string) :
  194 <= Js.byte c1 < 224 -> 128 <= Js.byte c2 < 192 ->
  Js.decode (String c1 (String c2 r))
  = ((Js.byte c1 - 192) * 64 + (Js.byte c2 - 128)) :: Js.decode r.
Proof.
  intros [H1 H2] Hc2. cbn [Js.decode].
  assert (Hlt : (Js.byte c1 <? 128) = false) by (apply N.ltb_ge; lia).
  rewrite Hlt, (continuation_true _ Hc2).
  apply N.leb_le in H1. apply N.ltb_lt in H2. rewrite H1, H2. reflexivity.
Qed.

Lemma decode_3 (c1 c2 c3 : ascii) (r : string) :
  224 <= Js.byte c1 < 240 -> 128 <= Js.byte c2 < 192 -> 128 <= Js.byte c3 < 192 ->
  2048 <= (Js.byte c1 - 224) * 4096 + (Js.byte c2 - 128) * 64 + (Js.byte c3 - 128) ->
  Js.decode (String c1 (String c2 (String c3 r)))
  = ((Js.byte c1 - 224) * 4096 + (Js.byte c2 - 128) * 64 + (Js.byte c3 - 128))
      :: Js.decode r.
Proof.
  intros [H1 H2] Hc2 Hc3 Hlow. cbn [Js.decode].
  assert (Hlt : (Js.byte c1 <? 128) = false) by (apply N.ltb_ge; lia).
  assert (Hno : (Js.byte c1 <? 224) = false) by (apply N.ltb_ge; lia).
  rewrite Hlt, Hno, andb_false_r, (continuation_true _ Hc2), (continuation_true _ Hc3).
  cbn [andb].
  apply N.leb_le in H1. apply N.ltb_lt in H2. apply N.leb_le in Hlow.
  cbv zeta. rewrite H1, H2, Hlow. reflexivity.
Qed.

Lemma decode_4 (c1 c2 c3 c4 : ascii) (r : string) :
  240 <= Js.byte c1 < 248 -> 128 <= Js.byte c2 < 192 -> 128 <= Js.byte c3 < 192 ->
  128 <= Js.byte c4 < 192 ->
  65536 <= (Js.byte c1 - 240) * 262144 + (Js.byte c2 - 128) * 4096
           + (Js.byte c3 - 128) * 64 + (Js.byte c4 - 128) ->
  Js.code_point ((Js.byte c1 - 240) * 262144 + (Js.byte c2 - 128) * 4096
         + (Js.byte c3 - 128) * 64 + (Js.byte c4 - 128)) ->
  Js.decode (String c1 (String c2 (String c3 (String c4 r))))
  = ((Js.byte c1 - 240) * 262144 + (Js.byte c2 - 128) * 4096
     + (Js.byte c3 - 128) * 64 + (Js.byte c4 - 128)) :: Js.decode r.
Proof.
  intros [H1 H2] Hc2 Hc3 Hc4 Hlow Hv. cbn [Js.decode].
  assert (Hlt : (Js.byte c1 <? 128) = false) by (apply N.ltb_ge; lia).
  assert (Hno : (Js.byte c1 <? 224) = false) by (apply N.ltb_ge; lia).
  assert (Hno3 : (Js.byte c1 <? 240) = false) by (apply N.ltb_ge; lia).
  rewrite Hlt, Hno, Hno3, !andb_false_r,
    (continuation_true _ Hc2), (continuation_true _ Hc3), (continuation_true _ Hc4).
  cbn [andb].
  apply N.leb_le in H1. apply N.ltb_lt in H2. apply N.ltb_lt in Hv.
  apply N.leb_le in Hlow.
  cbv zeta. rewrite H1, H2, Hlow, Hv. reflexivity.
Qed.

Lemma append_cons (c : ascii) (r s : string) :
  String c r +:+ s = String c (r +:+ s).
Proof. reflexivity. Qed.

Lemma append_nil (s : string) : "" +:+ s = s.
Proof. reflexivity. Qed.

Lemma decode_encode_cp (cp : N) (s : string) :
  Js.code_point cp -> Js.decode (Js.encode_cp cp +:+ s) = cp :: Js.decode s.
Proof.
  unfold Js.code_point, Js.encode_cp. intros Hv.
  pose proof (N.div_mod cp 64 ltac:(discriminate)) as D1.
  pose proof (N.mod_lt cp 64 ltac:(discriminate)) as M1.
  pose proof (N.div_mod (cp / 64) 64 ltac:(discriminate)) as D2.
  pose proof (N.mod_lt (cp / 64) 64 ltac:(discriminate)) as M2.
  pose proof (N.div_mod (cp / 64 / 64) 64 ltac:(discriminate)) as D3.
  pose proof (N.mod_lt (cp / 64 / 64) 64 ltac:(discriminate)) as M3.
  assert (E4096 : cp / 4096 = cp / 64 / 64)
    by (rewrite N.Div0.div_div; reflexivity).
  assert (E262144 : cp / 262144 = cp / 64 / 64 / 64)
    by (rewrite !N.Div0.div_div; reflexivity).
  rewrite E4096, E262144. clear E4096 E262144.
  set (q3 := cp / 64 / 64 / 64) in *. set (q2 := cp / 64 / 64) in *.
  set (q1 := cp / 64) in *. set (r1 := cp mod 64) in *.
  set (r2 := q1 mod 64) in *. set (r3 := q2 mod 64) in *.
  clearbody q3 q2 q1 r1 r2 r3.
  destruct (N.ltb_spec cp 128) as [H1|H1].
  { rewrite !append_cons, append_nil.
    rewrite decode_1; rewrite byte_of_byte by lia; [reflexivity | lia]. }
  destruct (N.ltb_spec cp 2048) as [H2|H2].
  { rewrite !append_cons, append_nil.
    rewrite decode_2; rewrite !byte_of_byte by lia; try lia.
    f_equal. lia. }
  destruct (N.ltb_spec cp 65536) as [H3|H3].
  { rewrite !append_cons, append_nil.
    rewrite decode_3; rewrite !byte_of_byte by lia; try lia.
    f_equal. lia. }
  rewrite !append_cons, append_nil.
  rewrite decode_4; rewrite !byte_of_byte by lia; try lia.
  - f_equal. lia.
  - unfold Js.code_point. lia.
Qed.

Lemma decode_encode (l : list N) :
  Forall Js.code_point l -> Js.decode (Js.encode l) = l.
Proof.
  induction 1 as [|cp l Hcp _ IH]; [reflexivity|].
  cbn [Js.encode]. rewrite (decode_encode_cp _ _ Hcp), IH. reflexivity.
Qed.


Lemma decode_eq (c1 : ascii) (r1 : string) :
  Js.decode (String c1 r1)
  = if Js.byte c1 <? 128 then Js.byte c1 :: Js.decode r1
    else
      match r1 with
      | EmptyString => [Js.replacement_character]
      | String c2 r2 =>
          if (194 <=? Js.byte c1) && (Js.byte c1 <? 224) && Js.continuation c2 then
            ((Js.byte c1 - 192) * 64 + (Js.byte c2 - 128)) :: Js.decode r2
          else
            match r2 with
            | EmptyString => Js.replacement_character :: Js.decode r1
            | String c3 r3 =>
                if (224 <=? Js.byte c1) && (Js.byte c1 <? 240)
                   && Js.continuation c2 && Js.continuation c3
                   && (2048 <=? (Js.byte c1 - 224) * 4096 + (Js.byte c2 - 128) * 64
                                + (Js.byte c3 - 128)) then
                  ((Js.byte c1 - 224) * 4096 + (Js.byte c2 - 128) * 64
                   + (Js.byte c3 - 128)) :: Js.decode r3
                else
                  match r3 with
                  | EmptyString => Js.replacement_character :: Js.decode r1
                  | String c4 r4 =>
                      if (240 <=? Js.byte c1) && (Js.byte c1 <? 248)
                         && Js.continuation c2 && Js.continuation c3
                         && Js.continuation c4
                         && (65536 <=? (Js.byte c1 - 240) * 262144
                                       + (Js.byte c2 - 128) * 4096
                                       + (Js.byte c3 - 128) * 64 + (Js.byte c4 - 128))
                         && ((Js.byte c1 - 240) * 262144 + (Js.byte c2 - 128) * 4096
                             + (Js.byte c3 - 128) * 64 + (Js.byte c4 - 128) <? 1114112)
                      then
                        ((Js.byte c1 - 240) * 262144 + (Js.byte c2 - 128) * 4096
                         + (Js.byte c3 - 128) * 64 + (Js.byte c4 - 128)) :: Js.decode r4
                      else Js.replacement_character :: Js.decode r1
                  end
            end
      end.
Proof. destruct r1 as [|c2 [|c3 [|c4 r4]]]; reflexivity. Qed.

Lemma decode_step (c1 : ascii) (r1 : string) :
  exists cp r,
    Js.decode (String c1 r1) = cp :: Js.decode r /\ Js.code_point cp /\
    (String.length r <= String.length r1)%nat.
Proof.
  assert (Hrep : Js.code_point Js.replacement_character) by reflexivity.
  rewrite decode_eq.
  destruct (N.ltb_spec (Js.byte c1) 128) as [E1|E1].
  { exists (Js.byte c1), r1. unfold Js.code_point. split; [reflexivity | split; lia]. }
  destruct r1 as [|c2 r2].
  { exists Js.replacement_character, EmptyString. split; [reflexivity | split; [exact Hrep | simpl; lia]]. }
  destruct (_ && Js.continuation c2) eqn:E2.
  { apply andb_true_iff in E2 as [E2 C2]. apply andb_true_iff in E2 as [_ E2].
    apply N.ltb_lt in E2. unfold Js.continuation in C2.
    apply andb_true_iff in C2 as [_ C2]. apply N.ltb_lt in C2.
    eexists _, r2. split; [reflexivity|]. unfold Js.code_point. split; [lia | simpl; lia]. }
  destruct r2 as [|c3 r3].
  { exists Js.replacement_character, (String c2 EmptyString).
    split; [reflexivity | split; [exact Hrep | simpl; lia]]. }
  destruct (_ && (2048 <=? _)) eqn:E3.
  { apply andb_true_iff in E3 as [E3 _]. apply andb_true_iff in E3 as [E3 C3].
    apply andb_true_iff in E3 as [E3 C2]. apply andb_true_iff in E3 as [_ E3].
    apply N.ltb_lt in E3. unfold Js.continuation in C2, C3.
    apply andb_true_iff in C2 as [_ C2]. apply N.ltb_lt in C2.
    apply andb_true_iff in C3 as [_ C3]. apply N.ltb_lt in C3.
    eexists _, r3. split; [reflexivity|]. unfold Js.code_point. split; [lia | simpl; lia]. }
  destruct r3 as [|c4 r4].
  { exists Js.replacement_character, (String c2 (String c3 EmptyString)).
    split; [reflexivity | split; [exact Hrep | simpl; lia]]. }
  destruct (_ && (_ <? 1114112)) eqn:E4.
  { apply andb_true_iff in E4 as [_ E4]. apply N.ltb_lt in E4.
    eexists _, r4. split; [reflexivity|]. split; [exact E4 | simpl; lia]. }
  exists Js.replacement_character, (String c2 (String c3 (String c4 r4))).
  split; [reflexivity | split; [exact Hrep | simpl; lia]].
Qed.

Lemma decode_valid (s : string) : Forall Js.code_point (Js.decode s).
Proof.
  remember (String.length s) as n eqn:Hn.
  assert (Hle : (String.length s <= n)%nat) by lia. clear Hn.
  revert s Hle. induction n as [|n IH]; intros [|c1 r1] Hle;
    try (constructor; fail); simpl in Hle; [lia|].
  destruct (decode_step c1 r1) as (cp & r & -> & Hcp & Hr).
  constructor; [exact Hcp | apply IH; lia].
Qed.

Lemma decode_empty_iff (s : string) : Js.decode s = [] <-> s = "".
Proof.
  split; [|intros ->; reflexivity].
  destruct s as [|c1 r1]; [reflexivity|].
  destruct (decode_step c1 r1) as (cp & r & -> & _). discriminate.
Qed.

Lemma encode_cp_nonempty (cp : N) : Js.encode_cp cp <> "".
Proof.
  unfold Js.encode_cp.
  destruct (cp <? 128); [discriminate|].
  destruct (cp <? 2048); [discriminate|].
  destruct (cp <? 65536); discriminate.
Qed.

Lemma encode_empty_iff (l : list N) : Js.encode l = "" <-> l = [].
Proof.
  split; [|intros ->; reflexivity].
  destruct l as [|cp r]; [reflexivity|]. cbn [Js.encode].
  pose proof (encode_cp_nonempty cp) as Hcp.
  destruct (Js.encode_cp cp); [contradiction | discriminate].
Qed.

Lemma trimStart_blank (l : list N) :
  Js.trimStart l = [] <-> forallb Js.is_ws l = true.
Proof.
  induction l as [|cp r IH]; [split; reflexivity|].
  cbn [Js.trimStart forallb]. destruct (Js.is_ws cp); [exact IH|].
  split; discriminate.
Qed.

Lemma trimStart_head (l : list N) (cp : N) (r : list N) :
  Js.trimStart l = cp :: r -> Js.is_ws cp = false.
Proof.
  induction l as [|a l IH]; [discriminate|]. cbn [Js.trimStart].
  destruct (Js.is_ws a) eqn:E; [exact IH|].
  intros [= -> _]. exact E.
Qed.

Lemma trimEnd_empty_iff (l : list N) :
  Js.trimEnd (Js.trimStart l) = [] <-> Js.trimStart l = [].
Proof.
  split; [|intros ->; reflexivity].
  unfold Js.trimEnd. intros Hr.
  destruct (Js.trimStart l) as [|cp r] eqn:E; [reflexivity|].
  exfalso. apply (f_equal (@rev N)) in Hr. rewrite rev_involutive in Hr.
  cbn [rev] in Hr. apply trimStart_blank in Hr.
  rewrite forallb_app in Hr. apply andb_true_iff in Hr as [_ Hr].
  cbn [forallb] in Hr. rewrite (trimStart_head _ _ _ E) in Hr. discriminate.
Qed.

Lemma trim_empty_iff (s : string) :
  Js.trim s = "" <-> forallb Js.is_ws (Js.decode s) = true.
Proof.
  unfold Js.trim. rewrite encode_empty_iff, trimEnd_empty_iff. apply trimStart_blank.
Qed.

Lemma upper_table_sound :
  forallb
    (fun entry =>
       negb (Js.is_ws (fst entry)) && negb (forallb Js.is_ws (snd entry))
       && forallb (fun cp => cp <? 1114112) (snd entry))
    Js.upper_table = true.
Proof. vm_compute. reflexivity. Qed.

Lemma upper_cp_spec (cp : N) :
  Js.code_point cp ->
  Forall Js.code_point (Js.upper_cp cp) /\
  forallb Js.is_ws (Js.upper_cp cp) = Js.is_ws cp.
Proof.
  intros Hcp. unfold Js.upper_cp.
  destruct (find _ Js.upper_table) as [entry|] eqn:E.
  - apply find_some in E as [Hin Hk]. apply N.eqb_eq in Hk.
    pose proof (proj1 (forallb_forall _ _) upper_table_sound entry Hin) as Hs.
    cbv beta in Hs.
    apply andb_true_iff in Hs as [Hs Hv]. apply andb_true_iff in Hs as [Hw Ho].
    rewrite Hk in Hw. apply negb_true_iff in Hw, Ho. rewrite Hw, Ho. split; [|reflexivity].
    apply Stdlib.Lists.List.Forall_forall. intros x Hx.
    apply N.ltb_lt. exact (proj1 (forallb_forall _ _) Hv x Hx).
  - split; [repeat constructor; exact Hcp|]. cbn [forallb]. apply andb_true_r.
Qed.

Lemma upper_valid (l : list N) :
  Forall Js.code_point l -> Forall Js.code_point (flat_map Js.upper_cp l).
Proof.
  induction 1 as [|cp l Hcp _ IH]; [constructor|].
  cbn [flat_map]. apply Forall_app. split; [apply upper_cp_spec, Hcp | exact IH].
Qed.

Lemma upper_blank (l : list N) :
  Forall Js.code_point l ->
  forallb Js.is_ws (flat_map Js.upper_cp l) = forallb Js.is_ws l.
Proof.
  induction 1 as [|cp l Hcp _ IH]; [reflexivity|].
  cbn [flat_map forallb]. rewrite forallb_app, IH.
  rewrite (proj2 (upper_cp_spec cp Hcp)). reflexivity.
Qed.

Lemma trim_toUpperCase_empty_iff (s : string) :
  Js.trim (Js.toUpperCase s) = "" <-> Js.trim s = "".
Proof.
  rewrite !trim_empty_iff. unfold Js.toUpperCase.
  rewrite decode_encode by (apply upper_valid, decode_valid).
  rewrite upper_blank by apply decode_valid. reflexivity.
Qed.

Lemma trim_nonempty (s : string) : Js.trim s <> "" -> s <> "".
Proof. intros Ht ->. apply Ht. reflexivity. Qed.

End Utf8.

Lemma eqb_empty_false (s : string) : s <> "" -> String.eqb s "" = false.
Proof. intros Hs. apply String.eqb_neq. exact Hs. Qed.

(** ** Numbers *)

Lemma parseFloat_or_0_cases (x : option Js.number) :
  Js.parseFloat_or_0 x = Js.zero \/
  (Js.truthy_num (Js.parseFloat_or_0 x) = true /\ x = Some (Js.parseFloat_or_0 x)).
Proof.
  destruct x as [v|]; simpl; [|left; reflexivity].
  destruct (Js.truthy_num v) eqn:E; [right; split; [exact E | reflexivity] | left; reflexivity].
Qed.

Lemma div_by_zero (b : Js.number) :
  Js.div b Js.zero =
  match b with
  | S754_zero _ | S754_nan => S754_nan
  | S754_infinity s | S754_finite s _ _ => S754_infinity s
  end.
Proof. destruct b as [[]|[]| |[] m e]; reflexivity. Qed.

(** ** Holdings: the arithmetic of one position *)

Example ten_shares_holding :
  exists h, toHolding acct1 position_ten_shares = Ok h /\
    totalValue h = Js.of_Z 250 /\ gainLoss h = Js.of_Z 50 /\
    purchasePrice h = Js.of_Z 20 /\ symbol h = SymbolStr "AAPL".
Proof. eexists. split; [reflexivity|]. vm_compute. repeat split. Qed.

(** C3, as stated, fails: nothing handles a zero quantity. A position without
    [quantity] and [bookValue] becomes a holding whose [purchasePrice] is
    [NaN] (0/0), and one with quantity 0 and book value 200 a holding whose
    [purchasePrice] is [+Infinity]. *)
Lemma purchasePrice_zero_quantity_counterexample :
  (exists h, toHolding acct1 position_no_quantity = Ok h /\
     quantity h = Js.zero /\ purchasePrice h = S754_nan) /\
  (exists h, toHolding acct1 position_zero_quantity = Ok h /\
     quantity h = Js.zero /\ purchasePrice h = S754_infinity false).
Proof.
  split; eexists; (split; [reflexivity|]); vm_compute; split; reflexivity.
Qed.

(** C3, amended: for every position converted by [fetchSnapTradeHoldings],
    [totalValue = quantity * price], [gainLoss = totalValue - bookValue] and
    [purchasePrice = bookValue / quantity] in binary64 arithmetic, where a
    missing or falsy field reads as 0; there is no special case for a zero
    quantity, so [purchasePrice] is then [NaN] when the book value is zero
    too and an infinity otherwise. The conversion fails only for a position
    without [symbol]. *)
Theorem toHolding_arithmetic (account : Account) (position : Position) :
  let q := Js.parseFloat_or_0 (position_quantity position) in
  let p := Js.parseFloat_or_0 (position_price position) in
  let b := Js.parseFloat_or_0 (position_bookValue position) in
  match toHolding account position with
  | Throw _ => position_symbol position = SymbolMissing
  | Ok h =>
      quantity h = q /\ pricePerShare h = p /\
      totalValue h = Js.mul q p /\
      gainLoss h = Js.sub (totalValue h) b /\
      purchasePrice h = Js.div b q /\
      (if Js.truthy_num q then True
       else if Js.truthy_num b
            then Js.is_infinite (purchasePrice h) = true
            else Js.is_NaN (purchasePrice h) = true)
  end.
Proof.
  intros q p b. unfold toHolding. fold q p b.
  assert (Hz : if Js.truthy_num q then True
               else if Js.truthy_num b
                    then Js.is_infinite (Js.div b q) = true
                    else Js.is_NaN (Js.div b q) = true).
  { destruct (parseFloat_or_0_cases (position_quantity position)) as [Hq|[Hq _]];
      fold q in Hq; rewrite Hq; [|exact I].
    simpl. rewrite div_by_zero.
    destruct b as [s|s| |s m e]; reflexivity. }
  destruct (position_symbol position); simpl; auto 10.
Qed.

(** ** The broker parameter of the login call *)

Example broker_lowercase_passed_uppercase :
  login_broker (loginRequest "u1" (Some "s") "https://app/cb" (Some "questrade"))
  = Some "QUESTRADE".
Proof. reflexivity. Qed.

Example broker_ibkr_omitted :
  login_broker (loginRequest "u1" (Some "s") "https://app/cb" (Some "ibkr")) = None.
Proof. reflexivity. Qed.

(** C9, as stated, fails for a broker id that is not empty but blank: [" "]
    is neither upper-cased nor passed, the [broker] key is left out. *)
Lemma blank_broker_counterexample :
  " " <> "" /\
  special_broker (Js.toUpperCase " ") = false /\
  snapTradeBrokerId (Some " ") = Some " " /\
  login_broker (loginRequest "u1" (Some "s") "https://app/cb" (Some " ")) = None /\
  login_broker (loginRequest "u1" (Some "s") "https://app/cb" (Some " "))
    <> Some (Js.toUpperCase " ").
Proof. repeat split; try reflexivity; discriminate. Qed.

Lemma special_broker_false (u : string) :
  special_broker u = false ->
  String.eqb u "IBKR" = false /\
  String.eqb u "INTERACTIVE_BROKERS" = false /\
  String.eqb u "SCHWAB" = false.
Proof.
  unfold special_broker. intros Hs.
  apply orb_false_iff in Hs as [Hs H3]. apply orb_false_iff in Hs as [H1 H2].
  auto.
Qed.

(** C9, amended: for every broker id that is not blank (not empty once
    trimmed), [createSnapTradeUserLink] upper-cases the id; for
    INTERACTIVE_BROKERS, IBKR and SCHWAB the [broker] key of the login call
    is left out, for every other broker the upper-cased id is passed. *)
Theorem broker_parameter_normalized
    (uid : string) (secret : option string) (redirectUri brokerId : string) :
  Js.trim brokerId <> "" ->
  let upper := Js.toUpperCase brokerId in
  snapTradeBrokerId (Some brokerId)
    = (if special_broker upper then None else Some upper) /\
  login_broker (loginRequest uid secret redirectUri (Some brokerId))
    = (if special_broker upper then None else Some upper) /\
  (special_broker upper = true <->
   upper = "INTERACTIVE_BROKERS" \/ upper = "IBKR" \/ upper = "SCHWAB").
Proof.
  intros Ht upper.
  assert (Hspecial : special_broker upper = true <->
                     upper = "INTERACTIVE_BROKERS" \/ upper = "IBKR" \/ upper = "SCHWAB").
  { unfold special_broker. rewrite !orb_true_iff, !String.eqb_eq. tauto. }
  refine ((fun Hboth => conj (proj1 Hboth) (conj (proj2 Hboth) Hspecial)) _).
  assert (Hid : snapTradeBrokerId (Some brokerId)
                = if special_broker upper then None else Some upper).
  { unfold snapTradeBrokerId. simpl.
    rewrite (eqb_empty_false _ (trim_nonempty _ Ht)), (eqb_empty_false _ Ht).
    reflexivity. }
  split; [exact Hid|].
  change (login_broker (loginRequest uid secret redirectUri (Some brokerId)))
    with (brokerParam (snapTradeBrokerId (Some brokerId))).
  rewrite Hid.
  destruct (special_broker upper) eqn:Hs; [reflexivity|].
  apply special_broker_false in Hs as (H1 & H2 & H3).
  assert (Hu : Js.trim upper <> "").
  { intros Hu. apply Ht. apply trim_toUpperCase_empty_iff. exact Hu. }
  unfold brokerParam. simpl.
  rewrite (eqb_empty_false _ (trim_nonempty _ Hu)), (eqb_empty_false _ Hu), H1, H2, H3.
  reflexivity.
Qed.

(** "robinhood" is passed as "ROBINHOOD"; so is a broker id with other
    letters than those of ASCII, here U+00E9 before "trade", whose upper
    case is U+00C9; and "ibkr" written with the dotless i, U+0131,
    upper-cases to "IBKR" and is left out. *)
Lemma broker_parameter_normalized_witness :
  Js.trim "robinhood" <> "" /\
  login_broker (loginRequest "u1" (Some "s") "https://app/cb" (Some "robinhood"))
    = Some "ROBINHOOD" /\
  login_broker (loginRequest "u1" (Some "s") "https://app/cb"
                  (Some (Js.encode [233; 116; 114; 97; 100; 101]%N)))
    = Some (Js.encode [201; 84; 82; 65; 68; 69]%N) /\
  login_broker (loginRequest "u1" (Some "s") "https://app/cb"
                  (Some (Js.encode [305; 98; 107; 114]%N)))
    = None.
Proof.
  split; [vm_compute; discriminate|]. split; [|split].
  - apply (broker_parameter_normalized "u1" (Some "s") "https://app/cb" "robinhood").
    vm_compute; discriminate.
  - assert (Ht : Js.trim (Js.encode [233; 116; 114; 97; 100; 101]%N) <> "")
      by (vm_compute; discriminate).
    destruct (broker_parameter_normalized "u1" (Some "s") "https://app/cb" _ Ht)
      as (_ & Hb & _).
    rewrite Hb. vm_compute. reflexivity.
  - assert (Ht : Js.trim (Js.encode [305; 98; 107; 114]%N) <> "")
      by (vm_compute; discriminate).
    destruct (broker_parameter_normalized "u1" (Some "s") "https://app/cb" _ Ht)
      as (_ & Hb & _).
    rewrite Hb. vm_compute. reflexivity.
Defined.

(** A broker id made of a no-break space, U+00A0, is blank as well. *)
Example blank_broker_no_break_space :
  Js.trim (Js.encode [160]%N) = "" /\
  login_broker (loginRequest "u1" (Some "s") "https://app/cb"
                  (Some (Js.encode [160]%N)))
    = None.
Proof. vm_compute. split; reflexivity. Qed.

(** ** Rules for runs *)

Section Rules.

Context {R : Type} `{SnapTradeApi R} {dates : Js.Dates}.

Implicit Types w : World R.

Lemma run_ret {A : Type} (a : A) w (Q : outcome A -> World R -> Prop) :
  Q (Ok a) w -> run (ret a) w Q.
Proof. intros HQ o w' [= <- <-]. exact HQ. Qed.

Lemma run_throw {A : Type} (e : Js.error) w (Q : outcome A -> World R -> Prop) :
  Q (Throw e) w -> run (throw e) w Q.
Proof. intros HQ o w' [= <- <-]. exact HQ. Qed.

Lemma run_bind {A B : Type} (c : M (World R) A) (k : A -> M (World R) B) w
    (Q : outcome B -> World R -> Prop) :
  run c w (fun o w1 =>
             match o with
             | Ok a => run (k a) w1 Q
             | Throw e => Q (Throw e) w1
             end) ->
  run (bind c k) w Q.
Proof.
  intros Hc o w'. unfold bind.
  destruct (c w) as [[a|e] w1] eqn:E; specialize (Hc _ _ E); simpl in Hc.
  - apply Hc.
  - intros [= <- <-]. exact Hc.
Qed.

Lemma run_try {A : Type} (c : M (World R) A) (h : Js.error -> M (World R) A) w
    (Q : outcome A -> World R -> Prop) :
  run c w (fun o w1 =>
             match o with
             | Ok a => Q (Ok a) w1
             | Throw e => run (h e) w1 Q
             end) ->
  run (try_catch c h) w Q.
Proof.
  intros Hc o w'. unfold try_catch.
  destruct (c w) as [[a|e] w1] eqn:E; specialize (Hc _ _ E); simpl in Hc.
  - intros [= <- <-]. exact Hc.
  - apply Hc.
Qed.

Lemma run_conseq {A : Type} (c : M (World R) A) w
    (P Q : outcome A -> World R -> Prop) :
  run c w P -> (forall o w', P o w' -> Q o w') -> run c w Q.
Proof. intros Hc HPQ o w' E. apply HPQ, Hc, E. Qed.

(** A run always ends: the postcondition holds of what [c w] computes. *)
Lemma run_result {A : Type} (c : M (World R) A) w
    (Q : outcome A -> World R -> Prop) :
  run c w Q -> Q (c w).1 (c w).2.
Proof. intros Hc. apply Hc. destruct (c w); reflexivity. Qed.

Lemma run_emit (e : Event) w (Q : outcome unit -> World R -> Prop) :
  Q (Ok tt) (log e w) -> run (emit e) w Q.
Proof. intros HQ o w' [= <- <-]. exact HQ. Qed.

Lemma run_now w (Q : outcome Z -> World R -> Prop) :
  Q (Ok (clock w)) w -> run now w Q.
Proof. intros HQ o w' [= <- <-]. exact HQ. Qed.

Lemma run_get_world w (Q : outcome (World R) -> World R -> Prop) :
  Q (Ok w) w -> run get_world w Q.
Proof. intros HQ o w' [= <- <-]. exact HQ. Qed.

Lemma run_call {A : Type} (e : Event) (f : R -> outcome A * R) w
    (Q : outcome A -> World R -> Prop) :
  (forall o r', f (remote w) = (o, r') -> Q o (after_call e r' w)) ->
  run (call e f) w Q.
Proof.
  intros HQ o w'. unfold call.
  destruct (f (remote w)) as [o1 r1] eqn:E.
  intros [= <- <-]. apply HQ. reflexivity.
Qed.

(** The three store operations: one entry of the script is consumed. *)

Lemma next_fault_eq w :
  next_fault w = (Ok (failing w), after_store (rows w) w).
Proof.
  unfold next_fault, failing, after_store.
  destruct w as [s m r c fs tr]; destruct fs; reflexivity.
Qed.

Lemma select_connection_eq (uid : string) (a : bool) w :
  select_connection uid a w = (Ok (selection uid a w), after_store (rows w) w).
Proof.
  unfold select_connection, selection, bind. rewrite next_fault_eq.
  destruct (failing w); reflexivity.
Qed.

Lemma update_connection_eq (uid : string) (f : Row -> Row) w :
  update_connection uid f w =
  (Ok (write_error w),
   after_store (if failing w then rows w else alter f uid (rows w)) w).
Proof.
  unfold update_connection, write_error, bind. rewrite next_fault_eq.
  destruct (failing w); reflexivity.
Qed.

Lemma upsert_connection_eq (uid : string) (r : Row) w :
  upsert_connection uid r w =
  (Ok (write_error w),
   after_store (if failing w then rows w else <[uid := r]> (rows w)) w).
Proof.
  unfold upsert_connection, write_error, bind. rewrite next_fault_eq.
  destruct (failing w); reflexivity.
Qed.

Lemma run_select (uid : string) (a : bool) w
    (Q : outcome selected -> World R -> Prop) :
  Q (Ok (selection uid a w)) (after_store (rows w) w) ->
  run (select_connection uid a) w Q.
Proof. intros HQ o w'. rewrite select_connection_eq. intros [= <- <-]. exact HQ. Qed.

Lemma run_update (uid : string) (f : Row -> Row) w
    (Q : outcome (option string) -> World R -> Prop) :
  Q (Ok (write_error w))
    (after_store (if failing w then rows w else alter f uid (rows w)) w) ->
  run (update_connection uid f) w Q.
Proof. intros HQ o w'. rewrite update_connection_eq. intros [= <- <-]. exact HQ. Qed.

Lemma run_upsert (uid : string) (r : Row) w
    (Q : outcome (option string) -> World R -> Prop) :
  Q (Ok (write_error w))
    (after_store (if failing w then rows w else <[uid := r]> (rows w)) w) ->
  run (upsert_connection uid r) w Q.
Proof. intros HQ o w'. rewrite upsert_connection_eq. intros [= <- <-]. exact HQ. Qed.

(** With a reliable store the operations take effect and the script stays
    empty. *)
Lemma reliable_not_failing w : faults w = [] -> failing w = false.
Proof. unfold failing. intros ->. reflexivity. Qed.

Lemma after_store_reliable (m : gmap string Row) w :
  faults w = [] -> faults (after_store m w) = [].
Proof. simpl. intros ->. reflexivity. Qed.

(** *** Frames *)

Lemma frame_refl w : frame w w [].
Proof. split; auto. rewrite app_nil_r. reflexivity. Qed.

Lemma frame_trans w w1 w2 (e1 e2 : list Event) :
  frame w w1 e1 -> frame w1 w2 e2 -> frame w w2 (e1 ++ e2).
Proof.
  intros [S1 C1 T1 F1] [S2 C2 T2 F2]. split.
  - congruence.
  - congruence.
  - rewrite T2, T1, app_assoc. reflexivity.
  - auto.
Qed.

Lemma frame_store (m : gmap string Row) w : frame w (after_store m w) [].
Proof.
  split; try reflexivity.
  - simpl. rewrite app_nil_r. reflexivity.
  - apply after_store_reliable.
Qed.

Lemma frame_call (e : Event) (r' : R) w : frame w (after_call e r' w) [e].
Proof. split; auto. Qed.

Lemma frame_log (e : Event) w : frame w (log e w) [e].
Proof. split; auto. Qed.

Lemma frame_step w w1 w2 (e1 e2 es : list Event) :
  frame w w1 e1 -> frame w1 w2 e2 -> es = e1 ++ e2 -> frame w w2 es.
Proof. intros F1 F2 ->. eapply frame_trans; eassumption. Qed.

End Rules.

(** ** Registration *)

Ltac wp_step :=
  lazymatch goal with
  | |- run (bind _ _) _ _ => apply run_bind
  | |- run (try_catch _ _) _ _ => apply run_try
  | |- run (ret _) _ _ => apply run_ret
  | |- run (throw _) _ _ => apply run_throw
  | |- run (emit _) _ _ => apply run_emit
  | |- run now _ _ => apply run_now
  | |- run get_world _ _ => apply run_get_world
  | |- run (select_connection _ _) _ _ => apply run_select
  | |- run (update_connection _ _) _ _ => apply run_update
  | |- run (upsert_connection _ _) _ _ => apply run_upsert
  | |- run (call _ _) _ _ => apply run_call; intros [?|?] ? ?
  end; cbv beta iota.

Ltac wp := repeat wp_step.

(** Closes a frame goal from the frames of the steps taken. *)
Ltac frames :=
  repeat first
    [ eassumption
    | apply frame_refl
    | apply frame_store
    | apply frame_call
    | apply frame_log
    | eapply frame_step; [ | | reflexivity ] ].

Section Registration.

Context {R : Type} `{SnapTradeApi R} {dates : Js.Dates}.

Implicit Types w : World R.

Lemma has_userSecret_truthy (d : option UserIDandSecret) (u : UserIDandSecret) :
  has_userSecret d = Some u -> d = Some u /\ Js.truthy (userSecret u) = true.
Proof.
  unfold has_userSecret. destruct d as [v|]; [|discriminate].
  destruct (Js.truthy (userSecret v)) eqn:E; [|discriminate].
  intros [= <-]. auto.
Qed.

Lemma real_secret_truthy (s : option string) :
  real_secret s = true -> Js.truthy s = true.
Proof. unfold real_secret. intros Hs. apply andb_true_iff in Hs. tauto. Qed.

Lemma Error_not_already_exists (msg : string) :
  is_already_exists (Js.Error msg) = false.
Proof. reflexivity. Qed.

Lemma lookupExisting_spec (uid : string) w :
  run (lookupExisting uid) w (fun o w' =>
    o = Ok (data (selection uid true w) ≫= api_secret_encrypted) /\
    w' = after_store (rows w) w).
Proof. unfold lookupExisting. wp. auto. Qed.

Lemma writePlaceholder_spec (uid : string) w :
  run (writePlaceholder uid) w (fun o w' =>
    (exists err, o = Ok err) /\ frame w w' []).
Proof. unfold writePlaceholder. wp. split; [eauto | frames]. Qed.

Lemma directRegistration_spec (uid : string) w :
  run (directRegistration uid) w (fun o w' =>
    frame w w' [ApiRegister uid] /\
    forall u, o = Ok u -> Js.truthy (userSecret u) = true).
Proof.
  unfold directRegistration. wp.
  - destruct (has_userSecret a) as [d|] eqn:Hd; wp.
    + split; [|intros u [= <-]; apply (has_userSecret_truthy _ _ Hd)].
      eapply frame_step; [apply frame_call | apply frame_store | reflexivity].
    + split; [apply frame_call | discriminate].
  - split; [apply frame_call | discriminate].
Qed.

Lemma registerModifiedId_spec (uid : string) w :
  run (registerModifiedId uid) w (fun o w' =>
    frame w w' [ApiRegister (modified_id uid (clock w))] /\
    exists r, o = Ok r /\
      forall u, r = Some u ->
        userId u = Some uid /\ Js.truthy (userSecret u) = true).
Proof.
  unfold registerModifiedId. wp.
  - destruct (has_userSecret a) as [d|] eqn:Hd; wp.
    + split.
      * eapply frame_step; [apply frame_call | apply frame_store | reflexivity].
      * eexists; split; [reflexivity|]. intros u [= <-]. simpl.
        split; [reflexivity | apply (has_userSecret_truthy _ _ Hd)].
    + split; [apply frame_call|]. eexists; split; [reflexivity | discriminate].
  - split; [apply frame_call|]. eexists; split; [reflexivity | discriminate].
Qed.

Lemma fallbackFakeSecret_spec (uid : string) w :
  run (fallbackFakeSecret uid) w (fun o w' =>
    frame w w' [] /\
    o = Ok {| userId := Some uid; userSecret := Some (fake_secret (clock w)) |}).
Proof. unfold fallbackFakeSecret. wp. split; [frames | reflexivity]. Qed.

Lemma onUserAlreadyExists_spec (uid : string) w :
  run (onUserAlreadyExists uid) w (fun o w' =>
    (exists evs, frame w w' evs /\ Forall (fun e => is_api_register e = true) evs /\
                 (length evs <= 1)%nat) /\
    exists u, o = Ok u /\ userId u = Some uid /\ Js.truthy (userSecret u) = true).
Proof.
  unfold onUserAlreadyExists. wp.
  destruct (real_secret _) eqn:Hreal; wp.
  - split.
    + exists []. split; [frames|]. split; [constructor | simpl; lia].
    + eexists; split; [reflexivity|]. split; [reflexivity|].
      apply real_secret_truthy, Hreal.
  - eapply run_conseq; [apply registerModifiedId_spec|].
    intros o w1 (F1 & r & -> & Hr). cbv beta iota.
    destruct r as [u|]; wp.
    + split.
      * eexists. split; [eapply frame_step; [apply frame_store | exact F1 | reflexivity]|].
        split; [repeat constructor | simpl; lia].
      * exists u. destruct (Hr u eq_refl). auto.
    + eapply run_conseq; [apply fallbackFakeSecret_spec|].
      intros o w2 (F2 & ->). split.
      * eexists. split.
        { eapply frame_step; [apply frame_store | | reflexivity].
          eapply frame_step; [exact F1 | exact F2 | reflexivity]. }
        split; [repeat constructor | simpl; lia].
      * eexists; split; [reflexivity|]. split; reflexivity.
Qed.

Lemma markRegistrationFailed_spec (uid : string) (e : Js.error) w :
  run (markRegistrationFailed uid e) w (fun o w' =>
    frame w w' [] /\ o = Throw e).
Proof. unfold markRegistrationFailed. wp. split; [frames | reflexivity]. Qed.

Lemma onRegisterError_spec (uid : string) (e : Js.error) w :
  run (onRegisterError uid e) w (fun o w' =>
    (exists evs, frame w w' evs /\ Forall (fun e => is_api_register e = true) evs /\
                 (length evs <= 1)%nat) /\
    forall u, o = Ok u -> Js.truthy (userSecret u) = true).
Proof.
  unfold onRegisterError. destruct (is_already_exists e).
  - eapply run_conseq; [apply onUserAlreadyExists_spec|].
    intros o w' (Hf & u & -> & _ & Hu). split; [exact Hf|].
    intros u' [= <-]. exact Hu.
  - eapply run_conseq; [apply markRegistrationFailed_spec|].
    intros o w' (Hf & ->). split; [|discriminate].
    exists []. split; [exact Hf|]. split; [constructor | simpl; lia].
Qed.

(** A registration enters the function once and calls the register
    endpoint at most twice; a secret that it returns is truthy. *)
Lemma registerSnapTradeUser_spec (uid : string) w :
  run (registerSnapTradeUser uid) w (fun o w' =>
    (exists evs, frame w w' (CallRegisterSnapTradeUser uid :: evs) /\
                 Forall (fun e => is_api_register e = true) evs /\
                 (length evs <= 2)%nat) /\
    forall u, o = Ok u -> Js.truthy (userSecret u) = true).
Proof.
  unfold registerSnapTradeUser. wp.
  destruct (negb (sdk (log _ w))); wp.
  { split; [|discriminate]. exists []. split; [apply frame_log|].
    split; [constructor | simpl; lia]. }
  eapply run_conseq; [apply lookupExisting_spec|].
  intros o w1 (-> & ->). cbv beta iota.
  destruct (Js.truthy _) eqn:Hs; wp.
  { split; [|intros u [= <-]; exact Hs].
    exists []. split; [|split; [constructor | simpl; lia]].
    eapply frame_step; [apply frame_log | apply frame_store | reflexivity]. }
  eapply run_conseq; [apply writePlaceholder_spec|].
  intros o w2 ([err ->] & F2). cbv beta iota. wp.
  eapply run_conseq; [apply directRegistration_spec|].
  intros o w3 (F3 & Hu).
  assert (F03 : frame w w3 [CallRegisterSnapTradeUser uid; ApiRegister uid]).
  { eapply frame_step; [apply frame_log | | reflexivity].
    eapply frame_step; [apply frame_store | | reflexivity].
    eapply frame_step; [exact F2 | exact F3 | reflexivity]. }
  destruct o as [u|e].
  - split; [|intros u' [= <-]; apply Hu; reflexivity].
    exists [ApiRegister uid]. split; [exact F03|].
    split; [repeat constructor | simpl; lia].
  - eapply run_conseq; [apply onRegisterError_spec|].
    intros o w4 ((evs & F4 & Hevs & Hlen) & Hu4). split; [|exact Hu4].
    exists (ApiRegister uid :: evs). split.
    + eapply frame_step; [exact F03 | exact F4 | reflexivity].
    + split; [constructor; [reflexivity | exact Hevs] | simpl; lia].
Qed.

End Registration.

(** ** Secret retrieval *)

Section Secret.

Context {R : Type} `{SnapTradeApi R} {dates : Js.Dates}.

Implicit Types w : World R.

Lemma count_app (p : Event -> bool) (l1 l2 : list Event) :
  count p (l1 ++ l2) = (count p l1 + count p l2)%nat.
Proof. unfold count. rewrite List.filter_app, length_app. reflexivity. Qed.

Lemma count_none (p q : Event -> bool) (l : list Event) :
  (forall e, q e = true -> p e = false) ->
  Forall (fun e => q e = true) l -> count p l = 0%nat.
Proof.
  intros Hpq Hl. unfold count. induction Hl as [|e l He _ IH]; simpl; [reflexivity|].
  rewrite (Hpq e He). exact IH.
Qed.

Lemma count_all (p : Event -> bool) (l : list Event) :
  Forall (fun e => p e = true) l -> count p l = length l.
Proof.
  intros Hl. unfold count. induction Hl as [|e l He _ IH]; simpl; [reflexivity|].
  rewrite He. simpl. rewrite IH. reflexivity.
Qed.

Lemma usable_truthy (d : option Row) :
  usable d = true -> Js.truthy (d ≫= api_secret_encrypted) = true.
Proof.
  destruct d as [r|]; simpl; [|discriminate]. intros Hu.
  apply andb_true_iff in Hu as [_ Hu]. apply real_secret_truthy, Hu.
Qed.

Lemma cachedSecret_Some (d : option Row) (force : bool) (t : Z) (s : option string) :
  cachedSecret d force t = Some s ->
  usable d = true /\ s = d ≫= api_secret_encrypted.
Proof.
  unfold cachedSecret. destruct d as [r|]; [|discriminate].
  destruct (usable (Some r)); [|discriminate].
  destruct (isFakeSecret r).
  - destruct (negb force); [|discriminate]. intros [= <-]. auto.
  - destruct (negb (needsRefresh (broker_data r) t) && negb force)%bool;
      [|discriminate]. intros [= <-]. auto.
Qed.

Lemma emergency_secret_truthy (t : Z) :
  Js.truthy (Some (emergency_secret t)) = true.
Proof. reflexivity. Qed.

Lemma emergencyFallback_spec (uid : string) (e : Js.error) w :
  run (emergencyFallback uid e) w (fun o w' =>
    frame w w' [] /\ o = Ok (Some (emergency_secret (clock w)))).
Proof. unfold emergencyFallback. wp. split; [frames | reflexivity]. Qed.

(** Lines 486-529: the registration and its two fallbacks never throw and
    yield a truthy secret; the function is entered once. *)
Lemma refresh_spec (uid : string) (d : option Row) w :
  run (try_catch
         (registrationResult <- registerSnapTradeUser uid ;;
          ret (userSecret registrationResult))
         (fun regError =>
            if usable d then ret (d ≫= api_secret_encrypted)
            else emergencyFallback uid regError)) w
    (fun o w' =>
       (exists evs, frame w w' (CallRegisterSnapTradeUser uid :: evs) /\
                    Forall (fun e => is_api_register e = true) evs /\
                    (length evs <= 2)%nat) /\
       exists s, o = Ok s /\ Js.truthy s = true).
Proof.
  wp. eapply run_conseq; [apply registerSnapTradeUser_spec|].
  intros o w1 ((evs & F1 & Hevs & Hlen) & Hu). destruct o as [u|e]; wp.
  - split; [eauto|]. eexists; split; [reflexivity | apply Hu; reflexivity].
  - destruct (usable d) eqn:Hd; wp.
    + split; [eauto|]. eexists; split; [reflexivity | apply usable_truthy, Hd].
    + eapply run_conseq; [apply emergencyFallback_spec|].
      intros o w2 (F2 & ->). split.
      * exists evs. split; [|auto].
        eapply frame_step; [exact F1 | exact F2 | rewrite app_nil_r; reflexivity].
      * eexists; split; [reflexivity | apply emergency_secret_truthy].
Qed.

Lemma selection_failing (uid : string) (a : bool) w :
  failing w = true -> selection uid a w = {| data := None; error := Some "store error" |}.
Proof. unfold selection. intros ->. reflexivity. Qed.

Lemma selection_ok (uid : string) w :
  failing w = false ->
  selection uid false w = {| data := rows w !! uid; error := None |}.
Proof.
  unfold selection. intros ->. simpl. destruct (rows w !! uid); reflexivity.
Qed.

(** The stored secret is returned at once: one read, nothing else. *)
Lemma getUserSecret_cached (uid : string) (force : bool) w (s : option string) :
  failing w = false ->
  cachedSecret (rows w !! uid) force (clock w) = Some s ->
  getUserSecret uid force w = (Ok s, after_store (rows w) w).
Proof.
  intros Hf Hc. unfold getUserSecret, bind.
  rewrite select_connection_eq, (selection_ok _ _ Hf). simpl.
  unfold now. simpl. rewrite Hc. reflexivity.
Qed.

(** Otherwise a registration is started. *)
Lemma getUserSecret_refresh (uid : string) (force : bool) w :
  failing w = false ->
  cachedSecret (rows w !! uid) force (clock w) = None ->
  run (getUserSecret uid force) w (fun o w' =>
    (exists evs, frame w w' (CallRegisterSnapTradeUser uid :: evs) /\
                 Forall (fun e => is_api_register e = true) evs /\
                 (length evs <= 2)%nat) /\
    exists s, o = Ok s /\ Js.truthy s = true).
Proof.
  intros Hf Hc. unfold getUserSecret. wp.
  rewrite (selection_ok _ _ Hf). simpl. wp. simpl. rewrite Hc.
  eapply run_conseq; [apply refresh_spec|].
  intros o w' ((evs & F & Hevs) & Hs). split; [|exact Hs].
  exists evs. split; [|exact Hevs].
  eapply frame_step; [apply frame_store | exact F | reflexivity].
Qed.

Lemma getUserSecret_spec (uid : string) (force : bool) w :
  run (getUserSecret uid force) w (fun o w' =>
    (exists evs, frame w w' evs /\
                 Forall (fun e => registration_event e = true) evs) /\
    match o with
    | Ok s => Js.truthy s = true /\ failing w = false
    | Throw e =>
        e = Js.Error "Database error when retrieving user secret" /\
        failing w = true
    end).
Proof.
  destruct (failing w) eqn:Hf.
  - unfold getUserSecret. wp. rewrite (selection_failing _ _ _ Hf). simpl. wp.
    split; [|auto]. exists []. split; [frames | constructor].
  - destruct (cachedSecret (rows w !! uid) force (clock w)) as [s|] eqn:Hc.
    + intros o w'. rewrite (getUserSecret_cached _ _ _ _ Hf Hc). intros [= <- <-].
      split.
      * exists []. split; [frames | constructor].
      * split; [|reflexivity]. apply cachedSecret_Some in Hc as [Hu ->].
        apply usable_truthy, Hu.
    + eapply run_conseq; [apply (getUserSecret_refresh _ _ _ Hf Hc)|].
      intros o w' ((evs & F & Hevs & _) & s & -> & Hs). split; [|auto].
      eexists. split; [exact F|]. constructor; [reflexivity|].
      eapply Forall_impl; [exact Hevs|]. intros e He. unfold registration_event.
      simpl in He. rewrite He. apply orb_true_r.
Qed.

End Secret.

Section SecretClaims.

Context {R : Type} `{SnapTradeApi R} {dates : Js.Dates}.

Implicit Types w : World R.

(** C1, amended: for every user id and every [forceReregister] flag,
    [getUserSecret] returns a non-empty string and does not throw when
    the read of the connection row succeeds; when that read fails it
    throws "Database error when retrieving user secret". *)
Theorem getUserSecret_total (uid : string) (force : bool) w :
  match getUserSecret uid force w with
  | (Ok s, _) =>
      (exists secret, s = Some secret /\ secret <> "") /\ failing w = false
  | (Throw e, _) =>
      e = Js.Error "Database error when retrieving user secret" /\
      failing w = true
  end.
Proof.
  generalize (run_result _ _ _ (getUserSecret_spec uid force w)).
  destruct (getUserSecret uid force w) as [[s|e] w']; simpl; [|tauto].
  intros (_ & Hs & Hf). split; [|exact Hf].
  destruct s as [secret|]; [|discriminate]. exists secret. split; [reflexivity|].
  intros ->. discriminate.
Qed.

Lemma days_gt_7 (a : Z) : (7 <? a / ms_per_day) = (8 * ms_per_day <=? a).
Proof.
  change ms_per_day with 86400000.
  destruct (Z.ltb_spec 7 (a / 86400000)), (Z.leb_spec (8 * 86400000) a);
    try reflexivity; exfalso; Z.to_euclidean_division_equations; lia.
Qed.

Lemma needsRefresh_age (bd : gmap string Js.json) (t : Z) :
  needsRefresh bd t =
  match bd !! "registered_at" with
  | None => true
  | Some v =>
      (negb (Js.truthy_json v) ||
       match Js.date_getTime v with
       | Some at_ => 8 * ms_per_day <=? t - at_
       | None => false
       end)%bool
  end.
Proof.
  unfold needsRefresh. destruct (bd !! "registered_at") as [v|]; [|reflexivity].
  destruct (Js.truthy_json v); [|reflexivity]. cbn [negb orb].
  destruct (Js.date_getTime v) as [at_|]; [|reflexivity].
  apply days_gt_7.
Qed.

(** C5, amended: for every stored connection that is active with a
    non-placeholder secret (and a read that succeeds), [getUserSecret]
    returns the stored secret unchanged, without registering and without
    touching the row, except that it goes through [registerSnapTradeUser]
    for a fallback ([is_fake_secret]) secret when [forceReregister] is
    set, and for a real secret when [forceReregister] is set, when
    [registered_at] is missing or falsy, or when the whole days since
    [registered_at] exceed 7, that is from an age of 8 days on; a
    [registered_at] that is no date never asks for a refresh. This
    holds whatever [Date.parse] makes of a text that the program has not
    written itself. *)
Theorem stored_secret_reuse (uid : string) (force : bool) w (r : Row)
    (stored : string) :
  fault 0 w = false ->
  rows w !! uid = Some r ->
  is_active r = true ->
  api_secret_encrypted r = Some stored ->
  stored <> "" ->
  stored <> "pending_registration" ->
  let refresh :=
    if match broker_data r !! "is_fake_secret" with
       | Some (Js.JBool true) => true
       | _ => false
       end
    then force
    else (force ||
          match broker_data r !! "registered_at" with
          | None => true
          | Some registeredAt =>
              negb (Js.truthy_json registeredAt) ||
              match Js.date_getTime registeredAt with
              | Some at_ => 8 * ms_per_day <=? clock w - at_
              | None => false
              end
          end)%bool in
  let '(o, w') := getUserSecret uid force w in
  if refresh then
    count is_call_register (trace w') = S (count is_call_register (trace w)) /\
    exists s, o = Ok s /\ Js.truthy s = true
  else
    o = Ok (Some stored) /\
    trace w' = trace w /\ rows w' = rows w /\ remote w' = remote w.
Proof.
  intros Hf Hr Ha Hs Hne Hnp refresh.
  change (fault 0 w) with (failing w) in Hf.
  assert (Hu : usable (Some r) = true).
  { unfold usable, real_secret, pending_registration. rewrite Ha, Hs. simpl.
    rewrite (eqb_empty_false _ Hne). simpl.
    apply negb_true_iff, bool_decide_eq_false. intros [= ->]. contradiction. }
  assert (Hc : cachedSecret (rows w !! uid) force (clock w)
               = if refresh then None else Some (Some stored)).
  { rewrite Hr. unfold cachedSecret. rewrite Hu, Hs. subst refresh.
    rewrite needsRefresh_age. unfold isFakeSecret.
    destruct (match broker_data r !! "is_fake_secret" with
              | Some (Js.JBool true) => true
              | _ => false
              end), force; cbn [negb andb orb]; try reflexivity.
    - rewrite andb_false_r. reflexivity.
    - rewrite andb_true_r.
      destruct (match broker_data r !! "registered_at" with
                | Some _ => _ | None => _ end); reflexivity. }
  destruct refresh.
  - generalize (run_result _ _ _ (getUserSecret_refresh uid force w Hf Hc)).
    destruct (getUserSecret uid force w) as [o w']. simpl.
    intros ((evs & F & Hevs & _) & Htruthy). split; [|exact Htruthy].
    rewrite (frame_trace _ _ _ F).
    change (CallRegisterSnapTradeUser uid :: evs)
      with ([CallRegisterSnapTradeUser uid] ++ evs).
    rewrite !count_app, (count_none is_call_register is_api_register evs).
    + simpl. lia.
    + intros [] He; try discriminate; reflexivity.
    + exact Hevs.
  - rewrite (getUserSecret_cached _ _ _ _ Hf Hc). auto.
Qed.

End SecretClaims.

(** C1, as stated, fails: when the read of the connection row fails,
    [getUserSecret] throws. *)
Lemma getUserSecret_read_failure_counterexample :
  (getUserSecret "u1" false (with_faults [true] (start offline t0))).1
  = Throw (Js.Error "Database error when retrieving user secret").
Proof. reflexivity. Qed.

(** With a remote that is down and a store that works, a user without a
    row gets the emergency secret. *)
Example getUserSecret_offline :
  (getUserSecret "u1" false (start offline t0)).1
  = Ok (Some "emergency_fallback_1700000000000").
Proof. vm_compute. reflexivity. Qed.

(** C4: an active row that still holds the placeholder is returned by
    [registerSnapTradeUser] as if it were a secret, without any call to the
    register endpoint, and [getUserSecret], which itself refuses the
    placeholder, hands it out through that registration. *)
Lemma placeholder_short_circuit :
  let w := world_u1 placeholder_row in
  (registerSnapTradeUser "u1" w).1
    = Ok {| userId := Some "u1"; userSecret := Some "pending_registration" |} /\
  count is_api_register (trace (registerSnapTradeUser "u1" w).2) = 0%nat /\
  (getUserSecret "u1" false w).1 = Ok (Some "pending_registration").
Proof. vm_compute. repeat split. Qed.

(** C5, as stated, fails twice: a real secret whose row has no
    [registered_at] (here the [broker_data] left by
    [createSnapTradeUserLink]) goes through registration although
    [forceReregister] is not set and no age exceeds 7 days; and a real
    secret registered 7 days and 12 hours ago is returned at once although
    its age exceeds 7 days. *)
Lemma refresh_rule_counterexample :
  (let w := world_u1 (real_row link_started) in
   usable (rows w !! "u1") = true /\
   count is_call_register (trace (getUserSecret "u1" false w).2) = 1%nat) /\
  (let w := world_u1 (real_row (registered_ago (7 * ms_per_day + ms_per_day / 2))) in
   usable (rows w !! "u1") = true /\
   (getUserSecret "u1" false w).1 = Ok (Some "real-secret-1") /\
   trace (getUserSecret "u1" false w).2 = []).
Proof. vm_compute. repeat split. Qed.

(** A secret registered a day ago is returned as it is; one whose
    [registered_at] reads "2020-01-01", years before, goes through
    registration. *)
Lemma stored_secret_reuse_witness :
  (let w := world_u1 (real_row (registered_ago ms_per_day)) in
   let '(o, w') := getUserSecret "u1" false w in
   o = Ok (Some "real-secret-1") /\
   trace w' = trace w /\ rows w' = rows w /\ remote w' = remote w) /\
  (let w := world_u1 (real_row {[ "registered_at" := Js.JStr "2020-01-01" ]}) in
   let '(o, w') := getUserSecret "u1" false w in
   count is_call_register (trace w') = S (count is_call_register (trace w)) /\
   exists s, o = Ok s /\ Js.truthy s = true).
Proof.
  assert (Hne : "real-secret-1" <> "") by discriminate.
  assert (Hnp : "real-secret-1" <> "pending_registration") by discriminate.
  split.
  - exact (stored_secret_reuse "u1" false
             (world_u1 (real_row (registered_ago ms_per_day)))
             (real_row (registered_ago ms_per_day)) "real-secret-1"
             eq_refl eq_refl eq_refl eq_refl Hne Hnp).
  - exact (stored_secret_reuse "u1" false
             (world_u1 (real_row {[ "registered_at" := Js.JStr "2020-01-01" ]}))
             (real_row {[ "registered_at" := Js.JStr "2020-01-01" ]}) "real-secret-1"
             eq_refl eq_refl eq_refl eq_refl Hne Hnp).
Defined.

(** A [registered_at] that some other writer left as a plain date is
    read as that date: "2020-01-01" is older than 8 days and the secret
    is refreshed; a text that is no date never is. *)
Example registered_at_as_text :
  (let w := world_u1 (real_row {[ "registered_at" := Js.JStr "2020-01-01" ]}) in
   Js.date_getTime (Js.JStr "2020-01-01") = Some 1577836800000 /\
   count is_call_register (trace (getUserSecret "u1" false w).2) = 1%nat) /\
  (let w := world_u1 (real_row {[ "registered_at" := Js.JStr "last week" ]}) in
   Js.date_getTime (Js.JStr "last week") = None /\
   (getUserSecret "u1" false w).1 = Ok (Some "real-secret-1") /\
   trace (getUserSecret "u1" false w).2 = []).
Proof. vm_compute. repeat split. Qed.

(** ** The conflict branch of the registration *)

Section Conflict.

Context {R : Type} `{SnapTradeApi R} {dates : Js.Dates}.

Implicit Types w : World R.

Lemma bind_ok {A B : Type} (c : M (World R) A) (k : A -> M (World R) B)
    w (a : A) (w1 : World R) :
  c w = (Ok a, w1) -> bind c k w = k a w1.
Proof. unfold bind. intros ->. reflexivity. Qed.

Lemma try_catch_throw {A : Type} (c : M (World R) A)
    (h : Js.error -> M (World R) A) w (e : Js.error) (w1 : World R) :
  c w = (Throw e, w1) -> try_catch c h w = h e w1.
Proof. unfold try_catch. intros ->. reflexivity. Qed.

Lemma after_store_id w : faults w = [] -> after_store (rows w) w = w.
Proof. destruct w as [s m r c fs tr]. simpl. intros ->. reflexivity. Qed.

Lemma selection_reliable (uid : string) w :
  faults w = [] -> data (selection uid false w) = rows w !! uid.
Proof.
  intros Hf. rewrite (selection_ok _ _ (reliable_not_failing _ Hf)). reflexivity.
Qed.

Lemma altered_row (f : Row -> Row) (uid : string) (m : gmap string Row) (r : Row) :
  m !! uid = Some r -> alter f uid m !! uid = Some (f r).
Proof. intros Hr. rewrite lookup_alter_eq, Hr. reflexivity. Qed.



Lemma fallbackFakeSecret_eq (uid : string) w :
  fallbackFakeSecret uid w
  = (Ok {| userId := Some uid; userSecret := Some (fake_secret (clock w)) |},
     after_store
       (if failing w then rows w
        else alter (set_secret_and_data (Some (fake_secret (clock w)))
                      (<[ "registered_at" := Js.JTime (clock w) ]>
                       (<[ "snap_trade_user_id" := Js.JStr uid ]>
                       (<[ "registration_method" := Js.JStr "fallback" ]>
                       {[ "is_fake_secret" := Js.JBool true ]}))))
               uid (rows w))
       w).
Proof.
  unfold fallbackFakeSecret, bind, now. rewrite update_connection_eq. reflexivity.
Qed.

Lemma registerModifiedId_eq (uid : string) w :
  let m := modified_id uid (clock w) in
  let answer := api_registerSnapTradeUser m (remote w) in
  let w1 := after_call (ApiRegister m) answer.2 w in
  registerModifiedId uid w
  = match has_userSecret (ok_data answer.1) with
    | Some d =>
        (Ok (Some {| userId := Some uid; userSecret := userSecret d |}),
         after_store
           (if failing w1 then rows w1
            else alter (set_secret_and_data (userSecret d)
                          (<[ "registered_at" := Js.JTime (clock w) ]>
                           (<[ "snap_trade_user_id" := Js.JStr m ]>
                           (<[ "original_user_id" := Js.JStr uid ]>
                           {[ "registration_method" := Js.JStr "modified_id" ]}))))
                   uid (rows w1))
           w1)
    | None => (Ok None, w1)
    end.
Proof.
  cbv zeta. unfold registerModifiedId.
  unfold bind at 1. unfold now at 1. unfold try_catch, bind at 1, call, after_call.
  destruct (api_registerSnapTradeUser (modified_id uid (clock w)) (remote w))
    as [[data|e] r2]; cbn [fst snd ok_data has_userSecret]; [|reflexivity].
  destruct (has_userSecret data) as [d|]; [|reflexivity].
  unfold bind, now. rewrite update_connection_eq. reflexivity.
Qed.


End Conflict.



(** Level (c): the remote refuses the modified id too. *)
Example conflict_ends_in_fake_secret :
  let '(o, w') := registerSnapTradeUser "u1" (start all_taken t0) in
  o = Ok {| userId := Some "u1"; userSecret := Some "fake_secret_1700000000000" |} /\
  trace w' = [CallRegisterSnapTradeUser "u1"; ApiRegister "u1";
              ApiRegister "u1_1700000000000"] /\
  (rows w' !! "u1" ≫= fun r => broker_data r !! "is_fake_secret")
    = Some (Js.JBool true).
Proof. vm_compute. repeat split. Qed.

(** Level (a) is reached only when the placeholder write was lost: a
    successful write has replaced the secret of the row before the remote
    is asked. Here the row is inactive and the write fails. *)
Example conflict_reuses_stored_secret :
  let w := with_faults [false; true]
             (with_rows {[ "u1" := {| api_key := Some "snaptrade_user";
                                      api_secret_encrypted := Some "real-secret-1";
                                      is_active := false;
                                      broker_data := ∅ |} ]}
                (start all_taken t0)) in
  let '(o, w') := registerSnapTradeUser "u1" w in
  o = Ok {| userId := Some "u1"; userSecret := Some "real-secret-1" |} /\
  trace w' = [CallRegisterSnapTradeUser "u1"; ApiRegister "u1"].
Proof. vm_compute. repeat split. Qed.

(** ** Going through registration with an active row *)

Section ActiveRow.

Context {R : Type} `{SnapTradeApi R} {dates : Js.Dates}.

Implicit Types w : World R.

Lemma try_catch_ok {A : Type} (c : M (World R) A)
    (h : Js.error -> M (World R) A) w (a : A) (w1 : World R) :
  c w = (Ok a, w1) -> try_catch c h w = (Ok a, w1).
Proof. unfold try_catch. intros ->. reflexivity. Qed.

Lemma usable_Some (r : Row) :
  usable (Some r) = true ->
  is_active r = true /\ Js.truthy (api_secret_encrypted r) = true.
Proof.
  simpl. intros Hu. apply andb_true_iff in Hu as [Ha Hs].
  split; [exact Ha | apply real_secret_truthy, Hs].
Qed.

(** [registerSnapTradeUser] started on an active row with a truthy secret
    returns that secret and does not reach the remote. *)
Lemma registerSnapTradeUser_short_circuit (uid : string) w (r : Row) :
  sdk w = true ->
  faults w = [] ->
  rows w !! uid = Some r ->
  is_active r = true ->
  Js.truthy (api_secret_encrypted r) = true ->
  registerSnapTradeUser uid w
  = (Ok {| userId := Some uid; userSecret := api_secret_encrypted r |},
     log (CallRegisterSnapTradeUser uid) w).
Proof.
  intros Hsdk Hf Hr Ha Hs. unfold registerSnapTradeUser.
  erewrite bind_ok by reflexivity.
  erewrite bind_ok by reflexivity.
  change (sdk (log (CallRegisterSnapTradeUser uid) w)) with (sdk w).
  rewrite Hsdk. cbn [negb].
  unfold lookupExisting.
  erewrite bind_ok; [|erewrite bind_ok by apply select_connection_eq; reflexivity].
  unfold selection, failing. simpl. rewrite Hf, Hr, Ha. simpl. rewrite Hs.
  unfold ret, after_store, log. simpl. rewrite Hf. reflexivity.
Qed.

(** So, with a store that answers, an active row with a non-placeholder
    secret makes [getUserSecret] return that secret whatever the flag and
    the age: the registration it may go through neither reaches the remote
    nor writes a row. *)
Lemma getUserSecret_active_row (uid : string) (force : bool) w (r : Row) :
  faults w = [] ->
  rows w !! uid = Some r ->
  usable (Some r) = true ->
  exists w',
    getUserSecret uid force w = (Ok (api_secret_encrypted r), w') /\
    rows w' = rows w /\
    count is_api_register (trace w') = count is_api_register (trace w).
Proof.
  intros Hf Hr Hu.
  pose proof (reliable_not_failing _ Hf) as Hnf.
  destruct (cachedSecret (rows w !! uid) force (clock w)) as [s|] eqn:Hc.
  - rewrite (getUserSecret_cached _ _ _ _ Hnf Hc).
    apply cachedSecret_Some in Hc as [_ ->]. rewrite Hr. simpl.
    eexists. split; [reflexivity|]. split; reflexivity.
  - unfold getUserSecret.
    erewrite bind_ok by apply select_connection_eq.
    rewrite (selection_ok _ _ Hnf). cbn [error data].
    erewrite bind_ok by reflexivity.
    change (clock (after_store (rows w) w)) with (clock w). rewrite Hc, Hr.
    rewrite (after_store_id _ Hf).
    destruct (usable_Some r Hu) as [Ha Hs].
    destruct (sdk w) eqn:Hsdk.
    + erewrite try_catch_ok
        by (erewrite bind_ok
              by (apply (registerSnapTradeUser_short_circuit uid w r Hsdk Hf Hr Ha Hs));
            reflexivity).
      eexists. split; [reflexivity|]. split; [reflexivity|].
      simpl. rewrite count_app.
      change (count is_api_register [CallRegisterSnapTradeUser uid]) with 0%nat.
      lia.
    + assert (Hreg : registerSnapTradeUser uid w
                     = (Throw (Js.Error "SnapTrade SDK not initialized"),
                        log (CallRegisterSnapTradeUser uid) w)).
      { unfold registerSnapTradeUser.
        erewrite bind_ok by reflexivity. erewrite bind_ok by reflexivity.
        change (sdk (log (CallRegisterSnapTradeUser uid) w)) with (sdk w).
        rewrite Hsdk. reflexivity. }
      erewrite try_catch_throw by (unfold bind; rewrite Hreg; reflexivity).
      rewrite Hu. eexists. split; [reflexivity|]. split; [reflexivity|].
      simpl. rewrite count_app.
      change (count is_api_register [CallRegisterSnapTradeUser uid]) with 0%nat.
      lia.
Qed.

End ActiveRow.

(** ** The row after a link was generated *)

Section Link.

Context {R : Type} `{SnapTradeApi R} {dates : Js.Dates}.

Implicit Types w : World R.

Lemma not_elem_of_2 (k a b : string) : k ∉ [a; b] -> k <> a /\ k <> b.
Proof.
  intros Hk. split; intros ->; apply Hk.
  - apply list_elem_of_here.
  - apply list_elem_of_further, list_elem_of_here.
Qed.

Lemma recordConnectionStarted_eq (uid : string) (id : option string) w :
  recordConnectionStarted uid id w =
  (Ok (write_error w),
   after_store
     (if failing w then rows w
      else alter (set_broker_data
                    (<[ "connection_started" := Js.JTime (clock w) ]>
                     {[ "broker_id" := Js.JStr (Js.or_else id "any") ]}))
             uid (rows w)) w).
Proof.
  unfold recordConnectionStarted, bind, now. apply update_connection_eq.
Qed.

(** A link is returned only after the update of lines 750-761 has run. *)
Lemma linkBody_Ok (uid redirectUri : string) (brokerId : option string) w
    (uri : string) (w' : World R) :
  linkBody uid redirectUri brokerId w = (Ok uri, w') ->
  exists w1,
    (exists evs, frame w w1 evs) /\
    recordConnectionStarted uid (snapTradeBrokerId brokerId) w1
      = (Ok (write_error w1), w').
Proof.
  unfold linkBody, bind at 1.
  destruct (getUserSecret uid false w) as [[secret|e] wa] eqn:Hs; [|discriminate].
  destruct (getUserSecret_spec uid false w _ _ Hs) as [(evs & Fa) _].
  unfold bind at 1.
  destruct (call _ _ wa) as [[[d|]|e] wb] eqn:Hc; try discriminate.
  assert (Fb : frame wa wb [ApiLogin (loginRequest uid secret redirectUri brokerId)]).
  { revert Hc. unfold call.
    destruct (api_loginSnapTradeUser _ (remote wa)) as [o r']. intros [= _ <-].
    apply frame_call. }
  destruct (redirectURI d) as [u|]; [|discriminate].
  destruct (String.eqb u ""); [discriminate|].
  unfold bind. rewrite recordConnectionStarted_eq. intros [= <- <-].
  exists wb. split; [|apply recordConnectionStarted_eq].
  eexists. eapply frame_trans; [apply Fa | exact Fb].
Qed.

(** The three updates that spread the existing [broker_data]. *)
Lemma spread_update_row (uid : string) (a : bool)
    (extend : Z -> gmap string Js.json -> gmap string Js.json) w (r : Row) :
  faults w = [] ->
  rows w !! uid = Some r ->
  rows ((existingData <- select_connection uid false ;;
         let existing := existingBrokerData existingData in
         t <- now ;;
         update_connection uid (set_active_and_data a (extend t existing))) w).2
    !! uid
  = Some {| api_key := api_key r; api_secret_encrypted := api_secret_encrypted r;
            is_active := a; broker_data := extend (clock w) (broker_data r) |}.
Proof.
  intros Hf Hr. unfold bind at 1. rewrite select_connection_eq.
  unfold bind, now. rewrite update_connection_eq.
  unfold existingBrokerData. rewrite (selection_reliable _ _ Hf), Hr.
  unfold failing, after_store. simpl. rewrite Hf. simpl.
  rewrite (altered_row _ uid _ r Hr); reflexivity.
Qed.

(** C10, amended: when [createSnapTradeUserLink] has the secret and the
    remote answers the login with a link, the body returns the link
    after one update of the row of the user, which replaces
    [broker_data] by an object with the keys [connection_started] and
    [broker_id] only, so every field stored before is gone, and leaves
    the key, the secret and the active flag as they were (nothing
    changes when the store refuses the update). The updates of the
    disconnect, delete and callback paths keep every stored key that
    they do not set themselves; the four updates of
    [registerSnapTradeUser] (registration failed, fake secret, direct
    and modified-id registration) replace [broker_data] as the link
    update does. *)
Theorem link_replaces_broker_data (uid redirectUri : string)
    (brokerId : option string) w (secret : option string) (wa : World R)
    (d : LoginData) (r2 : R) (uri : string) :
  getUserSecret uid false w = (Ok secret, wa) ->
  api_loginSnapTradeUser (loginRequest uid secret redirectUri brokerId) (remote wa)
    = (Ok (Some d), r2) ->
  redirectURI d = Some uri ->
  uri <> "" ->
  let replaced (r : Row) :=
    {| api_key := api_key r;
       api_secret_encrypted := api_secret_encrypted r;
       is_active := is_active r;
       broker_data :=
         <[ "connection_started" := Js.JTime (clock wa) ]>
         {[ "broker_id" := Js.JStr (Js.or_else (snapTradeBrokerId brokerId) "any") ]} |} in
  let linked :=
    {| sdk := sdk wa;
       rows := if fault 0 wa then rows wa else alter replaced uid (rows wa);
       remote := r2; clock := clock wa; faults := tl (faults wa);
       trace := trace wa ++ [ApiLogin (loginRequest uid secret redirectUri brokerId)] |} in
  linkBody uid redirectUri brokerId w = (Ok uri, linked) /\
  (forall (w0 : World R) (fuel : nat),
     w = log (CallCreateSnapTradeUserLink uid) w0 -> sdk w0 = true ->
     createSnapTradeUserLink (S fuel) uid redirectUri brokerId w0
     = (Some (Ok uri), linked)) /\
  (forall (wx : World R) (r : Row) (authorizationId : string)
          (authorization brokerage : option string),
     faults wx = [] -> rows wx !! uid = Some r ->
     rows (markDisconnected uid authorizationId wx).2 !! uid
     = Some {| api_key := api_key r; api_secret_encrypted := api_secret_encrypted r;
               is_active := false;
               broker_data :=
                 <[ "disconnected_at" := Js.JTime (clock wx) ]>
                 (<[ "authorization_id" := Js.JStr authorizationId ]> (broker_data r)) |} /\
     rows (markUserDeleted uid wx).2 !! uid
     = Some {| api_key := api_key r; api_secret_encrypted := api_secret_encrypted r;
               is_active := false;
               broker_data :=
                 <[ "deleted_at" := Js.JTime (clock wx) ]>
                 (<[ "user_deleted" := Js.JBool true ]> (broker_data r)) |} /\
     rows (markConnected uid authorization brokerage wx).2 !! uid
     = Some {| api_key := api_key r; api_secret_encrypted := api_secret_encrypted r;
               is_active := true;
               broker_data :=
                 <[ "connected_at" := Js.JTime (clock wx) ]>
                 (<[ "brokerage" := or_existing brokerage (broker_data r) "brokerage" ]>
                 (<[ "authorization_id" :=
                       or_existing authorization (broker_data r) "authorization_id" ]>
                  (broker_data r))) |}) /\
  (forall (wx : World R) (r : Row) (e : Js.error),
     faults wx = [] -> rows wx !! uid = Some r ->
     rows (markRegistrationFailed uid e wx).2 !! uid
     = Some {| api_key := api_key r; api_secret_encrypted := api_secret_encrypted r;
               is_active := false;
               broker_data :=
                 <[ "registration_failed_at" := Js.JTime (clock wx) ]>
                 {[ "error_message" :=
                      Js.JStr (Js.or_else (Js.message e) "Unknown error") ]} |} /\
     rows (fallbackFakeSecret uid wx).2 !! uid
     = Some {| api_key := api_key r;
               api_secret_encrypted := Some ("fake_secret_" +:+ pretty (clock wx));
               is_active := is_active r;
               broker_data :=
                 <[ "registered_at" := Js.JTime (clock wx) ]>
                 (<[ "snap_trade_user_id" := Js.JStr uid ]>
                 (<[ "registration_method" := Js.JStr "fallback" ]>
                 {[ "is_fake_secret" := Js.JBool true ]})) |} /\
     (forall (u : UserIDandSecret) (r' : R),
        api_registerSnapTradeUser uid (remote wx) = (Ok (Some u), r') ->
        Js.truthy (userSecret u) = true ->
        rows (directRegistration uid wx).2 !! uid
        = Some {| api_key := api_key r; api_secret_encrypted := userSecret u;
                  is_active := is_active r;
                  broker_data :=
                    <[ "registered_at" := Js.JTime (clock wx) ]>
                    (<[ "snap_trade_user_id" :=
                          match userId u with
                          | Some i => Js.JStr i
                          | None => Js.JNull
                          end ]>
                    {[ "registration_method" := Js.JStr "direct" ]}) |}) /\
     (forall (u : UserIDandSecret) (r' : R),
        api_registerSnapTradeUser (uid +:+ "_" +:+ pretty (clock wx)) (remote wx)
          = (Ok (Some u), r') ->
        Js.truthy (userSecret u) = true ->
        rows (registerModifiedId uid wx).2 !! uid
        = Some {| api_key := api_key r; api_secret_encrypted := userSecret u;
                  is_active := is_active r;
                  broker_data :=
                    <[ "registered_at" := Js.JTime (clock wx) ]>
                    (<[ "snap_trade_user_id" :=
                          Js.JStr (uid +:+ "_" +:+ pretty (clock wx)) ]>
                    (<[ "original_user_id" := Js.JStr uid ]>
                    {[ "registration_method" := Js.JStr "modified_id" ]})) |})).
Proof.
  intros Hsecret Hlogin Huri Hne. cbv zeta.
  assert (Hbody : linkBody uid redirectUri brokerId w
    = (Ok uri,
       {| sdk := sdk wa;
          rows :=
            if fault 0 wa then rows wa
            else alter
                   (fun r =>
                      {| api_key := api_key r;
                         api_secret_encrypted := api_secret_encrypted r;
                         is_active := is_active r;
                         broker_data :=
                           <[ "connection_started" := Js.JTime (clock wa) ]>
                           {[ "broker_id" :=
                                Js.JStr (Js.or_else (snapTradeBrokerId brokerId) "any") ]} |})
                   uid (rows wa);
          remote := r2; clock := clock wa; faults := tl (faults wa);
          trace := trace wa ++ [ApiLogin (loginRequest uid secret redirectUri brokerId)] |})).
  { unfold linkBody. unfold bind at 1. rewrite Hsecret.
    unfold bind at 1. unfold call at 1. rewrite Hlogin.
    rewrite Huri, (eqb_empty_false _ Hne).
    unfold bind. rewrite recordConnectionStarted_eq.
    unfold ret, after_store, failing, fault. reflexivity. }
  split; [exact Hbody|]. split; [|split].
  - intros w0 fuel Hw Hsdk. cbn [createSnapTradeUserLink].
    unfold linkAttempt. unfold bind at 1. unfold emit. unfold bind at 1.
    unfold get_world. cbn [sdk log]. rewrite Hsdk. cbn [negb].
    unfold try_catch. unfold bind at 1.
    change (mkWorld (sdk w0) (rows w0) (remote w0) (clock w0) (faults w0)
              (trace w0 ++ [CallCreateSnapTradeUserLink uid]))
      with (log (CallCreateSnapTradeUserLink uid) w0).
    rewrite <- Hw, Hbody. reflexivity.
  - intros wx r authorizationId authorization brokerage Hf Hr.
    split; [|split].
    + exact (spread_update_row uid false
               (fun t existing => <[ "disconnected_at" := Js.JTime t ]>
                                  (<[ "authorization_id" := Js.JStr authorizationId ]> existing))
               wx r Hf Hr).
    + exact (spread_update_row uid false
               (fun t existing => <[ "deleted_at" := Js.JTime t ]>
                                  (<[ "user_deleted" := Js.JBool true ]> existing))
               wx r Hf Hr).
    + exact (spread_update_row uid true
               (fun t existing =>
                  <[ "connected_at" := Js.JTime t ]>
                  (<[ "brokerage" := or_existing brokerage existing "brokerage" ]>
                  (<[ "authorization_id" :=
                        or_existing authorization existing "authorization_id" ]>
                   existing)))
               wx r Hf Hr).
  - intros wx r e Hf Hr.
    pose proof (reliable_not_failing _ Hf) as Hnf.
    split; [|split; [|split]].
    + unfold markRegistrationFailed, bind, now. rewrite update_connection_eq, Hnf.
      unfold throw. cbn [snd rows after_store]. rewrite (altered_row _ uid _ r Hr); reflexivity.
    + rewrite fallbackFakeSecret_eq, Hnf.
      cbn [snd rows after_store]. rewrite (altered_row _ uid _ r Hr); reflexivity.
    + intros u r' Hreg Hu. unfold directRegistration.
      unfold bind at 1. unfold call at 1. rewrite Hreg.
      unfold has_userSecret. rewrite Hu.
      unfold bind, now, ret. rewrite update_connection_eq.
      unfold failing. cbn [faults rows snd after_store]. rewrite Hf.
      cbn [hd]. rewrite (altered_row _ uid _ r Hr); reflexivity.
    + intros u r' Hreg Hu.
      pose proof (registerModifiedId_eq uid wx) as Heq. cbv zeta in Heq.
      unfold modified_id in Heq. rewrite Hreg in Heq.
      cbn [fst snd ok_data has_userSecret] in Heq. rewrite Hu in Heq. rewrite Heq.
      unfold failing, after_call. cbn [faults rows snd after_store]. rewrite Hf.
      cbn [hd]. rewrite (altered_row _ uid _ r Hr); reflexivity.
Qed.

End Link.

(** A row registered a day ago loses [registered_at],
    [snap_trade_user_id] and [registration_method] when a link is
    generated; its secret stays. *)
Lemma link_replaces_broker_data_witness :
  rows world_linking !! "u1"
  = Some {| api_key := Some "snaptrade_user";
            api_secret_encrypted := Some "real-secret-1";
            is_active := true;
            broker_data :=
              <[ "registered_at" := Js.JTime 1699913600000 ]>
              (<[ "snap_trade_user_id" := Js.JStr "u1" ]>
              {[ "registration_method" := Js.JStr "direct" ]}) |} /\
  (linkBody "u1" "https://app.example/callback" None world_linking).1
  = Ok "https://portal.example/connect/abc" /\
  rows (linkBody "u1" "https://app.example/callback" None world_linking).2 !! "u1"
  = Some {| api_key := Some "snaptrade_user";
            api_secret_encrypted := Some "real-secret-1";
            is_active := true;
            broker_data :=
              <[ "connection_started" := Js.JTime 1700000000000 ]>
              {[ "broker_id" := Js.JStr "any" ]} |}.
Proof.
  assert (Hsecret : getUserSecret "u1" false world_linking
                    = (Ok (Some "real-secret-1"), world_linking))
    by (vm_compute; reflexivity).
  assert (Hlogin : api_loginSnapTradeUser
                     (loginRequest "u1" (Some "real-secret-1")
                        "https://app.example/callback" None)
                     (remote world_linking)
                   = (Ok (Some {| redirectURI := Some "https://portal.example/connect/abc" |}),
                      linking))
    by (vm_compute; reflexivity).
  assert (Hne : "https://portal.example/connect/abc" <> "") by discriminate.
  destruct (link_replaces_broker_data "u1" "https://app.example/callback" None
              world_linking _ _ _ _ _ Hsecret Hlogin eq_refl Hne)
    as [Hlink _].
  cbv zeta in Hlink. rewrite Hlink. vm_compute. repeat split.
Defined.

(** C10, as stated, fails in its last clause: the link update is not
    the only one that replaces [broker_data]. A registration that the
    remote refuses writes the placeholder over the row and then marks
    the failure; of what was stored, and of what the placeholder wrote,
    nothing is left in [broker_data]. *)
Lemma registration_replaces_broker_data_counterexample :
  let w := with_rows {[ "u1" := disconnected_row ]} (start broken_register t0) in
  (rows w !! "u1" ≫= fun r => broker_data r !! "disconnected_at")
  = Some (Js.JTime 1699999940000) /\
  (registerSnapTradeUser "u1" w).1 = Throw server_error /\
  rows (registerSnapTradeUser "u1" w).2 !! "u1"
  = Some {| api_key := Some "snaptrade_user";
            api_secret_encrypted := Some "pending_registration";
            is_active := false;
            broker_data :=
              <[ "registration_failed_at" := Js.JTime 1700000000000 ]>
              {[ "error_message" := Js.JStr "Request failed with status code 500" ]} |}.
Proof. vm_compute. repeat split. Qed.

(** The secret and the active flag of that row are the ones stored before. *)
Example link_keeps_secret :
  let w' := (linkBody "u1" "https://app.example/callback" None world_linking).2 in
  (rows w' !! "u1" ≫= api_secret_encrypted) = Some "real-secret-1" /\
  (is_active <$> rows w' !! "u1") = Some true.
Proof. vm_compute. split; reflexivity. Qed.

(** ** Holdings *)

Section Holdings.

Context {R : Type} `{SnapTradeApi R} {dates : Js.Dates}.

Implicit Types w : World R.

Lemma toHolding_of_account (account : Account) (p : Position) (h : Holding) :
  toHolding account p = Ok h -> of_account account h /\ isPending h = false.
Proof.
  unfold toHolding. destruct (position_symbol p); intros [= <-]; repeat split.
Qed.

Lemma map_toHolding_of_account (account : Account) (ps : list Position)
    (hs : list Holding) :
  map_outcome (toHolding account) ps = Ok hs ->
  Forall (fun h => of_account account h /\ isPending h = false) hs.
Proof.
  revert hs. induction ps as [|p ps IH]; simpl; intros hs.
  - intros [= <-]. constructor.
  - destruct (toHolding account p) as [h|e] eqn:Hp; [|discriminate].
    destruct (map_outcome (toHolding account) ps) as [hs'|e]; [|discriminate].
    intros [= <-]. constructor; [apply (toHolding_of_account _ _ _ Hp) | apply IH; reflexivity].
Qed.

Lemma cashHoldings_of_account (account : Account) (bs : list Balance) :
  Forall (fun h => of_account account h /\ isPending h = false)
    (cashHoldings account bs).
Proof.
  unfold cashHoldings. induction bs as [|b bs IH]; simpl; [constructor|].
  destruct (balance_cash b && _)%bool; simpl; [|exact IH].
  constructor; [repeat split | exact IH].
Qed.

Lemma status_425_too_early (e : Js.error) :
  Js.status e = Some 425 -> is_too_early e = true.
Proof. unfold is_too_early. intros ->. reflexivity. Qed.

(** Lines 907-1012 never throw, and what they append does not depend on
    the holdings gathered so far. *)
Lemma processAccount_acc (uid : string) (secret : option string)
    (account : Account) w :
  exists ha w',
    Forall (of_account account) ha /\
    (forall e r',
       api_getUserAccountPositions uid secret (account_id account) (remote w)
         = (Throw e, r') ->
       Js.status e = Some 425 -> ha = [pendingHolding account]) /\
    forall hs, processAccount uid secret hs account w = (Ok (hs ++ ha), w').
Proof.
  unfold processAccount, accountPositions, accountBalances, try_catch, bind, call,
    ret, throw.
  destruct (api_getUserAccountPositions uid secret (account_id account) (remote w))
    as [[[ps|]|e] r1].
  - destruct (map_outcome (toHolding account) ps) as [hp|e] eqn:Hmap.
    + pose proof (map_toHolding_of_account _ _ _ Hmap) as Hhp.
      assert (Hhp' : Forall (of_account account) hp)
        by (eapply Forall_impl; [exact Hhp | intros h Hh; apply Hh]).
      simpl.
      destruct (api_getUserAccountBalance uid secret (account_id account) r1)
        as [[[bs|]|e] r2].
      * exists (hp ++ cashHoldings account bs). eexists.
        split; [|split; [discriminate|]].
        { apply Forall_app. split; [exact Hhp'|].
          eapply Forall_impl; [apply cashHoldings_of_account | intros h Hh; apply Hh]. }
        intros hs. rewrite app_assoc. reflexivity.
      * exists hp. eexists. split; [exact Hhp'|]. split; [discriminate|].
        intros hs. reflexivity.
      * exists hp. eexists. split; [exact Hhp'|]. split; [discriminate|].
        intros hs. reflexivity.
    + destruct (is_too_early e).
      * exists [pendingHolding account]. eexists.
        split; [repeat constructor|]. split; [discriminate|]. intros hs. reflexivity.
      * exists []. eexists. split; [constructor|]. split; [discriminate|].
        intros hs. rewrite app_nil_r. reflexivity.
  - simpl.
    destruct (api_getUserAccountBalance uid secret (account_id account) r1)
      as [[[bs|]|e] r2].
    + exists (cashHoldings account bs). eexists.
      split; [|split; [discriminate|intros hs; reflexivity]].
      eapply Forall_impl; [apply cashHoldings_of_account | intros h Hh; apply Hh].
    + exists []. eexists. split; [constructor|]. split; [discriminate|].
      intros hs. rewrite app_nil_r. reflexivity.
    + exists []. eexists. split; [constructor|]. split; [discriminate|].
      intros hs. rewrite app_nil_r. reflexivity.
  - destruct (is_too_early e) eqn:He.
    + exists [pendingHolding account]. eexists.
      split; [repeat constructor|]. split; [reflexivity|]. intros hs. reflexivity.
    + exists []. eexists. split; [constructor|]. split.
      * intros e' r' [= <- _] H425. rewrite (status_425_too_early _ H425) in He.
        discriminate.
      * intros hs. rewrite app_nil_r. reflexivity.
Qed.

(** The loop never throws either, and only appends. *)
Lemma processAccounts_acc (uid : string) (secret : option string)
    (accounts : list Account) w :
  exists hl w',
    Forall (fun h => isError h = false) hl /\
    forall hs, processAccounts uid secret accounts hs w = (Ok (hs ++ hl), w').
Proof.
  revert w. induction accounts as [|a rest IH]; intros w.
  - exists [], w. split; [constructor|]. intros hs. rewrite app_nil_r. reflexivity.
  - destruct (processAccount_acc uid secret a w) as (ha & w1 & Hha & _ & Ha).
    destruct (IH w1) as (hr & w2 & Hhr & Hr).
    exists (ha ++ hr), w2. split.
    + apply Forall_app. split; [|exact Hhr].
      eapply Forall_impl; [exact Hha | intros h Hh; apply Hh].
    + intros hs. simpl. unfold bind. rewrite Ha, Hr, app_assoc. reflexivity.
Qed.




Lemma errorHolding_sentinel (e : Js.error) :
  symbol (errorHolding e) = SymbolStr "ERROR" /\
  isError (errorHolding e) = true /\
  (Js.instanceof_Error e = true -> errorMessage (errorHolding e) = Js.message e).
Proof. repeat split. simpl. intros ->. reflexivity. Qed.

(** C6, amended: with an initialised SDK, [fetchSnapTradeHoldings] returns
    a list for every user id and every optional account id and never
    throws: when the secret cannot be read or the accounts cannot be listed
    the list is the single sentinel holding, with symbol "ERROR", [isError]
    and the message of the error; otherwise no holding of the list is an
    error sentinel. Without an initialised SDK it throws (see the
    counterexample). *)
Theorem fetchSnapTradeHoldings_returns_list (uid : string)
    (accountId : option string) w :
  sdk w = true ->
  exists hs w',
    fetchSnapTradeHoldings uid accountId w = (Ok hs, w') /\
    match getUserSecret uid false w with
    | (Throw e, _) => hs = [errorHolding e]
    | (Ok secret, w1) =>
        match api_listUserAccounts uid secret (remote w1) with
        | (Throw e, _) => hs = [errorHolding e]
        | (Ok None, _) => hs = [errorHolding (Js.Error "Failed to fetch accounts")]
        | (Ok (Some accounts), _) => Forall (fun h => isError h = false) hs
        end
    end /\
    forall e,
      symbol (errorHolding e) = SymbolStr "ERROR" /\
      isError (errorHolding e) = true /\
      (Js.instanceof_Error e = true -> errorMessage (errorHolding e) = Js.message e).
Proof.
  intros Hsdk. unfold fetchSnapTradeHoldings, bind at 1, get_world.
  rewrite Hsdk. cbn [negb]. unfold try_catch, bind at 1.
  destruct (getUserSecret uid false w) as [[secret|e] w1].
  2:{ eexists _, _. split; [reflexivity|]. split; [reflexivity|].
      apply errorHolding_sentinel. }
  unfold bind at 1, call.
  destruct (api_listUserAccounts uid secret (remote w1)) as [[[accounts|]|e] r1].
  - destruct (processAccounts_acc uid secret (accountsToProcess accountId accounts)
                (mkWorld (sdk w1) (rows w1) r1 (clock w1) (faults w1)
                         (trace w1 ++ [ApiListAccounts uid])))
      as (hl & w2 & Hhl & Hl).
    rewrite (Hl []). exists hl, w2. split; [reflexivity|]. split; [exact Hhl|].
    apply errorHolding_sentinel.
  - eexists _, _. split; [reflexivity|]. split; [reflexivity|].
    apply errorHolding_sentinel.
  - eexists _, _. split; [reflexivity|]. split; [reflexivity|].
    apply errorHolding_sentinel.
Qed.

End Holdings.

(** C6, as stated, fails: without an initialised SDK the function throws
    before its [try] block is entered. *)
Lemma fetchSnapTradeHoldings_without_sdk_counterexample :
  (fetchSnapTradeHoldings "u1" None (without_sdk (start offline t0))).1
  = Throw (Js.Error "SnapTrade SDK not initialized").
Proof. reflexivity. Qed.

(** The remote is down: the list is the sentinel with the network error. *)
Lemma fetchSnapTradeHoldings_returns_list_witness :
  exists hs w',
    fetchSnapTradeHoldings "u1" None (start offline t0) = (Ok hs, w') /\
    hs = [errorHolding (Js.Error "Network Error")].
Proof.
  destruct (fetchSnapTradeHoldings_returns_list "u1" None (start offline t0) eq_refl)
    as (hs & w' & Hf & Hhs & _).
  exists hs, w'. split; [exact Hf|].
  vm_compute in Hhs. exact Hhs.
Defined.


(** A positions call that fails otherwise, here without any status,
    leaves no holding for its account; the holdings of the other account
    are there. *)
Example positions_failure_without_placeholder :
  (processAccounts "u2" (Some "real-secret-1") [acct1; acct2] []
     (with_rows {[ "u2" := real_row (registered_ago ms_per_day) ]}
        (start second_account_fails t0))).1
  = match toHolding acct1 position_ten_shares with
    | Ok h => Ok [h; cashHolding acct1 cash_500]
    | Throw e => Throw e
    end.
Proof. vm_compute. reflexivity. Qed.

Example fetchSnapTradeHoldings_syncing :
  (fetchSnapTradeHoldings "u2" None world_syncing).1
  = match toHolding acct2 position_ten_shares with
    | Ok h => Ok [pendingHolding acct1; h; cashHolding acct2 cash_500]
    | Throw e => Throw e
    end.
Proof. vm_compute. reflexivity. Qed.

(** ** Link generation: one body, and the bodies in a row *)

Section LinkAttempts.

Context {R : Type} `{SnapTradeApi R} {dates : Js.Dates}.

Implicit Types w : World R.

Lemma count_zero (p : Event -> bool) (l : list Event) :
  Forall (fun e => p e = false) l -> count p l = 0%nat.
Proof.
  intros Hl. unfold count. induction Hl as [|e l He _ IH]; simpl; [reflexivity|].
  rewrite He. exact IH.
Qed.

Lemma count_cons (p : Event -> bool) (e : Event) (l : list Event) :
  count p (e :: l) = ((if p e then 1 else 0) + count p l)%nat.
Proof. unfold count. simpl. destruct (p e); reflexivity. Qed.

Lemma registration_no_link (evs : list Event) :
  Forall (fun e => registration_event e = true) evs ->
  Forall (fun e => is_call_link e = false) evs.
Proof.
  intros Hevs. eapply Forall_impl; [exact Hevs|].
  intros [] He; try discriminate; reflexivity.
Qed.

Lemma api_register_no_link (evs : list Event) :
  Forall (fun e => is_api_register e = true) evs ->
  Forall (fun e => is_call_link e = false) evs.
Proof.
  intros Hevs. eapply Forall_impl; [exact Hevs|].
  intros [] He; try discriminate; reflexivity.
Qed.

Lemma quiet_refl w : quiet w w.
Proof. exists []. split; [apply frame_refl | constructor]. Qed.

Lemma quiet_trans w w1 w2 : quiet w w1 -> quiet w1 w2 -> quiet w w2.
Proof.
  intros (e1 & F1 & H1) (e2 & F2 & H2). exists (e1 ++ e2).
  split; [eapply frame_trans; eassumption | apply Forall_app; auto].
Qed.

Lemma quiet_store (m : gmap string Row) w : quiet w (after_store m w).
Proof. exists []. split; [apply frame_store | constructor]. Qed.

Lemma quiet_call (e : Event) (r' : R) w :
  is_call_link e = false -> quiet w (after_call e r' w).
Proof. intros He. exists [e]. split; [apply frame_call | repeat constructor; exact He]. Qed.

Ltac quiets :=
  repeat first
    [ eassumption
    | apply quiet_refl
    | apply quiet_store
    | apply quiet_call; reflexivity
    | eapply quiet_trans; [ | apply quiet_store ]
    | eapply quiet_trans; [ | apply quiet_call; reflexivity ] ].

Lemma linkBody_spec (uid redirectUri : string) (brokerId : option string) w :
  run (linkBody uid redirectUri brokerId) w (fun o w' => quiet w w').
Proof.
  unfold linkBody. wp.
  eapply run_conseq; [apply getUserSecret_spec|].
  intros o w1 ((evs & F1 & Hevs) & _).
  assert (Q1 : quiet w w1) by (exists evs; split; [exact F1 | apply registration_no_link, Hevs]).
  destruct o as [secret|e]; [|exact Q1]. wp.
  - destruct a as [d|]; wp; [|quiets].
    destruct (redirectURI d) as [uri|]; wp; [|quiets].
    destruct (String.eqb uri ""); wp; [quiets|].
    unfold recordConnectionStarted. wp. quiets.
  - quiets.
Qed.

Lemma recreateUser_spec (uid : string) w :
  run (recreateUser uid) w (fun o w' => quiet w w' /\ exists b, o = Ok b).
Proof.
  unfold recreateUser. wp.
  - destruct (has_userSecret _) as [d|]; wp; (split; [quiets | eauto]).
  - split; [quiets | eauto].
  - split; [quiets | eauto].
Qed.

(** The handler of "not registered" goes through [registerSnapTradeUser]
    once, whatever follows. *)
Lemma onNotRegistered_spec (uid : string) w :
  run (onNotRegistered uid) w (fun o w' =>
    exists evs, frame w w' (CallRegisterSnapTradeUser uid :: evs) /\
                Forall (fun e => is_call_link e = false) evs).
Proof.
  unfold onNotRegistered. wp.
  eapply run_conseq; [apply registerSnapTradeUser_spec|].
  intros o w1 ((evs & F1 & Hevs & _) & _).
  destruct o as [u|e]; wp.
  - exists evs. split; [exact F1 | apply api_register_no_link, Hevs].
  - destruct (is_400 e).
    + eapply run_conseq; [apply recreateUser_spec|].
      intros o w2 ((evs2 & F2 & Hevs2) & b & ->). cbv beta iota.
      destruct b; wp; exists (evs ++ evs2);
        (split; [eapply frame_step; [exact F1 | exact F2 | reflexivity]
                | apply Forall_app; split;
                  [apply api_register_no_link, Hevs | exact Hevs2]]).
    + wp. exists evs. split; [exact F1 | apply api_register_no_link, Hevs].
Qed.

(** One body: the function is entered once; a body that asks to be
    re-entered has gone through [registerSnapTradeUser]. *)
Lemma linkAttempt_spec (uid redirectUri : string) (brokerId : option string) w :
  run (linkAttempt uid redirectUri brokerId) w (fun o w' =>
    count is_call_link (trace w') = S (count is_call_link (trace w)) /\
    (count is_call_register (trace w) <= count is_call_register (trace w'))%nat /\
    (o = Ok Reenter ->
     (S (count is_call_register (trace w)) <= count is_call_register (trace w'))%nat)).
Proof.
  assert (Hlog : forall w' evs,
            frame (log (CallCreateSnapTradeUserLink uid) w) w' evs ->
            Forall (fun e => is_call_link e = false) evs ->
            count is_call_link (trace w') = S (count is_call_link (trace w)) /\
            (count is_call_register (trace w) <= count is_call_register (trace w'))%nat).
  { intros w' evs F Hevs. rewrite (frame_trace _ _ _ F).
    change (trace (log (CallCreateSnapTradeUserLink uid) w))
      with (trace w ++ [CallCreateSnapTradeUserLink uid]).
    rewrite !count_app, (count_zero _ _ Hevs).
    change (count is_call_link [CallCreateSnapTradeUserLink uid]) with 1%nat.
    lia. }
  unfold linkAttempt. wp.
  destruct (negb (sdk (log _ w))); wp.
  { destruct (Hlog _ [] (frame_refl _) (List.Forall_nil _)) as [Hc Hm].
    split; [exact Hc|]. split; [exact Hm | discriminate]. }
  eapply run_conseq; [apply linkBody_spec|].
  intros o w1 (evs & F1 & Hevs). destruct (Hlog _ _ F1 Hevs) as [Hc1 Hm1].
  destruct o as [uri|e]; wp.
  { split; [exact Hc1|]. split; [exact Hm1 | discriminate]. }
  destruct (bool_decide _); wp.
  - eapply run_conseq; [apply onNotRegistered_spec|].
    intros o w2 (evs2 & F2 & Hevs2).
    assert (F : frame (log (CallCreateSnapTradeUserLink uid) w) w2
                  (evs ++ CallRegisterSnapTradeUser uid :: evs2))
      by (eapply frame_step; [exact F1 | exact F2 | reflexivity]).
    assert (Hq : Forall (fun e => is_call_link e = false)
                   (evs ++ CallRegisterSnapTradeUser uid :: evs2))
      by (apply Forall_app; split; [exact Hevs | constructor; [reflexivity | exact Hevs2]]).
    assert (Hreg : (S (count is_call_register (trace w))
                    <= count is_call_register (trace w2))%nat).
    { rewrite (frame_trace _ _ _ F).
      change (trace (log (CallCreateSnapTradeUserLink uid) w))
        with (trace w ++ [CallCreateSnapTradeUserLink uid]).
      rewrite !count_app, !count_cons. cbn [is_call_register]. lia. }
    destruct (Hlog _ _ F Hq) as [Hc2 Hm2].
    destruct o as [[uri|]|e2]; wp;
      (split; [exact Hc2|]); (split; [exact Hm2|]);
      try discriminate; intros _; exact Hreg.
  - split; [exact Hc1|]. split; [exact Hm1 | discriminate].
Qed.

Lemma is_400_iff (e : Js.error) :
  is_400 e = true <-> Js.response_status e = Some 400 \/ Js.status e = Some 400.
Proof.
  unfold is_400. rewrite orb_true_iff, !bool_decide_eq_true. reflexivity.
Qed.

(** Lines 778-814 end in the call of the function again exactly when the
    remote deletes the user and registers it again with a secret. *)
Lemma recreateUser_true_iff (uid : string) w (w' : World R) :
  recreateUser uid w = (Ok true, w') <->
  exists r1 d r2,
    api_deleteSnapTradeUser uid (remote w) = (Ok tt, r1) /\
    api_registerSnapTradeUser uid r1 = (Ok (Some d), r2) /\
    Js.truthy (userSecret d) = true /\
    w' = {| sdk := sdk w;
            rows :=
              if fault 0 w then rows w
              else <[uid := {| api_key := Some "snaptrade_user";
                               api_secret_encrypted := userSecret d;
                               is_active := true;
                               broker_data :=
                                 <[ "registered_at" := Js.JTime (clock w) ]>
                                 {[ "snap_trade_user_id" :=
                                      match userId d with
                                      | Some i => Js.JStr i
                                      | None => Js.JNull
                                      end ]} |}]> (rows w);
            remote := r2; clock := clock w; faults := tl (faults w);
            trace := trace w ++ [ApiDelete uid; ApiRegister uid] |}.
Proof.
  unfold recreateUser, try_catch. unfold bind at 1. unfold call at 1.
  destruct (api_deleteSnapTradeUser uid (remote w)) as [[[]|e] r1] eqn:Hdel.
  2:{ split; [discriminate|]. intros (? & ? & ? & [=] & _). }
  unfold bind at 1. unfold call at 1. cbn [remote trace sdk rows clock faults].
  destruct (api_registerSnapTradeUser uid r1) as [[[d|]|e] r2] eqn:Hreg.
  - unfold has_userSecret. destruct (Js.truthy (userSecret d)) eqn:Hd.
    + unfold bind, now, ret. rewrite upsert_connection_eq.
      unfold after_store, failing, fault.
      cbn [remote trace sdk rows clock faults Nat.iter nat_rect].
      rewrite <- app_assoc. cbn [app]. split.
      * intros [= <-]. exists r1, d, r2. auto.
      * intros (r1' & d' & r2' & [= <-] & Hreg' & _ & ->).
        rewrite Hreg in Hreg'. injection Hreg' as <- <-. reflexivity.
    + unfold ret. split; [discriminate|].
      intros (r1' & d' & r2' & [= <-] & Hreg' & Hd' & _).
      rewrite Hreg in Hreg'. injection Hreg' as <- <-. congruence.
  - unfold has_userSecret, ret. split; [discriminate|].
    intros (r1' & d' & r2' & [= <-] & Hreg' & _). congruence.
  - unfold ret. split; [discriminate|].
    intros (r1' & d' & r2' & [= <-] & Hreg' & _). congruence.
Qed.

Lemma onNotRegistered_reenters_iff (uid : string) w (w' : World R) :
  onNotRegistered uid w = (Ok Reenter, w') <->
  (exists u, registerSnapTradeUser uid w = (Ok u, w')) \/
  (exists e wc,
     registerSnapTradeUser uid w = (Throw e, wc) /\
     is_400 e = true /\
     recreateUser uid wc = (Ok true, w')).
Proof.
  unfold onNotRegistered, try_catch. unfold bind at 1.
  destruct (registerSnapTradeUser uid w) as [[u|e] wc].
  - unfold ret. split.
    + intros [= <-]. left. exists u. reflexivity.
    + intros [[u' [= _ <-]]|(e & wc' & [=] & _)]. reflexivity.
  - unfold bind. destruct (is_400 e) eqn:H400.
    + destruct (recreateUser uid wc) as [o w2] eqn:Hr.
      destruct (recreateUser_spec uid wc _ _ Hr) as (_ & b & ->).
      destruct b; unfold ret, throw.
      * split.
        -- intros [= <-]. right. exists e, wc. auto.
        -- intros [[u [=]]|(e' & wc' & [= <- <-] & _ & Hr')].
           rewrite Hr in Hr'. injection Hr' as <-. reflexivity.
      * split; [discriminate|].
        intros [[u [=]]|(e' & wc' & [= <- <-] & _ & Hr')].
        rewrite Hr in Hr'. discriminate Hr'.
    + unfold ret, throw. split; [discriminate|].
      intros [[u [=]]|(e' & wc' & [= <- <-] & H400' & _)]. congruence.
Qed.

Lemma linkAttempt_reenters_iff (uid redirectUri : string)
    (brokerId : option string) w (w' : World R) :
  linkAttempt uid redirectUri brokerId w = (Ok Reenter, w') <->
  sdk w = true /\
  exists e wb,
    linkBody uid redirectUri brokerId (log (CallCreateSnapTradeUserLink uid) w)
      = (Throw e, wb) /\
    Js.message e = Some "User not registered with SnapTrade" /\
    onNotRegistered uid wb = (Ok Reenter, w').
Proof.
  unfold linkAttempt. unfold bind at 1. unfold emit. unfold bind at 1.
  unfold get_world. cbn [sdk log].
  destruct (sdk w).
  2:{ cbn [negb]. unfold throw. split; [discriminate|]. intros [[=] _]. }
  cbn [negb]. unfold try_catch. unfold bind at 1.
  destruct (linkBody uid redirectUri brokerId _) as [[uri|e] wb] eqn:Hb.
  { unfold ret. split; [discriminate|]. intros (_ & e & wb' & [=] & _). }
  unfold not_registered_message.
  destruct (bool_decide_reflect (Js.message e = Some "User not registered with SnapTrade"))
    as [Hm|Hm].
  - destruct (onNotRegistered uid wb) as [[step|e2] w2] eqn:Hn.
    + split.
      * intros [= -> <-]. split; [reflexivity|]. exists e, wb. auto.
      * intros (_ & e' & wb' & [= <- <-] & _ & Hn'). rewrite Hn in Hn'. exact Hn'.
    + unfold throw. split; [discriminate|].
      intros (_ & e' & wb' & [= <- <-] & _ & Hn'). rewrite Hn in Hn'. discriminate Hn'.
  - unfold throw. split; [discriminate|].
    intros (_ & e' & wb' & [= <- <-] & Hm' & _). contradiction.
Qed.

(** C8, amended: a body of [createSnapTradeUserLink] ends in the call of
    the function again exactly when the SDK is there, its inner [try]
    has thrown an error whose message is "User not registered with
    SnapTrade", and either [registerSnapTradeUser] has returned, or it
    has thrown an error of status 400 and the remote has then deleted
    the user and registered it again with a secret (which is written to
    the row). The new call is an ordinary call: after [n] bodies in a
    row that end this way and one that does not, the function has been
    entered [n + 1] times, has gone through [registerSnapTradeUser] at
    least [n] times, and returns what the last body settles on, given
    fuel for [n + 1] bodies and not with less; with [n = 1] this is the
    single retry. Nothing in the code bounds [n]. *)
Theorem link_retries_follow_the_remote (uid redirectUri : string)
    (brokerId : option string) (n : nat) w (wn : World R)
    (o : outcome link_step) (res : outcome string) (w' : World R) :
  reenters uid redirectUri brokerId n w wn ->
  linkAttempt uid redirectUri brokerId wn = (o, w') ->
  settled o = Some res ->
  (forall fuel, (n < fuel)%nat ->
     createSnapTradeUserLink fuel uid redirectUri brokerId w = (Some res, w')) /\
  (forall fuel, (fuel <= n)%nat ->
     (createSnapTradeUserLink fuel uid redirectUri brokerId w).1 = None) /\
  count is_call_link (trace w') = (count is_call_link (trace w) + n + 1)%nat /\
  (count is_call_register (trace w) + n <= count is_call_register (trace w'))%nat /\
  (forall wx wy : World R,
     linkAttempt uid redirectUri brokerId wx = (Ok Reenter, wy) <->
     sdk wx = true /\
     exists e wb,
       linkBody uid redirectUri brokerId (log (CallCreateSnapTradeUserLink uid) wx)
         = (Throw e, wb) /\
       Js.message e = Some "User not registered with SnapTrade" /\
       ((exists u, registerSnapTradeUser uid wb = (Ok u, wy)) \/
        (exists e' wc r1 d r2,
           registerSnapTradeUser uid wb = (Throw e', wc) /\
           (Js.response_status e' = Some 400 \/ Js.status e' = Some 400) /\
           api_deleteSnapTradeUser uid (remote wc) = (Ok tt, r1) /\
           api_registerSnapTradeUser uid r1 = (Ok (Some d), r2) /\
           Js.truthy (userSecret d) = true /\
           wy = {| sdk := sdk wc;
                   rows :=
                     if fault 0 wc then rows wc
                     else <[uid := {| api_key := Some "snaptrade_user";
                                      api_secret_encrypted := userSecret d;
                                      is_active := true;
                                      broker_data :=
                                        <[ "registered_at" := Js.JTime (clock wc) ]>
                                        {[ "snap_trade_user_id" :=
                                             match userId d with
                                             | Some i => Js.JStr i
                                             | None => Js.JNull
                                             end ]} |}]> (rows wc);
                   remote := r2; clock := clock wc; faults := tl (faults wc);
                   trace := trace wc ++ [ApiDelete uid; ApiRegister uid] |}))).
Proof.
  intros Hchain Hlast Hres.
  assert (Hbodies :
    (forall fuel, (n < fuel)%nat ->
       createSnapTradeUserLink fuel uid redirectUri brokerId w = (Some res, w')) /\
    (forall fuel, (fuel <= n)%nat ->
       (createSnapTradeUserLink fuel uid redirectUri brokerId w).1 = None) /\
    count is_call_link (trace w') = (count is_call_link (trace w) + n + 1)%nat /\
    (count is_call_register (trace w) + n <= count is_call_register (trace w'))%nat).
  { induction Hchain as [w|n w w1 w2 Hstep Hchain IH].
    - pose proof (linkAttempt_spec uid redirectUri brokerId w _ _ Hlast) as (Hc & Hm & _).
      repeat split.
      + intros [|fuel] Hfuel; [lia|]. simpl. rewrite Hlast.
        destruct o as [[uri|]|e]; simpl in Hres; congruence.
      + intros fuel Hfuel. assert (fuel = 0%nat) as -> by lia. reflexivity.
      + rewrite Hc. lia.
      + lia.
    - destruct (IH Hlast) as (Hok & Hnone & Hc & Hr).
      pose proof (linkAttempt_spec uid redirectUri brokerId w _ _ Hstep) as (Hc1 & _ & Hr1).
      specialize (Hr1 eq_refl).
      repeat split.
      + intros [|fuel] Hfuel; [lia|]. simpl. rewrite Hstep. apply Hok. lia.
      + intros [|fuel] Hfuel; [reflexivity|]. simpl. rewrite Hstep. apply Hnone. lia.
      + rewrite Hc, Hc1. lia.
      + lia. }
  destruct Hbodies as (Hok & Hnone & Hc & Hr).
  split; [exact Hok|]. split; [exact Hnone|]. split; [exact Hc|]. split; [exact Hr|].
  intros wx wy. rewrite linkAttempt_reenters_iff. split.
  - intros (Hs & e & wb & Hb & Hm & Hn). split; [exact Hs|].
    exists e, wb. split; [exact Hb|]. split; [exact Hm|].
    apply onNotRegistered_reenters_iff in Hn
      as [Hn|(e' & wc & Hreg & H400 & Hrec)]; [left; exact Hn|].
    right. apply recreateUser_true_iff in Hrec as (r1 & d & r2 & Hd & Hg & Ht & ->).
    exists e', wc, r1, d, r2. apply is_400_iff in H400. auto 10.
  - intros (Hs & e & wb & Hb & Hm & Hn). split; [exact Hs|].
    exists e, wb. split; [exact Hb|]. split; [exact Hm|].
    apply onNotRegistered_reenters_iff.
    destruct Hn as [Hn|(e' & wc & r1 & d & r2 & Hreg & H400 & Hd & Hg & Ht & ->)];
      [left; exact Hn|].
    right. exists e', wc. split; [exact Hreg|]. split; [apply is_400_iff, H400|].
    apply recreateUser_true_iff. exists r1, d, r2. auto.
Qed.

End LinkAttempts.

(** C8, as stated, fails: with a login endpoint that keeps answering "not
    registered" and a registration that succeeds, ten bodies in a row end
    in the call of the function again; nine retries have been made and the
    function has not settled. *)
Lemma unbounded_retry_counterexample :
  let '(res, w') :=
    createSnapTradeUserLink 10 "u1" "https://app.example/callback" None
      (world_never []) in
  res = None /\
  count is_call_link (trace w') = 10%nat /\
  count is_api_login (trace w') = 10%nat /\
  count is_call_register (trace w') = 10%nat.
Proof. vm_compute. repeat split. Qed.

(** In that world no amount of fuel is enough. *)
Lemma link_never_settles (fuel : nat) (tr : list Event) :
  (createSnapTradeUserLink fuel "u1" "https://app.example/callback" None
     (world_never tr)).1 = None.
Proof.
  revert tr. induction fuel as [|fuel IH]; intros tr; [reflexivity|].
  simpl.
  assert (Hstep : exists tr',
            linkAttempt "u1" "https://app.example/callback" None (world_never tr)
            = (Ok Reenter, world_never tr')).
  { eexists. vm_compute. reflexivity. }
  destruct Hstep as [tr' ->]. apply IH.
Qed.

(** One refusal: the first body re-enters, because the login was
    answered with "User not registered with SnapTrade", and the second
    returns the link; two bodies, one retry. *)
Lemma link_retries_follow_the_remote_witness :
  let w := world_refusing 1 in
  let '(res, w') :=
    createSnapTradeUserLink 2 "u1" "https://app.example/callback" None w in
  res = Some (Ok "https://portal.example/connect/abc") /\
  count is_call_link (trace w') = 2%nat /\
  (linkAttempt "u1" "https://app.example/callback" None w).1 = Ok Reenter /\
  exists e,
    (linkBody "u1" "https://app.example/callback" None
       (log (CallCreateSnapTradeUserLink "u1") w)).1 = Throw e /\
    Js.message e = Some "User not registered with SnapTrade".
Proof.
  set (w := world_refusing 1).
  set (w1 := (linkAttempt "u1" "https://app.example/callback" None w).2).
  set (w2 := (linkAttempt "u1" "https://app.example/callback" None w1).2).
  assert (H1 : linkAttempt "u1" "https://app.example/callback" None w
               = (Ok Reenter, w1)) by (vm_compute; reflexivity).
  assert (H2 : linkAttempt "u1" "https://app.example/callback" None w1
               = (Ok (Return "https://portal.example/connect/abc"), w2))
    by (vm_compute; reflexivity).
  destruct (link_retries_follow_the_remote "u1" "https://app.example/callback" None
              1 w w1 _ (Ok "https://portal.example/connect/abc") w2
              (reenters_S _ _ _ 0 w w1 w1 H1 (reenters_O _ _ _ w1)) H2 eq_refl)
    as (Hok & _ & Hc & _ & Hwhen).
  cbv zeta. rewrite (Hok 2%nat (le_n 2)).
  split; [reflexivity|]. split; [exact Hc|]. split; [rewrite H1; reflexivity|].
  destruct (proj1 (Hwhen w w1) H1) as (_ & e & wb & Hb & Hm & _).
  exists e. rewrite Hb. split; [reflexivity | exact Hm].
Defined.

(** An error with any other message is not followed by a registration:
    the body throws. *)
Example link_other_error_is_thrown :
  (linkAttempt "u1" "https://app.example/callback" None
     (with_rows {[ "u1" := real_row (registered_ago ms_per_day) ]} (start offline t0))).1
  = Throw (Js.Error "Failed to link account: Network Error").
Proof. vm_compute. reflexivity. Qed.


(** * Further properties *)

(** ** Registration: bounds, failures, and what the next read finds *)

Section RegistrationMore.

Context {R : Type} `{SnapTradeApi R} {dates : Js.Dates}.

Implicit Types w : World R.

Lemma onRegisterError_throws (uid : string) (e : Js.error) w :
  run (onRegisterError uid e) w (fun o w' =>
    forall e', o = Throw e' -> e' = e /\ is_already_exists e = false).
Proof.
  unfold onRegisterError. destruct (is_already_exists e) eqn:He.
  - eapply run_conseq; [apply onUserAlreadyExists_spec|].
    intros o w' (_ & u & -> & _). discriminate.
  - eapply run_conseq; [apply markRegistrationFailed_spec|].
    intros o w' (_ & ->) e' [= <-]. auto.
Qed.

Lemma registerSnapTradeUser_throws (uid : string) w :
  run (registerSnapTradeUser uid) w (fun o w' =>
    forall e, o = Throw e -> is_already_exists e = false).
Proof.
  unfold registerSnapTradeUser. wp.
  destruct (negb (sdk (log _ w))); wp.
  { intros e [= <-]. reflexivity. }
  eapply run_conseq; [apply lookupExisting_spec|].
  intros o w1 (-> & ->). cbv beta iota.
  destruct (Js.truthy _); wp; [discriminate|].
  eapply run_conseq; [apply writePlaceholder_spec|].
  intros o w2 ([err ->] & _). cbv beta iota. wp.
  intros o w3 _. destruct o as [u|e]; [discriminate|].
  eapply run_conseq; [apply onRegisterError_throws|].
  intros o w4 Hthrow e' He'. destruct (Hthrow e' He') as [-> Hne]. exact Hne.
Qed.

(** X1: whatever the store and the remote do, one run of
    [registerSnapTradeUser] calls the register endpoint at most twice and
    no other endpoint; a secret it returns is a non-empty string; and an
    error it throws is never the "user already exists" conflict, which is
    always absorbed by the fallback chain. *)
Theorem registration_is_bounded (uid : string) w :
  let '(o, w') := registerSnapTradeUser uid w in
  (exists calls,
     trace w' = trace w ++ CallRegisterSnapTradeUser uid :: calls /\
     Forall (fun e => is_api_register e = true) calls /\
     (length calls <= 2)%nat) /\
  match o with
  | Ok u => exists s, userSecret u = Some s /\ s <> ""
  | Throw e => is_already_exists e = false
  end.
Proof.
  pose proof (run_result _ _ _ (registerSnapTradeUser_spec uid w)) as Hspec.
  pose proof (run_result _ _ _ (registerSnapTradeUser_throws uid w)) as Hthrow.
  destruct (registerSnapTradeUser uid w) as [o w']. simpl in Hspec, Hthrow.
  destruct Hspec as ((evs & F & Hevs & Hlen) & Hu). split.
  - exists evs. split; [apply (frame_trace _ _ _ F) | auto].
  - destruct o as [u|e]; [|apply Hthrow; reflexivity].
    specialize (Hu u eq_refl). destruct (userSecret u) as [s|]; [|discriminate].
    exists s. split; [reflexivity|]. intros ->. discriminate.
Qed.

End RegistrationMore.


Ltac world_simpl Hf :=
  unfold failing, write_error, selection, after_store, after_call, log in *;
  cbn [sdk rows remote clock faults trace] in *;
  rewrite ?Hf in *;
  cbn [hd tl] in *.

Section RegistrationOutcomes.

Context {R : Type} `{SnapTradeApi R} {dates : Js.Dates}.

Implicit Types w : World R.

Lemma unregistered_lookup (uid : string) w :
  faults w = [] -> unregistered uid w ->
  Js.truthy (data (selection uid true w) ≫= api_secret_encrypted) = false.
Proof.
  intros Hf Hun. unfold selection. rewrite (reliable_not_failing _ Hf). simpl.
  destruct (rows w !! uid) as [r|] eqn:Hr; [|reflexivity].
  destruct (is_active r) eqn:Ha; [|reflexivity]. simpl. apply (Hun r Hr Ha).
Qed.

(** X2: with a store that takes the writes, when the direct registration
    of a user without usable row fails with an error that is not the "user
    already exists" conflict, [registerSnapTradeUser] rethrows that very
    error after exactly one call of the register endpoint, and leaves the
    row of the user inactive, still holding the placeholder secret, with
    the message of the error in [broker_data]; the rows of other users are
    as before. *)
Theorem failed_registration_is_recorded (uid : string) w (e : Js.error) (r1 : R) :
  sdk w = true ->
  faults w = [] ->
  unregistered uid w ->
  api_registerSnapTradeUser uid (remote w) = (Throw e, r1) ->
  is_already_exists e = false ->
  exists w',
    registerSnapTradeUser uid w = (Throw e, w') /\
    trace w' = trace w ++ [CallRegisterSnapTradeUser uid; ApiRegister uid] /\
    (forall k, k <> uid -> rows w' !! k = rows w !! k) /\
    exists r', rows w' !! uid = Some r' /\
      is_active r' = false /\
      api_secret_encrypted r' = Some pending_registration /\
      broker_data r' !! "error_message"
        = Some (Js.JStr (Js.or_else (Js.message e) "Unknown error")).
Proof.
  intros Hsdk Hf Hun Hapi Hne.
  assert (Hrun : run (registerSnapTradeUser uid) w (fun o w' =>
    o = Throw e /\
    trace w' = trace w ++ [CallRegisterSnapTradeUser uid; ApiRegister uid] /\
    (forall k, k <> uid -> rows w' !! k = rows w !! k) /\
    exists r', rows w' !! uid = Some r' /\
      is_active r' = false /\
      api_secret_encrypted r' = Some pending_registration /\
      broker_data r' !! "error_message"
        = Some (Js.JStr (Js.or_else (Js.message e) "Unknown error")))).
  { unfold registerSnapTradeUser. wp.
    change (sdk (log (CallRegisterSnapTradeUser uid) w)) with (sdk w).
    rewrite Hsdk. cbn [negb]. wp.
    eapply run_conseq; [apply lookupExisting_spec|].
    intros o w1 (-> & ->). cbv beta iota.
    change (selection uid true (log (CallRegisterSnapTradeUser uid) w))
      with (selection uid true w).
    rewrite (unregistered_lookup _ _ Hf Hun).
    unfold writePlaceholder, directRegistration. wp.
    - world_simpl Hf. rewrite Hapi in H0. discriminate.
    - world_simpl Hf. rewrite Hapi in H0. injection H0 as <- <-.
      unfold onRegisterError. rewrite Hne. unfold markRegistrationFailed. wp.
      world_simpl Hf. split; [reflexivity|]. split.
      { rewrite <- app_assoc. reflexivity. }
      split.
      { intros k Hk. rewrite lookup_alter_ne by congruence.
        rewrite lookup_insert_ne by congruence. reflexivity. }
      eexists. split.
      { rewrite lookup_alter_eq, lookup_insert_eq. reflexivity. }
      simpl. repeat split. }
  pose proof (run_result _ _ _ Hrun) as Hres.
  destruct (registerSnapTradeUser uid w) as [o w']. simpl in Hres.
  destruct Hres as (-> & Hrest). exists w'. split; [reflexivity | exact Hrest].
Qed.

(** X3: with a store that takes the writes, when the remote registers a
    user without usable row and returns a secret (other than the
    placeholder word), [registerSnapTradeUser] returns the answer of the
    remote, and the [getUserSecret] that follows returns that same secret
    from the row, without entering the registration again and without any
    remote call. *)
Theorem registration_then_read (uid : string) w (d : UserIDandSecret)
    (secret : string) (r1 : R) :
  sdk w = true ->
  faults w = [] ->
  unregistered uid w ->
  api_registerSnapTradeUser uid (remote w) = (Ok (Some d), r1) ->
  userSecret d = Some secret ->
  secret <> "" ->
  secret <> pending_registration ->
  exists w1 w2,
    registerSnapTradeUser uid w = (Ok d, w1) /\
    trace w1 = trace w ++ [CallRegisterSnapTradeUser uid; ApiRegister uid] /\
    getUserSecret uid false w1 = (Ok (Some secret), w2) /\
    trace w2 = trace w1 /\ rows w2 = rows w1 /\ remote w2 = remote w1.
Proof.
  intros Hsdk Hf Hun Hapi Hsec Hne Hnp.
  assert (Htruthy : Js.truthy (userSecret d) = true).
  { rewrite Hsec. simpl. rewrite (eqb_empty_false _ Hne). reflexivity. }
  assert (Hrun : run (registerSnapTradeUser uid) w (fun o w1 =>
    o = Ok d /\
    trace w1 = trace w ++ [CallRegisterSnapTradeUser uid; ApiRegister uid] /\
    faults w1 = [] /\ clock w1 = clock w /\
    exists r, rows w1 !! uid = Some r /\
      is_active r = true /\ api_secret_encrypted r = Some secret /\
      broker_data r !! "is_fake_secret" = None /\
      broker_data r !! "registered_at" = Some (Js.JTime (clock w)))).
  { unfold registerSnapTradeUser. wp.
    change (sdk (log (CallRegisterSnapTradeUser uid) w)) with (sdk w).
    rewrite Hsdk. cbn [negb]. wp.
    eapply run_conseq; [apply lookupExisting_spec|].
    intros o w1 (-> & ->). cbv beta iota.
    change (selection uid true (log (CallRegisterSnapTradeUser uid) w))
      with (selection uid true w).
    rewrite (unregistered_lookup _ _ Hf Hun).
    unfold writePlaceholder, directRegistration. wp.
    - world_simpl Hf. rewrite Hapi in H0. injection H0 as <- <-.
      unfold has_userSecret. rewrite Htruthy. wp.
      world_simpl Hf. split; [reflexivity|]. split.
      { rewrite <- app_assoc. reflexivity. }
      split; [reflexivity|]. split; [reflexivity|].
      eexists. split.
      { rewrite lookup_alter_eq, lookup_insert_eq. reflexivity. }
      simpl. rewrite Hsec. repeat split.
    - world_simpl Hf. rewrite Hapi in H0. discriminate. }
  pose proof (run_result _ _ _ Hrun) as Hres.
  destruct (registerSnapTradeUser uid w) as [o w1]. simpl in Hres.
  destruct Hres as (-> & Htr & Hf1 & Hclock & r & Hr & Ha & Hs & Hfake & Hreg).
  assert (Hc : cachedSecret (rows w1 !! uid) false (clock w1) = Some (Some secret)).
  { rewrite Hr. unfold cachedSecret, usable, isFakeSecret, needsRefresh, real_secret.
    rewrite Ha, Hs, Hfake, Hreg, Hclock. simpl.
    rewrite (eqb_empty_false _ Hne). simpl.
    rewrite Z.sub_diag. simpl.
    destruct (bool_decide (Some secret = Some pending_registration)) eqn:Hb.
    - apply bool_decide_eq_true in Hb. congruence.
    - reflexivity. }
  eexists w1, _. split; [reflexivity|]. split; [exact Htr|].
  split; [apply (getUserSecret_cached _ _ _ _ (reliable_not_failing _ Hf1) Hc)|].
  repeat split.
Qed.

End RegistrationOutcomes.

Lemma failed_registration_is_recorded_witness :
  exists w',
    registerSnapTradeUser "u1" (start broken_register t0) = (Throw server_error, w') /\
    trace w' = [CallRegisterSnapTradeUser "u1"; ApiRegister "u1"] /\
    (forall k, k <> "u1" -> rows w' !! k = None) /\
    exists r', rows w' !! "u1" = Some r' /\
      is_active r' = false /\
      api_secret_encrypted r' = Some pending_registration /\
      broker_data r' !! "error_message"
        = Some (Js.JStr "Request failed with status code 500").
Proof.
  apply (failed_registration_is_recorded "u1" (start broken_register t0)
           server_error broken_register eq_refl eq_refl).
  - intros r Hr. discriminate Hr.
  - reflexivity.
  - reflexivity.
Defined.

Lemma registration_then_read_witness :
  exists w1 w2,
    registerSnapTradeUser "u1" (start registering t0)
      = (Ok {| userId := Some "u1"; userSecret := Some "fresh-secret" |}, w1) /\
    trace w1 = [CallRegisterSnapTradeUser "u1"; ApiRegister "u1"] /\
    getUserSecret "u1" false w1 = (Ok (Some "fresh-secret"), w2) /\
    trace w2 = trace w1 /\ rows w2 = rows w1 /\ remote w2 = remote w1.
Proof.
  apply (registration_then_read "u1" (start registering t0)
           {| userId := Some "u1"; userSecret := Some "fresh-secret" |}
           "fresh-secret" registering eq_refl eq_refl).
  - intros r Hr. discriminate Hr.
  - reflexivity.
  - reflexivity.
  - discriminate.
  - discriminate.
Defined.

(** ** Secret retrieval: the emergency secret and its reuse *)

Section SecretMore.

Context {R : Type} `{SnapTradeApi R} {dates : Js.Dates}.

Implicit Types w : World R.

Lemma usable_false_not_cached (d : option Row) (force : bool) (t : Z) :
  usable d = false -> cachedSecret d force t = None.
Proof. unfold cachedSecret. destruct d as [r|]; [|reflexivity]. intros ->. reflexivity. Qed.

Lemma emergency_secret_real (t : Z) : real_secret (Some (emergency_secret t)) = true.
Proof.
  unfold real_secret. rewrite emergency_secret_truthy.
  rewrite bool_decide_eq_false_2; [reflexivity|]. intros [=].
Qed.

(** X4: with a store that takes the writes, when the row of the user is
    not usable and the registration throws, [getUserSecret] returns the
    emergency secret made from the clock and stores it in an active row
    marked [is_fake_secret], with the message of the registration error;
    the next [getUserSecret] without [forceReregister] returns the same
    secret again without entering the registration. *)
Theorem emergency_secret_is_reused (uid : string) (force : bool) w
    (e : Js.error) (w1 : World R) :
  faults w = [] ->
  usable (rows w !! uid) = false ->
  registerSnapTradeUser uid w = (Throw e, w1) ->
  exists w2 w3 r,
    getUserSecret uid force w = (Ok (Some (emergency_secret (clock w))), w2) /\
    rows w2 !! uid = Some r /\
    is_active r = true /\
    api_secret_encrypted r = Some (emergency_secret (clock w)) /\
    broker_data r !! "is_fake_secret" = Some (Js.JBool true) /\
    broker_data r !! "original_error"
      = Some (Js.JStr (Js.or_else (Js.message e) "Unknown error")) /\
    getUserSecret uid false w2 = (Ok (Some (emergency_secret (clock w))), w3) /\
    trace w3 = trace w2 /\ rows w3 = rows w2.
Proof.
  intros Hf Hu Hreg.
  pose proof (reliable_not_failing _ Hf) as Hnf.
  pose proof (registerSnapTradeUser_spec uid w _ _ Hreg) as ((evs & F & _) & _).
  pose proof (frame_reliable _ _ _ F Hf) as Hf1.
  pose proof (frame_clock _ _ _ F) as Hc1.
  set (row := {| api_key := Some "snaptrade_user";
                 api_secret_encrypted := Some (emergency_secret (clock w));
                 is_active := true;
                 broker_data :=
                   <[ "registered_at" := Js.JTime (clock w) ]>
                   (<[ "registration_method" := Js.JStr "emergency_fallback" ]>
                   (<[ "is_fake_secret" := Js.JBool true ]>
                   {[ "original_error" :=
                        Js.JStr (Js.or_else (Js.message e) "Unknown error") ]})) |}).
  set (w2 := after_store (<[uid := row]> (rows w1)) w1).
  assert (Hget : getUserSecret uid force w
                 = (Ok (Some (emergency_secret (clock w))), w2)).
  { unfold getUserSecret.
    erewrite bind_ok by apply select_connection_eq.
    rewrite (selection_ok _ _ Hnf). cbn [error data].
    erewrite bind_ok by reflexivity.
    change (clock (after_store (rows w) w)) with (clock w).
    rewrite (usable_false_not_cached _ _ _ Hu), (after_store_id _ Hf).
    erewrite try_catch_throw by (unfold bind; rewrite Hreg; reflexivity).
    rewrite Hu. unfold emergencyFallback.
    erewrite bind_ok by reflexivity. erewrite bind_ok by reflexivity.
    erewrite bind_ok by apply upsert_connection_eq.
    rewrite (reliable_not_failing _ Hf1), Hc1. reflexivity. }
  assert (Hrow : rows w2 !! uid = Some row) by apply lookup_insert_eq.
  assert (Hf2 : faults w2 = []) by (apply after_store_reliable, Hf1).
  exists w2, (after_store (rows w2) w2), row.
  split; [exact Hget|]. split; [exact Hrow|].
  split; [reflexivity|]. split; [reflexivity|].
  split; [reflexivity|]. split; [reflexivity|].
  split; [|split; reflexivity].
  apply getUserSecret_cached; [apply reliable_not_failing, Hf2|].
  rewrite Hrow. unfold cachedSecret, usable.
  cbn [is_active api_secret_encrypted row andb].
  rewrite emergency_secret_real. reflexivity.
Qed.

End SecretMore.

(** The register endpoint answers 500 and "u1" has no row: the secret is
    the emergency one, and it is handed out again. *)
Lemma emergency_secret_is_reused_witness :
  exists w2 w3,
    getUserSecret "u1" false (start broken_register t0)
      = (Ok (Some (emergency_secret t0)), w2) /\
    getUserSecret "u1" false w2 = (Ok (Some (emergency_secret t0)), w3) /\
    trace w3 = trace w2.
Proof.
  assert (Hreg : registerSnapTradeUser "u1" (start broken_register t0)
                 = (Throw server_error,
                    (registerSnapTradeUser "u1" (start broken_register t0)).2))
    by (vm_compute; reflexivity).
  destruct (emergency_secret_is_reused "u1" false (start broken_register t0)
              server_error _ eq_refl eq_refl Hreg)
    as (w2 & w3 & r & H1 & _ & _ & _ & _ & _ & H2 & H3 & _).
  exists w2, w3. split; [exact H1|]. split; [exact H2 | exact H3].
Defined.

(** ** Holdings: the account filter, and the account listing *)

(** Closes a frame goal by peeling the steps off the final world. *)
Ltac frames_back :=
  repeat first
    [ eassumption
    | apply frame_refl
    | eapply frame_step; [ | apply frame_call | reflexivity ]
    | eapply frame_step; [ | apply frame_store | reflexivity ]
    | eapply frame_step; [ | apply frame_log | reflexivity ] ].

Section HoldingsMore.

Context {R : Type} `{SnapTradeApi R} {dates : Js.Dates}.

Implicit Types w : World R.

Lemma only_account_app (i : string) (e1 e2 : list Event) :
  only_account i e1 -> only_account i e2 -> only_account i (e1 ++ e2).
Proof. intros H1 H2. apply Forall_app. split; assumption. Qed.

Lemma only_account_registration (i : string) (evs : list Event) :
  Forall (fun e => registration_event e = true) evs -> only_account i evs.
Proof.
  intros Hevs. eapply Forall_impl; [exact Hevs|].
  intros [] He a Ha; try discriminate Ha; discriminate He.
Qed.

(** The body of the loop: what it appends belongs to the account, and its
    two calls ask about the account. *)
Lemma processAccount_spec (uid : string) (secret : option string)
    (hs : list Holding) (account : Account) w :
  run (processAccount uid secret hs account) w (fun o w' =>
    exists ha evs,
      o = Ok (hs ++ ha) /\ Forall (of_account account) ha /\
      frame w w' evs /\ only_account (account_id account) evs /\
      rows w' = rows w).
Proof.
  assert (Hpos : only_account (account_id account) [ApiPositions (account_id account)]).
  { repeat constructor. intros a [= <-]. reflexivity. }
  assert (Hboth : only_account (account_id account)
                    [ApiPositions (account_id account); ApiBalances (account_id account)]).
  { repeat constructor; intros a [= <-]; reflexivity. }
  unfold processAccount, accountPositions, accountBalances. wp.
  - destruct a as [ps|].
    + destruct (map_outcome (toHolding account) ps) as [hp|e] eqn:Hmap; wp.
      * pose proof (map_toHolding_of_account _ _ _ Hmap) as Hhp.
        assert (Hhp' : Forall (of_account account) hp)
          by (eapply Forall_impl; [exact Hhp | intros h Hh; apply Hh]).
        destruct a as [bs|]; wp.
        -- exists (hp ++ cashHoldings account bs); eexists.
           split; [rewrite app_assoc; reflexivity|].
           split; [|split; [frames_back | split; [exact Hboth | reflexivity]]].
           apply Forall_app. split; [exact Hhp'|].
           eapply Forall_impl; [apply cashHoldings_of_account | intros h Hh; apply Hh].
        -- exists hp; eexists. split; [reflexivity|]. split; [exact Hhp'|].
           split; [frames_back | split; [exact Hboth | reflexivity]].
      * pose proof (map_toHolding_of_account _ _ _ Hmap) as Hhp.
        assert (Hhp' : Forall (of_account account) hp)
          by (eapply Forall_impl; [exact Hhp | intros h Hh; apply Hh]).
        exists hp; eexists. split; [reflexivity|]. split; [exact Hhp'|].
        split; [frames_back | split; [exact Hboth | reflexivity]].
      * destruct (is_too_early e); wp.
        -- exists [pendingHolding account]; eexists. split; [reflexivity|].
           split; [repeat constructor|].
           split; [frames_back | split; [exact Hpos | reflexivity]].
        -- exists []; eexists. split; [rewrite app_nil_r; reflexivity|].
           split; [constructor|].
           split; [frames_back | split; [exact Hpos | reflexivity]].
    + wp.
      * destruct a as [bs|]; wp.
        -- exists (cashHoldings account bs); eexists. split; [reflexivity|].
           split; [|split; [frames_back | split; [exact Hboth | reflexivity]]].
           eapply Forall_impl; [apply cashHoldings_of_account | intros h Hh; apply Hh].
        -- exists []; eexists. split; [rewrite app_nil_r; reflexivity|].
           split; [constructor|].
           split; [frames_back | split; [exact Hboth | reflexivity]].
      * exists []; eexists. split; [rewrite app_nil_r; reflexivity|].
        split; [constructor|].
        split; [frames_back | split; [exact Hboth | reflexivity]].
  - destruct (is_too_early e); wp.
    + exists [pendingHolding account]; eexists. split; [reflexivity|].
      split; [repeat constructor|].
      split; [frames_back | split; [exact Hpos | reflexivity]].
    + exists []; eexists. split; [rewrite app_nil_r; reflexivity|].
      split; [constructor|].
      split; [frames_back | split; [exact Hpos | reflexivity]].
Qed.

(** The loop over accounts that all have the id [i]. *)
Lemma processAccounts_one_account (uid : string) (secret : option string)
    (i : string) (accounts : list Account) (hs : list Holding) w :
  Forall (fun a => account_id a = i) accounts ->
  run (processAccounts uid secret accounts hs) w (fun o w' =>
    exists hl evs,
      o = Ok (hs ++ hl) /\
      Forall (fun h => isError h = false /\ accountId h = i) hl /\
      frame w w' evs /\ only_account i evs /\ rows w' = rows w).
Proof.
  intros Hacc. revert hs w.
  induction Hacc as [|a rest Ha _ IH]; intros hs w; simpl.
  - wp. exists [], []. split; [rewrite app_nil_r; reflexivity|].
    split; [constructor|]. split; [apply frame_refl|]. split; [constructor | reflexivity].
  - wp. eapply run_conseq; [apply processAccount_spec|].
    intros o w1 (ha & e1 & -> & Hha & F1 & He1 & Hr1). cbv beta iota.
    eapply run_conseq; [apply IH|].
    intros o w2 (hl & e2 & -> & Hhl & F2 & He2 & Hr2).
    exists (ha ++ hl), (e1 ++ e2). split; [rewrite app_assoc; reflexivity|].
    split; [|split; [eapply frame_trans; eassumption|split]].
    + apply Forall_app. split; [|exact Hhl].
      eapply Forall_impl; [exact Hha|]. intros h [Herr Hid].
      split; [exact Herr | congruence].
    + apply only_account_app; [rewrite <- Ha; exact He1 | exact He2].
    + congruence.
Qed.

Lemma accountsToProcess_filter (i : string) (accounts : list Account) :
  i <> "" ->
  Forall (fun a => account_id a = i) (accountsToProcess (Some i) accounts).
Proof.
  intros Hi. unfold accountsToProcess. simpl.
  destruct (String.eqb i "") eqn:E; [apply String.eqb_eq in E; contradiction|].
  simpl. apply List.Forall_forall. intros a Ha.
  apply List.filter_In in Ha as [_ Ha]. apply String.eqb_eq, Ha.
Qed.

(** X5: with an initialised SDK and a non-empty [accountId],
    [fetchSnapTradeHoldings] asks the remote for the positions and the
    balances of that account only, and every holding of the list carries
    that account id, unless the list is the single error sentinel. *)
Theorem holdings_of_one_account (uid i : string) w :
  sdk w = true ->
  i <> "" ->
  exists hs w' evs,
    fetchSnapTradeHoldings uid (Some i) w = (Ok hs, w') /\
    trace w' = trace w ++ evs /\
    only_account i evs /\
    ((exists e, hs = [errorHolding e]) \/
     Forall (fun h => isError h = false /\ accountId h = i) hs).
Proof.
  intros Hsdk Hi.
  assert (Hrun : run (fetchSnapTradeHoldings uid (Some i)) w (fun o w' =>
    exists hs evs, o = Ok hs /\ frame w w' evs /\ only_account i evs /\
      ((exists e, hs = [errorHolding e]) \/
       Forall (fun h => isError h = false /\ accountId h = i) hs))).
  { unfold fetchSnapTradeHoldings. wp. rewrite Hsdk. cbn [negb]. wp.
    eapply run_conseq; [apply getUserSecret_spec|].
    intros o w1 ((e1 & F1 & He1) & _).
    pose proof (only_account_registration i _ He1) as Ho1.
    destruct o as [secret|e]; wp.
    - destruct a as [accounts|]; wp.
      + eapply run_conseq;
          [apply (processAccounts_one_account uid secret i), accountsToProcess_filter, Hi|].
        intros o w2 (hl & e2 & -> & Hhl & F2 & He2 & _).
        exists hl, (e1 ++ [ApiListAccounts uid] ++ e2). split; [reflexivity|].
        split; [|split; [|right; exact Hhl]].
        * eapply frame_trans; [exact F1|].
          eapply frame_trans; [apply frame_call | exact F2].
        * apply only_account_app; [exact Ho1|].
          apply only_account_app; [|exact He2].
          repeat constructor. discriminate.
      + eexists _, (e1 ++ [ApiListAccounts uid]). split; [reflexivity|].
        split; [eapply frame_trans; [exact F1 | apply frame_call]|].
        split; [|left; eauto].
        apply only_account_app; [exact Ho1|]. repeat constructor. discriminate.
    - eexists _, (e1 ++ [ApiListAccounts uid]). split; [reflexivity|].
      split; [eapply frame_trans; [exact F1 | apply frame_call]|].
      split; [|left; eauto].
      apply only_account_app; [exact Ho1|]. repeat constructor. discriminate.
    - eexists _, e1. split; [reflexivity|]. split; [exact F1|].
      split; [exact Ho1 | left; eauto]. }
  pose proof (run_result _ _ _ Hrun) as (hs & evs & Ho & F & Hevs & Hhs).
  destruct (fetchSnapTradeHoldings uid (Some i) w) as [o w']. simpl in *. subst o.
  exists hs, w', evs. split; [reflexivity|].
  split; [apply (frame_trace _ _ _ F)|]. split; assumption.
Qed.

(** X6: with an initialised SDK, [fetchSnapTradeHoldings] follows
    [fetchSnapTradeAccounts] run in the same world: when the listing
    throws, the holdings are the single error sentinel made from that very
    error; when it returns accounts, the holdings are those that the loop
    gathers over these accounts (filtered by [accountId]), from the world
    that the listing leaves. *)
Theorem holdings_follow_the_accounts (uid : string) (accountId : option string) w :
  sdk w = true ->
  match fetchSnapTradeAccounts uid w with
  | (Throw e, w1) =>
      fetchSnapTradeHoldings uid accountId w = (Ok [errorHolding e], w1)
  | (Ok accounts, w1) =>
      exists secret,
        (getUserSecret uid false w).1 = Ok secret /\
        fetchSnapTradeHoldings uid accountId w
        = processAccounts uid secret (accountsToProcess accountId accounts) [] w1 /\
        exists hs, (fetchSnapTradeHoldings uid accountId w).1 = Ok hs /\
                   Forall (fun h => isError h = false) hs
  end.
Proof.
  intros Hsdk.
  unfold fetchSnapTradeAccounts, fetchSnapTradeHoldings, try_catch, bind, get_world.
  cbv beta iota. rewrite Hsdk. cbn [negb].
  destruct (getUserSecret uid false w) as [[secret|e] w1]; [|reflexivity].
  unfold call.
  destruct (api_listUserAccounts uid secret (remote w1)) as [[[accounts|]|e] r1];
    try reflexivity.
  unfold ret at 1. cbn [fst].
  destruct (processAccounts_acc uid secret (accountsToProcess accountId accounts)
              (mkWorld (sdk w1) (rows w1) r1 (clock w1) (faults w1)
                       (trace w1 ++ [ApiListAccounts uid])))
    as (hl & w2 & Hhl & Hl).
  exists secret. split; [reflexivity|]. rewrite (Hl []).
  split; [reflexivity|]. exists hl. split; [reflexivity | exact Hhl].
Qed.

End HoldingsMore.

(** Two accounts are listed; asked for "acc-2" only, the first account is
    neither fetched nor reported. *)
Lemma holdings_of_one_account_witness :
  exists hs w' evs,
    fetchSnapTradeHoldings "u2" (Some "acc-2") world_syncing = (Ok hs, w') /\
    trace w' = evs /\
    only_account "acc-2" evs /\
    ((exists e, hs = [errorHolding e]) \/
     Forall (fun h => isError h = false /\ accountId h = "acc-2") hs).
Proof.
  apply (holdings_of_one_account "u2" "acc-2" world_syncing eq_refl).
  discriminate.
Defined.

(** The remote is down: the listing throws the network error, and the
    holdings are its sentinel. *)
Lemma holdings_follow_the_accounts_witness :
  exists w1,
    fetchSnapTradeAccounts "u1" (start offline t0)
      = (Throw (Js.Error "Network Error"), w1) /\
    fetchSnapTradeHoldings "u1" None (start offline t0)
      = (Ok [errorHolding (Js.Error "Network Error")], w1).
Proof.
  pose proof (holdings_follow_the_accounts "u1" None (start offline t0) eq_refl) as Hf.
  assert (Hacc : fetchSnapTradeAccounts "u1" (start offline t0)
                 = (Throw (Js.Error "Network Error"),
                    (fetchSnapTradeAccounts "u1" (start offline t0)).2))
    by (vm_compute; reflexivity).
  rewrite Hacc in Hf. eexists. split; [exact Hacc | exact Hf].
Defined.

(** ** The register route: who may register, and what a deletion leaves *)

Section RegisterRouteProps.

Context {R : Type} `{SnapTradeApi R} `{SnapTradeApiExtra R} {dates : Js.Dates}.

Implicit Types w : World R.

Lemma authorize_None (uid : string) (answer : AuthAnswer) :
  RegisterRoute.authorize uid answer = None ->
  auth_error answer = None /\ auth_user answer = Some uid.
Proof.
  unfold RegisterRoute.authorize.
  destruct (auth_error answer); [discriminate|].
  destruct (auth_user answer) as [id|]; [|discriminate].
  destruct (String.eqb id uid) eqn:E; [|discriminate].
  apply String.eqb_eq in E. subst id. auto.
Qed.

Lemma authorize_refusal (uid : string) (answer : AuthAnswer)
    (refusal : RegisterRoute.Response) :
  RegisterRoute.authorize uid answer = Some refusal ->
  RegisterRoute.body_success refusal = false /\
  In (RegisterRoute.http_status refusal) [400; 401; 403; 500].
Proof.
  unfold RegisterRoute.authorize.
  destruct (auth_error answer).
  { intros [= <-]. simpl. auto. }
  destruct (auth_user answer) as [id|].
  2:{ intros [= <-]. simpl. auto. }
  destruct (String.eqb id uid); [discriminate|].
  intros [= <-]. simpl. auto.
Qed.

(** X7: the [POST] handler never throws, and what it answers is fixed
    by the request and the session. A body that cannot be read gives
    500 with the message of the error; a body without [userId], or with
    an empty one, 400; a session check that throws, 500; a session with
    an error or without user, 401; the session of another user, 403; in
    all these cases the world is left as it is. When the session is
    that of the user named in the body, the handler runs
    [registerSnapTradeUser] once for that user and answers 200 with
    [success], the [userId] of the result and the no-store headers when
    it returns, and 500 with the message of the error and the no-store
    headers when it throws. *)
Theorem register_POST_guard (body : outcome (option string))
    (auth : outcome AuthAnswer) w :
  exists resp w',
    RegisterRoute.POST body auth w = (Ok resp, w') /\
    (forall e, body = Throw e ->
       w' = w /\ resp = RegisterRoute.failure 500 (message_of e) true) /\
    (body = Ok None \/ body = Ok (Some "") ->
       w' = w /\
       resp = RegisterRoute.failure 400 (Some "User ID is required") false) /\
    (forall uid, body = Ok (Some uid) -> uid <> "" ->
       (forall e, auth = Throw e ->
          w' = w /\ resp = RegisterRoute.failure 500 (message_of e) true) /\
       (forall answer, auth = Ok answer ->
          (auth_error answer <> None \/ auth_user answer = None ->
             w' = w /\
             resp = RegisterRoute.failure 401 (Some "User not authenticated") false) /\
          (forall id, auth_error answer = None -> auth_user answer = Some id ->
             id <> uid ->
             w' = w /\
             resp = RegisterRoute.failure 403 (Some "User ID mismatch") false) /\
          (auth_error answer = None -> auth_user answer = Some uid ->
             w' = (registerSnapTradeUser uid w).2 /\
             resp = match (registerSnapTradeUser uid w).1 with
                    | Ok u =>
                        {| RegisterRoute.http_status := 200;
                           RegisterRoute.body_success := true;
                           RegisterRoute.body_userId := userId u;
                           RegisterRoute.body_message := None;
                           RegisterRoute.body_error := None;
                           RegisterRoute.no_store := true |}
                    | Throw e => RegisterRoute.failure 500 (message_of e) true
                    end))).
Proof.
  unfold RegisterRoute.POST, try_catch.
  destruct body as [[uid|]|e].
  - destruct (String.eqb uid "") eqn:Huid.
    { apply String.eqb_eq in Huid. subst uid.
      eexists _, _. split; [reflexivity|].
      split; [discriminate|]. split; [auto|].
      intros uid [= <-] Hne. contradiction. }
    apply String.eqb_neq in Huid.
    destruct auth as [answer|e].
    + unfold RegisterRoute.authorize.
      destruct (auth_error answer) as [msg|] eqn:Herr.
      { eexists _, _. split; [reflexivity|].
        split; [discriminate|]. split; [intros [[=]|[= ->]]; contradiction|].
        intros uid' [= <-] _. split; [discriminate|].
        intros answer' [= <-]. rewrite Herr.
        split; [auto|]. split; discriminate. }
      destruct (auth_user answer) as [id|] eqn:Huser.
      2:{ eexists _, _. split; [reflexivity|].
          split; [discriminate|]. split; [intros [[=]|[= ->]]; contradiction|].
          intros uid' [= <-] _. split; [discriminate|].
          intros answer' [= <-]. rewrite Herr, Huser.
          split; [auto|]. split; [discriminate|]. discriminate. }
      destruct (String.eqb id uid) eqn:Hid.
      * apply String.eqb_eq in Hid. subst id. unfold bind.
        destruct (registerSnapTradeUser uid w) as [[u|e] w1] eqn:Hreg;
          (eexists _, _; split; [reflexivity|]);
          (split; [discriminate|]); (split; [intros [[=]|[= ->]]; contradiction|]);
          intros uid' [= <-] _; (split; [discriminate|]);
          intros answer' [= <-]; rewrite Herr, Huser;
          (split; [intros [Hc|Hc]; [contradiction | discriminate]|]);
          (split; [intros id _ [= <-] Hc; contradiction|]);
          intros _ _; rewrite Hreg; split; reflexivity.
      * apply String.eqb_neq in Hid.
        eexists _, _. split; [reflexivity|].
        split; [discriminate|]. split; [intros [[=]|[= ->]]; contradiction|].
        intros uid' [= <-] _. split; [discriminate|].
        intros answer' [= <-]. rewrite Herr, Huser.
        split; [intros [Hc|Hc]; [contradiction | discriminate]|].
        split; [auto|]. intros _ [= ->]. contradiction.
    + eexists _, _. split; [reflexivity|].
      split; [discriminate|]. split; [intros [[=]|[= ->]]; contradiction|].
      intros uid' [= <-] _. split; [intros e' [= <-]; auto|]. discriminate.
  - eexists _, _. split; [reflexivity|].
    split; [discriminate|]. split; [auto|]. discriminate.
  - eexists _, _. split; [reflexivity|].
    split; [intros e' [= <-]; auto|]. split; [intros [[=]|[=]]|]. discriminate.
Qed.

Lemma run_call_unguarded {A : Type} (e : Event) (f : R -> outcome A * R) w
    (Q : outcome A -> World R -> Prop) :
  (sdk w = true ->
   forall o r', f (remote w) = (o, r') -> Q o (after_call e r' w)) ->
  (sdk w = false ->
   Q (Throw (Js.Error "Cannot read properties of null (reading 'authentication')")) w) ->
  run (call_unguarded e f) w Q.
Proof.
  intros Hcall Hnull. unfold call_unguarded. wp.
  destruct (sdk w) eqn:Hsdk.
  - apply run_call. apply Hcall. reflexivity.
  - wp. apply Hnull. reflexivity.
Qed.

(** The two attempts to delete the remote user never throw, leave the
    table and the script of the store alone, and call the delete endpoint
    at most twice, and not at all without a secret or without SDK. *)
Lemma deleteRemoteUser_spec (uid : string) (s : option string) w :
  run (RegisterRoute.deleteRemoteUser uid s) w (fun o w' =>
    o = Ok tt /\ rows w' = rows w /\ faults w' = faults w /\
    exists evs, frame w w' evs /\
      Forall (fun e => e = ApiDelete uid) evs /\ (length evs <= 2)%nat /\
      (Js.truthy s = false \/ sdk w = false -> evs = [])).
Proof.
  unfold RegisterRoute.deleteRemoteUser.
  destruct (Js.truthy s) eqn:Hs.
  - apply run_try. apply run_call_unguarded.
    + intros Hsdk [[]|e] r' Hcall; cbv beta iota.
      * do 3 (split; [reflexivity|]). exists [ApiDelete uid].
        split; [apply frame_call|]. split; [repeat constructor|].
        split; [simpl; lia|]. intros [Hc|Hc]; congruence.
      * apply run_try. apply run_call_unguarded.
        -- intros _ [[]|e2] r2 Hcall2; cbv beta iota; wp.
           ++ do 3 (split; [reflexivity|]). eexists. split; [frames_back|].
              split; [repeat constructor|]. split; [simpl; lia|].
              intros [Hc|Hc]; congruence.
           ++ do 3 (split; [reflexivity|]). eexists. split; [frames_back|].
              split; [repeat constructor|]. split; [simpl; lia|].
              intros [Hc|Hc]; congruence.
        -- simpl. congruence.
    + intros Hsdk. apply run_try. apply run_call_unguarded.
      * congruence.
      * intros _. cbv beta iota. wp. do 3 (split; [reflexivity|]). exists [].
        split; [apply frame_refl|]. split; [constructor|].
        split; [simpl; lia | reflexivity].
  - wp. do 3 (split; [reflexivity|]). exists []. split; [apply frame_refl|].
    split; [constructor|]. split; [simpl; lia | reflexivity].
Qed.

Lemma run_returns {A : Type} (c : M (World R) A) w (Q : A -> World R -> Prop) :
  run c w (fun o w' => exists a, o = Ok a /\ Q a w') ->
  exists a w', c w = (Ok a, w') /\ Q a w'.
Proof.
  intros Hrun. pose proof (run_result _ _ _ Hrun) as (a & Ho & HQ).
  destruct (c w) as [o w']. simpl in *. subst o. eauto.
Qed.

(** X8: for the user of the session, the [DELETE] handler never throws
    and never fails because of the remote: it calls the delete endpoint
    at most twice (not at all without SDK or without stored secret),
    leaves the rows of the other users alone, and answers 200 unless the
    store refuses the update of the row, in which case it answers 500
    with "Database error" and the table is as before. *)
Theorem DELETE_survives_the_remote (uid : string) (answer : AuthAnswer) w :
  uid <> "" ->
  RegisterRoute.authorize uid answer = None ->
  exists resp w',
    RegisterRoute.DELETE (Some uid) (Ok answer) w = (Ok resp, w') /\
    (exists evs,
       trace w' = trace w ++ evs /\
       Forall (fun e => e = ApiDelete uid) evs /\ (length evs <= 2)%nat /\
       (sdk w = false \/
        Js.truthy (data (selection uid false w) ≫= api_secret_encrypted) = false ->
        evs = [])) /\
    (forall k, k <> uid -> rows w' !! k = rows w !! k) /\
    if hd false (tl (faults w)) then
      resp = RegisterRoute.failure 500 (Some "Database error: store error") false /\
      rows w' = rows w
    else
      RegisterRoute.http_status resp = 200 /\
      RegisterRoute.body_success resp = true /\
      RegisterRoute.body_message resp = Some "SnapTrade user deleted successfully".
Proof.
  intros Huid Hauth. apply run_returns.
  unfold RegisterRoute.DELETE. rewrite (eqb_empty_false _ Huid), Hauth. wp.
  eapply run_conseq; [apply deleteRemoteUser_spec|].
  intros o w1 (-> & Hrows & Hfaults & evs & F & Hevs & Hlen & Hskip).
  cbv beta iota. wp.
  assert (Hfail : failing w1 = hd false (tl (faults w))).
  { unfold failing. rewrite Hfaults. reflexivity. }
  assert (Htrace : trace w1 = trace w ++ evs) by apply (frame_trace _ _ _ F).
  assert (Hevs' : sdk w = false \/
            Js.truthy (data (selection uid false w) ≫= api_secret_encrypted) = false ->
            evs = []).
  { intros [Hc|Hc]; apply Hskip; [right; exact Hc | left; exact Hc]. }
  unfold write_error. rewrite Hfail.
  destruct (hd false (tl (faults w))); wp.
  - eexists. split; [reflexivity|]. split; [exists evs; auto|].
    split; [intros k _; simpl; rewrite Hrows; reflexivity|].
    split; [reflexivity | simpl; exact Hrows].
  - eexists. split; [reflexivity|]. split; [exists evs; auto|].
    split; [|repeat split].
    intros k Hk. simpl. rewrite lookup_alter_ne by congruence.
    rewrite Hrows. reflexivity.
Qed.

(** X9: for the user of the session and a store that takes the writes,
    the [DELETE] handler answers 200 and leaves the row of the user
    inactive, with the stored secret and key untouched and [broker_data]
    extended by [user_deleted] and [deleted_at], every other key as it
    was; the row is no longer usable as a stored secret. *)
Theorem DELETE_marks_the_row (uid : string) (answer : AuthAnswer) w (r : Row) :
  uid <> "" ->
  RegisterRoute.authorize uid answer = None ->
  faults w = [] ->
  rows w !! uid = Some r ->
  exists resp w',
    RegisterRoute.DELETE (Some uid) (Ok answer) w = (Ok resp, w') /\
    RegisterRoute.http_status resp = 200 /\
    faults w' = [] /\ sdk w' = sdk w /\ clock w' = clock w /\
    exists r',
      rows w' !! uid = Some r' /\
      is_active r' = false /\
      api_key r' = api_key r /\
      api_secret_encrypted r' = api_secret_encrypted r /\
      broker_data r' !! "user_deleted" = Some (Js.JBool true) /\
      broker_data r' !! "deleted_at" = Some (Js.JTime (clock w)) /\
      keeps_other_keys ["deleted_at"; "user_deleted"] (broker_data r) (broker_data r') /\
      usable (Some r') = false.
Proof.
  intros Huid Hauth Hf Hr. apply run_returns.
  unfold RegisterRoute.DELETE. rewrite (eqb_empty_false _ Huid), Hauth. wp.
  eapply run_conseq; [apply deleteRemoteUser_spec|].
  intros o w1 (-> & Hrows & Hfaults & evs & F & _).
  cbv beta iota. wp.
  assert (Hf1 : faults w1 = []).
  { rewrite Hfaults. simpl. rewrite Hf. reflexivity. }
  unfold write_error. rewrite (reliable_not_failing _ Hf1). wp.
  eexists. split; [reflexivity|]. split; [reflexivity|].
  split; [simpl; rewrite Hf1; reflexivity|].
  split; [apply (frame_sdk _ _ _ F)|].
  split; [apply (frame_clock _ _ _ F)|].
  unfold existingBrokerData. rewrite (selection_reliable _ _ Hf), Hr.
  eexists. split.
  { simpl. rewrite Hrows. simpl. apply altered_row, Hr. }
  rewrite (frame_clock _ _ _ F). unfold set_active_and_data.
  cbn [broker_data is_active api_key api_secret_encrypted].
  split; [reflexivity|]. split; [reflexivity|]. split; [reflexivity|].
  split; [rewrite lookup_insert_ne by discriminate; apply lookup_insert_eq|].
  split; [apply lookup_insert_eq|].
  split; [|reflexivity].
  intros k Hk. apply not_elem_of_2 in Hk as [Hk1 Hk2]. simpl.
  rewrite !lookup_insert_ne by congruence. reflexivity.
Qed.

End RegisterRouteProps.

(** "u1", signed in, registers; asking for "u2" is refused and nothing
    happens. *)
Lemma register_POST_guard_witness :
  (RegisterRoute.POST (Ok (Some "u1")) session_u1 (start registering t0)).1
  = Ok {| RegisterRoute.http_status := 200;
          RegisterRoute.body_success := true;
          RegisterRoute.body_userId := Some "u1";
          RegisterRoute.body_message := None;
          RegisterRoute.body_error := None;
          RegisterRoute.no_store := true |} /\
  RegisterRoute.POST (Ok (Some "u2")) session_u1 (start registering t0)
  = (Ok (RegisterRoute.failure 403 (Some "User ID mismatch") false),
     start registering t0).
Proof.
  split.
  - destruct (register_POST_guard (Ok (Some "u1")) session_u1 (start registering t0))
      as (resp & w' & Hrun & _ & _ & Hu).
    assert (Hne : "u1" <> "") by discriminate.
    destruct (Hu "u1" eq_refl Hne) as [_ Ha].
    destruct (Ha _ eq_refl) as (_ & _ & Hreg).
    destruct (Hreg eq_refl eq_refl) as [_ ->].
    rewrite Hrun. vm_compute. reflexivity.
  - destruct (register_POST_guard (Ok (Some "u2")) session_u1 (start registering t0))
      as (resp & w' & Hrun & _ & _ & Hu).
    assert (Hne : "u2" <> "") by discriminate.
    destruct (Hu "u2" eq_refl Hne) as [_ Ha].
    destruct (Ha _ eq_refl) as (_ & Hmis & _).
    assert (Hid : "u1" <> "u2") by discriminate.
    destruct (Hmis "u1" eq_refl eq_refl Hid) as [-> ->].
    exact Hrun.
Defined.

(** "u1" holds a secret and the remote is down: both deletions fail, the
    answer is 200 all the same. *)
Lemma DELETE_survives_the_remote_witness :
  exists resp w',
    RegisterRoute.DELETE (Some "u1") session_u1
      (world_u1 (real_row (registered_ago ms_per_day))) = (Ok resp, w') /\
    RegisterRoute.http_status resp = 200 /\
    RegisterRoute.body_success resp = true.
Proof.
  destruct (DELETE_survives_the_remote "u1"
              {| auth_user := Some "u1"; auth_error := None |}
              (world_u1 (real_row (registered_ago ms_per_day))))
    as (resp & w' & Hd & _ & _ & Hst).
  - discriminate.
  - reflexivity.
  - exists resp, w'. split; [exact Hd|]. simpl in Hst. tauto.
Defined.

Lemma DELETE_marks_the_row_witness :
  exists resp w' r',
    RegisterRoute.DELETE (Some "u1") session_u1
      (world_u1 (real_row (registered_ago ms_per_day))) = (Ok resp, w') /\
    rows w' !! "u1" = Some r' /\
    is_active r' = false /\
    api_secret_encrypted r' = Some "real-secret-1" /\
    broker_data r' !! "registration_method" = Some (Js.JStr "direct").
Proof.
  destruct (DELETE_marks_the_row "u1"
              {| auth_user := Some "u1"; auth_error := None |}
              (world_u1 (real_row (registered_ago ms_per_day)))
              (real_row (registered_ago ms_per_day)))
    as (resp & w' & Hd & _ & _ & _ & _ & r' & Hr' & Ha & _ & Hs & _ & _ & Hk & _).
  - discriminate.
  - reflexivity.
  - reflexivity.
  - reflexivity.
  - exists resp, w', r'. split; [exact Hd|]. split; [exact Hr'|].
    split; [exact Ha|]. split; [exact Hs|].
    rewrite Hk; [reflexivity|].
    intros Hin. apply list_elem_of_In in Hin. simpl in Hin.
    destruct Hin as [Hin|[Hin|[]]]; discriminate.
Defined.

(** ** An inactive row: the next read registers the user again *)

(** Closes [only_keys] and [keeps_other_keys] goals on a chain of
    insertions; [Hk] is the assumption that the key is not listed. *)
Ltac other_key Hk :=
  repeat (rewrite lookup_insert_ne;
          [| intros <-; apply Hk; apply list_elem_of_In; simpl; tauto ]);
  try (rewrite lookup_singleton_ne;
       [| intros <-; apply Hk; apply list_elem_of_In; simpl; tauto ]);
  try reflexivity.

(** Closes the goal left at the end of a path through the registration:
    the world is written out, the row is read back through the writes. *)
Ltac rewritten Hf :=
  world_simpl Hf;
  split; [reflexivity|]; split; [reflexivity|];
  split; [eexists; rewrite <- ?app_assoc; simpl; reflexivity|];
  eexists; split;
    [rewrite ?lookup_alter_eq, lookup_insert_eq; simpl; reflexivity|];
  split; [intros k Hk; simpl; other_key Hk | simpl; auto].

Section Reregistration.

Context {R : Type} `{SnapTradeApi R} {dates : Js.Dates}.

Implicit Types w : World R.

Lemma inactive_unregistered (uid : string) w (r : Row) :
  rows w !! uid = Some r -> is_active r = false -> unregistered uid w.
Proof. intros Hr Ha r' Hr' Ha'. congruence. Qed.

(** With a store that takes the writes, a registration that does not
    short-circuit calls the register endpoint for the user and leaves a
    row made of what it wrote only; when it returns, the row is active
    and holds the secret returned. *)
Lemma registerSnapTradeUser_rewrites_row (uid : string) w :
  sdk w = true ->
  faults w = [] ->
  unregistered uid w ->
  run (registerSnapTradeUser uid) w (fun o w' =>
    faults w' = [] /\ clock w' = clock w /\
    (exists rest,
       trace w' = trace w ++ CallRegisterSnapTradeUser uid :: ApiRegister uid :: rest) /\
    exists r',
      rows w' !! uid = Some r' /\
      only_keys registration_keys (broker_data r') /\
      match o with
      | Ok u => is_active r' = true /\ api_secret_encrypted r' = userSecret u
      | Throw _ => True
      end).
Proof.
  intros Hsdk Hf Hun. unfold registerSnapTradeUser. wp.
  change (sdk (log (CallRegisterSnapTradeUser uid) w)) with (sdk w).
  rewrite Hsdk. cbn [negb]. wp.
  eapply run_conseq; [apply lookupExisting_spec|].
  intros o w1 (-> & ->). cbv beta iota.
  change (selection uid true (log (CallRegisterSnapTradeUser uid) w))
    with (selection uid true w).
  rewrite (unregistered_lookup _ _ Hf Hun).
  unfold writePlaceholder, directRegistration. wp.
  - destruct (has_userSecret a) as [d|] eqn:Hd; wp.
    + rewritten Hf.
    + unfold onRegisterError. rewrite Error_not_already_exists.
      unfold markRegistrationFailed. wp. rewritten Hf.
  - unfold onRegisterError. destruct (is_already_exists e) eqn:He.
    + unfold onUserAlreadyExists. wp. world_simpl Hf. world_simpl Hf.
      rewrite lookup_insert_eq.
      cbn [negb orb is_active data mbind option_bind api_secret_encrypted].
      change (real_secret (Some pending_registration)) with false. cbv iota.
      unfold registerModifiedId. wp.
      * destruct (has_userSecret _) as [d|] eqn:Hd; wp.
        -- rewritten Hf.
        -- unfold fallbackFakeSecret. wp. rewritten Hf.
      * unfold fallbackFakeSecret. wp. rewritten Hf.
    + unfold markRegistrationFailed. wp. rewritten Hf.
Qed.

(** X10: with an initialised SDK and a store that takes the writes, an
    inactive row (as left by a deletion, a disconnection or a failed
    registration) makes [getUserSecret] register the user again: the
    register endpoint is called for the user, and the row left is active,
    holds the secret returned, and has a [broker_data] made of what the
    registration wrote only; the markers of the deletion are gone. *)
Theorem inactive_row_is_registered_again (uid : string) (force : bool) w (r : Row) :
  sdk w = true ->
  faults w = [] ->
  rows w !! uid = Some r ->
  is_active r = false ->
  exists s w',
    getUserSecret uid force w = (Ok s, w') /\
    (exists rest,
       trace w' = trace w ++ CallRegisterSnapTradeUser uid :: ApiRegister uid :: rest) /\
    exists r',
      rows w' !! uid = Some r' /\
      is_active r' = true /\
      api_secret_encrypted r' = s /\
      only_keys registration_keys (broker_data r').
Proof.
  intros Hsdk Hf Hr Ha. apply run_returns.
  pose proof (reliable_not_failing _ Hf) as Hnf.
  assert (Hu : usable (Some r) = false) by (simpl; rewrite Ha; reflexivity).
  unfold getUserSecret. wp.
  rewrite (selection_ok _ _ Hnf), (after_store_id _ Hf), Hr. cbn [error data]. wp.
  rewrite (usable_false_not_cached _ _ _ Hu). wp.
  eapply run_conseq;
    [apply (registerSnapTradeUser_rewrites_row uid w Hsdk Hf),
       (inactive_unregistered _ _ _ Hr Ha)|].
  intros o w1 (Hf1 & Hc1 & (rest & Ht1) & r1 & Hr1 & Hk1 & Ho).
  destruct o as [u|e]; wp.
  - destruct Ho as [Ha1 Hs1]. eexists. split; [reflexivity|].
    split; [exists rest; exact Ht1|]. exists r1. auto.
  - rewrite Hu. unfold emergencyFallback. wp. world_simpl Hf1.
    eexists. split; [reflexivity|]. split; [exists rest; exact Ht1|].
    eexists. split; [apply lookup_insert_eq|].
    split; [reflexivity|]. split; [reflexivity|].
    intros k Hk. simpl. other_key Hk.
Qed.

End Reregistration.

(** "u1" is deleted through the route; the next read of the secret
    registers "u1" again and the row is active. *)
Lemma inactive_row_is_registered_again_witness :
  exists resp w1 s w2 r',
    RegisterRoute.DELETE (Some "u1") session_u1
      (with_rows {[ "u1" := real_row (registered_ago ms_per_day) ]}
         (start registering t0)) = (Ok resp, w1) /\
    RegisterRoute.body_success resp = true /\
    getUserSecret "u1" false w1 = (Ok s, w2) /\
    rows w2 !! "u1" = Some r' /\
    is_active r' = true /\
    broker_data r' !! "user_deleted" = None.
Proof.
  set (w := with_rows {[ "u1" := real_row (registered_ago ms_per_day) ]}
              (start registering t0)).
  set (w1 := (RegisterRoute.DELETE (Some "u1") session_u1 w).2).
  assert (Hd : exists resp,
             RegisterRoute.DELETE (Some "u1") session_u1 w = (Ok resp, w1) /\
             RegisterRoute.body_success resp = true)
    by (eexists; split; vm_compute; reflexivity).
  destruct Hd as (resp & Hd & Hok).
  assert (Hr : exists r, rows w1 !! "u1" = Some r /\ is_active r = false)
    by (eexists; split; vm_compute; reflexivity).
  destruct Hr as (r & Hr & Ha).
  destruct (inactive_row_is_registered_again "u1" false w1 r eq_refl eq_refl Hr Ha)
    as (s & w2 & Hg & _ & r' & Hr' & Ha' & _ & Hk).
  exists resp, w1, s, w2, r'. split; [exact Hd|]. split; [exact Hok|].
  split; [exact Hg|]. split; [exact Hr'|]. split; [exact Ha'|].
  apply Hk. intros Hin. apply list_elem_of_In in Hin. simpl in Hin.
  repeat (destruct Hin as [Hin|Hin]; [discriminate Hin|]). exact Hin.
Defined.

(** ** The sync route *)

Section SyncRouteProps.

Context {R : Type} `{SnapTradeApi R} {dates : Js.Dates}.

Implicit Types w : World R.

Lemma fetchSnapTradeAccounts_sdk (uid : string) w :
  run (fetchSnapTradeAccounts uid) w (fun o w' => sdk w' = sdk w).
Proof.
  unfold fetchSnapTradeAccounts. wp. destruct (negb (sdk w)); wp; [reflexivity|].
  eapply run_conseq; [apply getUserSecret_spec|].
  intros o w1 ((evs & F & _) & _). pose proof (frame_sdk _ _ _ F) as Hsdk.
  destruct o as [secret|e]; wp; try exact Hsdk.
  destruct a; wp; exact Hsdk.
Qed.

Lemma fetchSnapTradeAccounts_without_sdk (uid : string) w :
  sdk w = false ->
  fetchSnapTradeAccounts uid w
  = (Throw (Js.Error "SnapTrade SDK not initialized"), w).
Proof.
  intros Hsdk. unfold fetchSnapTradeAccounts, bind, get_world. rewrite Hsdk.
  reflexivity.
Qed.

Lemma fetchSnapTradeHoldings_without_sdk (uid : string) (accountId : option string) w :
  sdk w = false ->
  fetchSnapTradeHoldings uid accountId w
  = (Throw (Js.Error "SnapTrade SDK not initialized"), w).
Proof.
  intros Hsdk. unfold fetchSnapTradeHoldings, bind, get_world. rewrite Hsdk.
  reflexivity.
Qed.

Lemma fetchSnapTradeHoldings_returns (uid : string) (accountId : option string) w :
  sdk w = true ->
  exists hs w', fetchSnapTradeHoldings uid accountId w = (Ok hs, w').
Proof.
  intros Hsdk. unfold fetchSnapTradeHoldings, try_catch, bind, get_world.
  cbv beta iota. rewrite Hsdk. cbn [negb].
  destruct (getUserSecret uid false w) as [[secret|e] w1]; [|eexists _, _; reflexivity].
  unfold call.
  destruct (api_listUserAccounts uid secret (remote w1)) as [[[accounts|]|e] r1];
    try (eexists _, _; reflexivity).
  destruct (processAccounts_acc uid secret (accountsToProcess accountId accounts)
              (mkWorld (sdk w1) (rows w1) r1 (clock w1) (faults w1)
                       (trace w1 ++ [ApiListAccounts uid])))
    as (hl & w2 & _ & Hl).
  rewrite (Hl []). eexists _, _. reflexivity.
Qed.

(** X11: the [POST] handler of the sync route never throws. A session
    check that throws gives 500 with the message of the error, without
    success and with status "failed"; a session with an error gives 401
    "Authentication error" and one without user 401 "User not
    authenticated"; in these cases the lists are empty and the world is
    left as it is. For a session user it answers 200 with [success]
    whatever the remote and the store do: with an initialised SDK the
    holdings are those of [fetchSnapTradeHoldings], run after the
    account listing, and the status is "partial" exactly when the
    account listing threw; without SDK both lists are empty, nothing is
    called, and the status is "partial" with the message about the
    holdings. *)
Theorem sync_POST_envelope (auth : outcome AuthAnswer) w :
  exists resp w',
    SyncRoute.POST auth w = (Ok resp, w') /\
    (forall e, auth = Throw e ->
       w' = w /\
       resp = {| SyncRoute.http_status := 500;
                 SyncRoute.body_error := message_of e;
                 SyncRoute.body_success := Some false;
                 SyncRoute.syncStatus := Some "failed";
                 SyncRoute.syncMessage := message_of e;
                 SyncRoute.body_accounts := []; SyncRoute.body_holdings := [] |}) /\
    (forall answer, auth = Ok answer ->
       (auth_error answer <> None ->
          w' = w /\
          resp = {| SyncRoute.http_status := 401;
                    SyncRoute.body_error := Some "Authentication error";
                    SyncRoute.body_success := None;
                    SyncRoute.syncStatus := None; SyncRoute.syncMessage := None;
                    SyncRoute.body_accounts := []; SyncRoute.body_holdings := [] |}) /\
       (auth_error answer = None -> auth_user answer = None ->
          w' = w /\
          resp = {| SyncRoute.http_status := 401;
                    SyncRoute.body_error := Some "User not authenticated";
                    SyncRoute.body_success := None;
                    SyncRoute.syncStatus := None; SyncRoute.syncMessage := None;
                    SyncRoute.body_accounts := []; SyncRoute.body_holdings := [] |}) /\
       (forall uid, auth_error answer = None -> auth_user answer = Some uid ->
          SyncRoute.http_status resp = 200 /\
          SyncRoute.body_success resp = Some true /\
          SyncRoute.body_error resp = None /\
          if sdk w then
            fetchSnapTradeHoldings uid None (fetchSnapTradeAccounts uid w).2
              = (Ok (SyncRoute.body_holdings resp), w') /\
            match (fetchSnapTradeAccounts uid w).1 with
            | Ok accounts =>
                SyncRoute.body_accounts resp = accounts /\
                SyncRoute.syncStatus resp = Some "success" /\
                SyncRoute.syncMessage resp = Some "Data synchronized successfully"
            | Throw _ =>
                SyncRoute.body_accounts resp = [] /\
                SyncRoute.syncStatus resp = Some "partial" /\
                SyncRoute.syncMessage resp
                  = Some "Could not fetch all account information"
            end
          else
            w' = w /\
            SyncRoute.body_accounts resp = [] /\ SyncRoute.body_holdings resp = [] /\
            SyncRoute.syncStatus resp = Some "partial" /\
            SyncRoute.syncMessage resp
              = Some "Could not fetch all holdings information")).
Proof.
  unfold SyncRoute.POST.
  destruct auth as [answer|e].
  2:{ eexists _, _. split; [reflexivity|].
      split; [intros e' [= <-]; auto | discriminate]. }
  destruct (auth_error answer) as [msg|] eqn:Herr.
  { eexists _, _. split; [reflexivity|]. split; [discriminate|].
    intros answer' [= <-]. rewrite Herr.
    split; [auto|]. split; discriminate. }
  destruct (auth_user answer) as [uid|] eqn:Huser.
  2:{ eexists _, _. split; [reflexivity|]. split; [discriminate|].
      intros answer' [= <-]. rewrite Herr, Huser.
      split; [intros Hc; contradiction|]. split; [auto|]. discriminate. }
  destruct (sdk w) eqn:Hsdk.
  - pose proof (run_result _ _ _ (fetchSnapTradeAccounts_sdk uid w)) as Hsdk1.
    simpl in Hsdk1. rewrite Hsdk in Hsdk1.
    destruct (fetchSnapTradeHoldings_returns uid None _ Hsdk1) as (hs & w' & Hh).
    unfold try_catch, bind.
    destruct (fetchSnapTradeAccounts uid w) as [[accounts|e] w1] eqn:Hacc;
      simpl in Hh |- *; rewrite Hh; simpl; eexists _, _; (split; [reflexivity|]);
      (split; [discriminate|]); intros answer' [= <-]; rewrite Herr, Huser;
      (split; [intros Hc; contradiction|]); (split; [discriminate|]);
      intros uid' _ [= <-]; rewrite ?Hacc; simpl; repeat split; auto.
  - unfold try_catch, bind.
    rewrite (fetchSnapTradeAccounts_without_sdk _ _ Hsdk). simpl.
    rewrite (fetchSnapTradeHoldings_without_sdk _ _ _ Hsdk). simpl.
    eexists _, _. split; [reflexivity|]. split; [discriminate|].
    intros answer' [= <-]. rewrite Herr, Huser.
    split; [intros Hc; contradiction|]. split; [discriminate|].
    intros uid' _ [= <-]. simpl. repeat split; auto.
Qed.

End SyncRouteProps.

(** Without session user nothing is read; for "u2" the accounts are
    listed and the holdings of both accounts are returned. *)
Lemma sync_POST_envelope_witness :
  SyncRoute.POST (Ok {| auth_user := None; auth_error := None |}) world_syncing
  = (Ok (SyncRoute.unauthorized "User not authenticated"), world_syncing) /\
  exists resp w',
    SyncRoute.POST (Ok {| auth_user := Some "u2"; auth_error := None |}) world_syncing
    = (Ok resp, w') /\
    SyncRoute.http_status resp = 200 /\
    SyncRoute.body_accounts resp = [acct1; acct2] /\
    SyncRoute.syncStatus resp = Some "success" /\
    List.map symbol (SyncRoute.body_holdings resp)
    = [SymbolStr "PENDING"; SymbolStr "AAPL"; SymbolStr "CASH"].
Proof.
  split.
  - destruct (sync_POST_envelope (Ok {| auth_user := None; auth_error := None |})
                world_syncing) as (resp & w' & Hrun & _ & Ha).
    destruct (Ha _ eq_refl) as (_ & Hnone & _).
    destruct (Hnone eq_refl eq_refl) as [-> ->]. exact Hrun.
  - destruct (sync_POST_envelope (Ok {| auth_user := Some "u2"; auth_error := None |})
                world_syncing) as (resp & w' & Hrun & _ & Ha).
    destruct (Ha _ eq_refl) as (_ & _ & Hu).
    destruct (Hu "u2" eq_refl eq_refl) as (Hs & _ & _ & Hsdk).
    change (sdk world_syncing) with true in Hsdk. cbv iota in Hsdk.
    destruct Hsdk as [Hh Hacc].
    exists resp, w'. split; [exact Hrun|]. split; [exact Hs|].
    vm_compute in Hacc. destruct Hacc as (Hl & Hst & _).
    split; [exact Hl|]. split; [exact Hst|].
    apply (f_equal fst) in Hh.
    remember (SyncRoute.body_holdings resp) as hs eqn:E. clear E.
    vm_compute in Hh. injection Hh as <-. reflexivity.
Defined.

(** ** Disconnecting a brokerage *)

Section ConnectionsProps.

Context {R : Type} `{SnapTradeApi R} `{SnapTradeApiExtra R} {dates : Js.Dates}.

Variable authorizationId_of : Account -> option string.

Implicit Types w : World R.

Lemma run_known {A : Type} (c : M (World R) A) w (o : outcome A) (w1 : World R)
    (Q : outcome A -> World R -> Prop) :
  c w = (o, w1) -> Q o w1 -> run c w Q.
Proof. intros Hc HQ o' w' Heq. rewrite Hc in Heq. injection Heq as <- <-. exact HQ. Qed.

Lemma run_call_extra {A : Type} (f : R -> outcome A * R) w
    (Q : outcome A -> World R -> Prop) :
  (forall o r', f (remote w) = (o, r') ->
     Q o (mkWorld (sdk w) (rows w) r' (clock w) (faults w) (trace w))) ->
  run (call_extra f) w Q.
Proof.
  intros HQ o w'. unfold call_extra.
  destruct (f (remote w)) as [o1 r1] eqn:E.
  intros [= <- <-]. apply HQ. reflexivity.
Qed.

Lemma listed (uid : string) (secret : option string) w
    (o : outcome (option (list Account))) (r1 : R) :
  api_listUserAccounts uid secret (remote w) = (o, r1) ->
  call (ApiListAccounts uid) (api_listUserAccounts uid secret) w
  = (o, after_call (ApiListAccounts uid) r1 w).
Proof. intros Hl. unfold call. rewrite Hl. reflexivity. Qed.

(** X12: when no listed account belongs to the authorization,
    [deleteSnapTradeConnection] reports success although nothing was
    removed: it returns [true] right after the listing, without any
    write; the row of the user stays as the secret retrieval left it. *)
Theorem disconnect_unknown_authorization (uid authorizationId : string) w
    (secret : option string) (w1 : World R) (accounts : list Account) (r1 : R) :
  sdk w = true ->
  getUserSecret uid false w = (Ok secret, w1) ->
  api_listUserAccounts uid secret (remote w1) = (Ok (Some accounts), r1) ->
  Forall (fun acc => authorizationId_of acc <> Some authorizationId) accounts ->
  deleteSnapTradeConnection authorizationId_of uid authorizationId w
  = (Ok true, after_call (ApiListAccounts uid) r1 w1).
Proof.
  intros Hsdk Hsecret Hlist Hnone.
  assert (Hfind : List.find
            (fun acc => bool_decide (authorizationId_of acc = Some authorizationId))
            accounts = None).
  { clear Hlist. induction Hnone as [|a l Ha _ IH]; [reflexivity|]. simpl.
    rewrite bool_decide_eq_false_2 by exact Ha. exact IH. }
  unfold deleteSnapTradeConnection.
  erewrite bind_ok by reflexivity. rewrite Hsdk. cbn [negb].
  erewrite bind_ok by exact Hsecret.
  erewrite bind_ok by (apply listed, Hlist).
  cbv beta iota. rewrite Hfind. reflexivity.
Qed.

(** X13: when a listed account belongs to the authorization and the store
    takes the writes, [deleteSnapTradeConnection] returns [true] whatever
    the two removal endpoints answer, and leaves the row of the user
    inactive, with the secret kept and [broker_data] extended by
    [authorization_id] and [disconnected_at], every other key as it was. *)
Theorem disconnect_marks_the_row (uid authorizationId : string) w
    (secret : option string) (w1 : World R) (accounts : list Account) (r1 : R)
    (account : Account) (r : Row) :
  sdk w = true ->
  getUserSecret uid false w = (Ok secret, w1) ->
  api_listUserAccounts uid secret (remote w1) = (Ok (Some accounts), r1) ->
  List.find (fun acc => bool_decide (authorizationId_of acc = Some authorizationId))
    accounts = Some account ->
  faults w1 = [] ->
  rows w1 !! uid = Some r ->
  exists w' r',
    deleteSnapTradeConnection authorizationId_of uid authorizationId w = (Ok true, w') /\
    trace w' = trace w1 ++ [ApiListAccounts uid] /\
    rows w' !! uid = Some r' /\
    is_active r' = false /\
    api_secret_encrypted r' = api_secret_encrypted r /\
    broker_data r' !! "authorization_id" = Some (Js.JStr authorizationId) /\
    broker_data r' !! "disconnected_at" = Some (Js.JTime (clock w1)) /\
    keeps_other_keys ["disconnected_at"; "authorization_id"]
      (broker_data r) (broker_data r').
Proof.
  intros Hsdk Hsecret Hlist Hfind Hf Hr.
  assert (Hrun : run (deleteSnapTradeConnection authorizationId_of uid authorizationId) w
            (fun o w' => exists b, o = Ok b /\ exists r',
               b = true /\
               trace w' = trace w1 ++ [ApiListAccounts uid] /\
               rows w' !! uid = Some r' /\
               is_active r' = false /\
               api_secret_encrypted r' = api_secret_encrypted r /\
               broker_data r' !! "authorization_id" = Some (Js.JStr authorizationId) /\
               broker_data r' !! "disconnected_at" = Some (Js.JTime (clock w1)) /\
               keeps_other_keys ["disconnected_at"; "authorization_id"]
                 (broker_data r) (broker_data r'))).
  { unfold deleteSnapTradeConnection. wp. rewrite Hsdk. cbn [negb]. wp.
    eapply run_known; [exact Hsecret|]. cbv beta iota. apply run_bind.
    eapply run_known; [apply listed, Hlist|]. cbv beta iota.
    rewrite Hfind. cbv beta iota. wp.
    apply run_call_extra. intros o1 r2 _.
    assert (Hnext : forall r3 : R,
      run (try_catch
             (call_extra (api_deleteUserAccount uid secret (account_id account)))
             (fun _ => ret tt) ;;
           dbError <- markDisconnected uid authorizationId ;;
           match dbError with
           | Some msg => throw (Js.Error ("Database error: " +:+ msg))
           | None => ret true
           end)
          (mkWorld (sdk w1) (rows w1) r3 (clock w1) (faults w1)
                   (trace w1 ++ [ApiListAccounts uid]))
          (fun o w' => exists b, o = Ok b /\ exists r',
             b = true /\
             trace w' = trace w1 ++ [ApiListAccounts uid] /\
             rows w' !! uid = Some r' /\
             is_active r' = false /\
             api_secret_encrypted r' = api_secret_encrypted r /\
             broker_data r' !! "authorization_id" = Some (Js.JStr authorizationId) /\
             broker_data r' !! "disconnected_at" = Some (Js.JTime (clock w1)) /\
             keeps_other_keys ["disconnected_at"; "authorization_id"]
               (broker_data r) (broker_data r'))).
    { intros r3. wp. apply run_call_extra. intros o2 r4 _.
      assert (Hmark : forall r5 : R,
        run (dbError <- markDisconnected uid authorizationId ;;
             match dbError with
             | Some msg => throw (Js.Error ("Database error: " +:+ msg))
             | None => ret true
             end)
            (mkWorld (sdk w1) (rows w1) r5 (clock w1) (faults w1)
                     (trace w1 ++ [ApiListAccounts uid]))
            (fun o w' => exists b, o = Ok b /\ exists r',
               b = true /\
               trace w' = trace w1 ++ [ApiListAccounts uid] /\
               rows w' !! uid = Some r' /\
               is_active r' = false /\
               api_secret_encrypted r' = api_secret_encrypted r /\
               broker_data r' !! "authorization_id" = Some (Js.JStr authorizationId) /\
               broker_data r' !! "disconnected_at" = Some (Js.JTime (clock w1)) /\
               keeps_other_keys ["disconnected_at"; "authorization_id"]
                 (broker_data r) (broker_data r'))).
      { intros r5. unfold markDisconnected. wp.
        unfold write_error, existingBrokerData, selection, failing, after_store.
        cbn [sdk rows remote clock faults trace]. rewrite Hf. cbn [hd tl].
        rewrite Hr. cbn [negb orb data]. wp.
        exists true. split; [reflexivity|]. eexists.
        split; [reflexivity|]. split; [reflexivity|].
        split; [cbn [rows]; apply altered_row, Hr|].
        unfold set_active_and_data.
        cbn [broker_data is_active api_secret_encrypted].
        split; [reflexivity|]. split; [reflexivity|].
        split; [rewrite lookup_insert_ne by discriminate; apply lookup_insert_eq|].
        split; [apply lookup_insert_eq|].
        intros k Hk. apply not_elem_of_2 in Hk as [Hk1 Hk2].
        rewrite !lookup_insert_ne by congruence. reflexivity. }
      destruct o2 as [[]|e2]; cbv beta iota; [|apply run_ret; cbv beta iota];
        apply Hmark. }
    destruct o1 as [[]|e1]; cbv beta iota; [|apply run_ret; cbv beta iota];
      apply Hnext. }
  destruct (run_returns _ _ _ Hrun) as (b & w' & Hd & r' & -> & Hrest).
  exists w', r'. split; [exact Hd | exact Hrest].
Qed.

End ConnectionsProps.

(** No listed account belongs to "auth-9": success is reported, the row is
    as before. *)
Lemma disconnect_unknown_authorization_witness :
  exists w',
    deleteSnapTradeConnection sample_authorization "u1" "auth-9" world_connected
      = (Ok true, w') /\
    rows w' = rows world_connected.
Proof.
  assert (Hsecret : getUserSecret "u1" false world_connected
                    = (Ok (Some "real-secret-1"), world_connected))
    by (vm_compute; reflexivity).
  assert (Hlist : api_listUserAccounts "u1" (Some "real-secret-1")
                    (remote world_connected)
                  = (Ok (Some [acct1; acct2]), removal_refused))
    by reflexivity.
  eexists. split.
  - apply (disconnect_unknown_authorization sample_authorization "u1" "auth-9"
             world_connected (Some "real-secret-1") world_connected
             [acct1; acct2] removal_refused eq_refl Hsecret Hlist).
    repeat constructor; discriminate.
  - reflexivity.
Defined.

(** The removals are refused by the remote; the row is marked all the
    same. *)
Lemma disconnect_marks_the_row_witness :
  exists w' r',
    deleteSnapTradeConnection sample_authorization "u1" "auth-1" world_connected
      = (Ok true, w') /\
    rows w' !! "u1" = Some r' /\
    is_active r' = false /\
    broker_data r' !! "authorization_id" = Some (Js.JStr "auth-1") /\
    broker_data r' !! "registration_method" = Some (Js.JStr "direct").
Proof.
  assert (Hsecret : getUserSecret "u1" false world_connected
                    = (Ok (Some "real-secret-1"), world_connected))
    by (vm_compute; reflexivity).
  assert (Hlist : api_listUserAccounts "u1" (Some "real-secret-1")
                    (remote world_connected)
                  = (Ok (Some [acct1; acct2]), removal_refused))
    by reflexivity.
  assert (Hfind : List.find
            (fun acc => bool_decide (sample_authorization acc = Some "auth-1"))
            [acct1; acct2] = Some acct1)
    by (vm_compute; reflexivity).
  assert (Hrow : rows world_connected !! "u1"
                 = Some (real_row (registered_ago ms_per_day)))
    by (vm_compute; reflexivity).
  destruct (disconnect_marks_the_row sample_authorization "u1" "auth-1"
              world_connected (Some "real-secret-1") world_connected
              [acct1; acct2] removal_refused acct1
              (real_row (registered_ago ms_per_day))
              eq_refl Hsecret Hlist Hfind eq_refl Hrow)
    as (w' & r' & Hd & _ & Hr' & Ha & _ & Hid & _ & Hk).
  exists w', r'. split; [exact Hd|]. split; [exact Hr'|].
  split; [exact Ha|]. split; [exact Hid|].
  rewrite Hk; [reflexivity|].
  intros Hin. apply list_elem_of_In in Hin. simpl in Hin.
  destruct Hin as [Hin|[Hin|[]]]; discriminate.
Defined.

(** ** The dashboard page: grouping by category *)

Section DashboardProps.

Implicit Types (l : list Dashboard.AssetRow) (g : gmap string (list Dashboard.AssetRow)).

Lemma in_category_cons (slug : string) (a : Dashboard.AssetRow) l :
  in_category slug (a :: l)
  = if String.eqb (Dashboard.categorySlug a) slug then a :: in_category slug l
    else in_category slug l.
Proof. reflexivity. Qed.

(** The loop from any object on: a group is what it was, followed by the
    assets of its category; no group is made for a category without
    asset. *)
Lemma groupAssets_spec l g0 :
  match Dashboard.groupAssets l g0 with
  | Ok g =>
      Forall (fun a => Dashboard.inherited (Dashboard.categorySlug a) = false) l /\
      forall slug,
        default [] (g !! slug) = default [] (g0 !! slug) ++ in_category slug l /\
        (g !! slug = None <-> g0 !! slug = None /\ in_category slug l = [])
  | Throw e =>
      Exists (fun a => Dashboard.inherited (Dashboard.categorySlug a) = true) l
  end.
Proof.
  revert g0. induction l as [|a l IH]; intros g0; cbn [Dashboard.groupAssets].
  - split; [constructor|]. intros slug. unfold in_category. simpl. rewrite app_nil_r. split; [reflexivity|tauto].
  - destruct (Dashboard.inherited (Dashboard.categorySlug a)) eqn:Hin.
    { apply Exists_cons_hd. exact Hin. }
    specialize (IH (<[Dashboard.categorySlug a :=
                       default [] (g0 !! Dashboard.categorySlug a) ++ [a]]> g0)).
    destruct (Dashboard.groupAssets l _) as [g|e].
    + destruct IH as [Hall Hg]. split; [constructor; assumption|].
      intros slug. destruct (Hg slug) as [Hd Hn]. rewrite in_category_cons.
      destruct (String.eqb (Dashboard.categorySlug a) slug) eqn:E.
      * apply String.eqb_eq in E. subst slug.
        rewrite lookup_insert_eq in Hd, Hn. simpl in Hd. split.
        -- rewrite Hd, <- app_assoc. reflexivity.
        -- split; [intros Hc; apply Hn in Hc as [Hc _]; discriminate Hc|].
           intros [_ Hc]. discriminate Hc.
      * apply String.eqb_neq in E.
        rewrite lookup_insert_ne in Hd, Hn by exact E. split; assumption.
    + apply Exists_cons_tl. exact IH.
Qed.

(** X14: the grouping of the page fails with a [TypeError] exactly when
    some asset has a category slug that names a property inherited by
    every object (such as "constructor"); otherwise the group of every
    slug holds exactly the assets of that category, in the order of the
    query, and a slug without asset has no group. *)
Theorem assetsByCategory_groups l :
  match Dashboard.assetsByCategory (Some l) with
  | Ok g =>
      Forall (fun a => Dashboard.inherited (Dashboard.categorySlug a) = false) l /\
      forall slug,
        g !! slug = match in_category slug l with
                    | [] => None
                    | assets => Some assets
                    end
  | Throw e =>
      Exists (fun a => Dashboard.inherited (Dashboard.categorySlug a) = true) l
  end.
Proof.
  unfold Dashboard.assetsByCategory.
  pose proof (groupAssets_spec l ∅) as Hspec.
  destruct (Dashboard.groupAssets l ∅) as [g|e]; [|exact Hspec].
  destruct Hspec as [Hall Hg]. split; [exact Hall|].
  intros slug. destruct (Hg slug) as [Hd Hn].
  rewrite lookup_empty in Hd, Hn. simpl in Hd.
  destruct (in_category slug l) as [|a m] eqn:Hm.
  - apply Hn. auto.
  - destruct (g !! slug) as [assets|] eqn:Hs.
    + simpl in Hd. congruence.
    + destruct (proj1 Hn eq_refl) as [_ Hc]. discriminate Hc.
Qed.

Lemma in_category_inherited l (slug : string) :
  Forall (fun a => Dashboard.inherited (Dashboard.categorySlug a) = false) l ->
  Dashboard.inherited slug = true ->
  in_category slug l = [].
Proof.
  intros Hall Hin. induction Hall as [|a l Ha _ IH]; [reflexivity|].
  rewrite in_category_cons.
  destruct (String.eqb (Dashboard.categorySlug a) slug) eqn:E; [|exact IH].
  apply String.eqb_eq in E. congruence.
Qed.

Lemma getCategoryAssetCount_length l g (slug : string) :
  Dashboard.groupAssets l ∅ = Ok g ->
  Dashboard.getCategoryAssetCount g slug
  = if Dashboard.inherited slug then Dashboard.inherited_length slug
    else length (in_category slug l).
Proof.
  intros Hg. pose proof (groupAssets_spec l ∅) as Hspec. rewrite Hg in Hspec.
  destruct Hspec as [Hall Hs]. destruct (Hs slug) as [Hd Hn].
  rewrite lookup_empty in Hd, Hn. simpl in Hd.
  unfold Dashboard.getCategoryAssetCount.
  destruct (Dashboard.inherited slug) eqn:Hin.
  - rewrite (proj2 Hn (conj eq_refl (in_category_inherited l slug Hall Hin))).
    reflexivity.
  - destruct (g !! slug) as [assets|]; simpl in Hd; rewrite <- Hd; reflexivity.
Qed.

Lemma shown_in_all l :
  list_sum (List.map (fun slug => length (in_category slug l)) Dashboard.widgets)
  = length (List.filter
              (fun a => existsb (String.eqb (Dashboard.categorySlug a)) Dashboard.widgets)
              l).
Proof.
  induction l as [|a l IH]; [reflexivity|].
  cbn [List.filter]. unfold Dashboard.widgets in *. cbn [List.map list_sum existsb] in *.
  rewrite !in_category_cons.
  destruct (String.eqb (Dashboard.categorySlug a) "cash") eqn:E1;
  destruct (String.eqb (Dashboard.categorySlug a) "investments") eqn:E2;
  destruct (String.eqb (Dashboard.categorySlug a) "real-estate") eqn:E3;
  destruct (String.eqb (Dashboard.categorySlug a) "cryptocurrency") eqn:E4;
  destruct (String.eqb (Dashboard.categorySlug a) "precious-metals") eqn:E5;
  destruct (String.eqb (Dashboard.categorySlug a) "debt") eqn:E6;
  rewrite ?String.eqb_eq in *;
  try congruence; cbn [orb length];
  unfold list_sum in *; cbn [fold_right] in *; lia.
Qed.

(** X15: when the grouping succeeds, [getCategoryAssetCount] gives, for
    a slug that names no inherited key, the number of assets of that
    category, and for one that names an inherited key the [length] of
    what every object inherits under it (1 for "constructor"); each of
    the six counters of the page shows the number of assets of its
    category, and together they count exactly the assets whose category
    is one of the six widgets: an asset of any other category, or
    without category, is counted nowhere. *)
Theorem counters_cover_the_widgets l g :
  Dashboard.assetsByCategory (Some l) = Ok g ->
  (forall slug,
     Dashboard.getCategoryAssetCount g slug
     = if Dashboard.inherited slug then Dashboard.inherited_length slug
       else length (in_category slug l)) /\
  Forall (fun slug => Dashboard.getCategoryAssetCount g slug
                      = length (in_category slug l)) Dashboard.widgets /\
  shown_count g
  = length (List.filter
              (fun a => existsb (String.eqb (Dashboard.categorySlug a)) Dashboard.widgets)
              l) /\
  (shown_count g <= length l)%nat.
Proof.
  unfold Dashboard.assetsByCategory. intros Hg.
  assert (Hc : forall slug,
            Dashboard.getCategoryAssetCount g slug
            = if Dashboard.inherited slug then Dashboard.inherited_length slug
              else length (in_category slug l))
    by (intros slug; apply getCategoryAssetCount_length, Hg).
  assert (Hw : Forall (fun slug => Dashboard.getCategoryAssetCount g slug
                                   = length (in_category slug l)) Dashboard.widgets)
    by (repeat constructor; rewrite Hc; reflexivity).
  assert (Hs : shown_count g
               = length (List.filter
                   (fun a => existsb (String.eqb (Dashboard.categorySlug a))
                               Dashboard.widgets) l)).
  { unfold shown_count. rewrite <- shown_in_all. f_equal.
    apply List.map_ext_in. intros slug Hin.
    exact (proj1 (List.Forall_forall _ _) Hw slug Hin). }
  split; [exact Hc|]. split; [exact Hw|]. split; [exact Hs|].
  rewrite Hs. apply List.filter_length_le.
Qed.

End DashboardProps.

(** Of three assets the one without category is in no counter; the
    counter of "constructor" would show 1 and that of "toString" 0. *)
Lemma counters_cover_the_widgets_witness :
  exists g,
    Dashboard.assetsByCategory (Some sample_assets) = Ok g /\
    Dashboard.getCategoryAssetCount g "cash" = 1%nat /\
    Dashboard.getCategoryAssetCount g "constructor" = 1%nat /\
    Dashboard.getCategoryAssetCount g "toString" = 0%nat /\
    shown_count g = 2%nat.
Proof.
  assert (Hg : exists g, Dashboard.assetsByCategory (Some sample_assets) = Ok g)
    by (eexists; reflexivity).
  destruct Hg as [g Hg]. exists g. split; [exact Hg|].
  destruct (counters_cover_the_widgets sample_assets g Hg) as (Hc & _ & Hs & _).
  rewrite !Hc, Hs. repeat split.
Defined.

(** The total of "constructor" breaks the page, that of a category
    without asset is 0. *)
Example getCategoryTotal_inherited :
  Dashboard.getCategoryTotal ∅ "constructor"
  = Throw (Js.Error "assetsByCategory[categorySlug].reduce is not a function") /\
  Dashboard.getCategoryTotal ∅ "cash" = Ok Js.zero.
Proof. split; reflexivity. Qed.

(** A category called "constructor" breaks the page. *)
Example assetsByCategory_constructor :
  Dashboard.assetsByCategory
    (Some [ {| Dashboard.value := Js.of_Z 1; Dashboard.is_liability := false;
               Dashboard.category_slug := Some "constructor" |} ])
  = Throw (Js.Error "assetsByCategory[categorySlug].push is not a function").
Proof. reflexivity. Qed.

(** ** Link generation: what the caller can get *)

Section LinkResults.

Context {R : Type} `{SnapTradeApi R} {dates : Js.Dates}.

Implicit Types w : World R.

Lemma linkBody_uri (uid redirectUri : string) (brokerId : option string) w :
  run (linkBody uid redirectUri brokerId) w (fun o w' =>
    sdk w' = sdk w /\ forall uri, o = Ok uri -> uri <> "").
Proof.
  unfold linkBody. wp.
  eapply run_conseq; [apply getUserSecret_spec|].
  intros o w1 ((evs & F1 & _) & _). pose proof (frame_sdk _ _ _ F1) as Hsdk.
  destruct o as [secret|e]; [|split; [exact Hsdk | discriminate]]. wp.
  - destruct a as [d|]; wp; [|split; [exact Hsdk | discriminate]].
    destruct (redirectURI d) as [uri|]; wp; [|split; [exact Hsdk | discriminate]].
    destruct (String.eqb uri "") eqn:E; wp; [split; [exact Hsdk | discriminate]|].
    unfold recordConnectionStarted. wp. split; [exact Hsdk|].
    intros uri' [= <-]. apply String.eqb_neq, E.
  - split; [exact Hsdk | discriminate].
Qed.

Lemma onNotRegistered_sdk (uid : string) w :
  run (onNotRegistered uid) w (fun o w' =>
    sdk w' = sdk w /\ forall uri, o <> Ok (Return uri)).
Proof.
  unfold onNotRegistered. wp.
  eapply run_conseq; [apply registerSnapTradeUser_spec|].
  intros o w1 ((evs & F1 & _) & _). pose proof (frame_sdk _ _ _ F1) as Hsdk.
  destruct o as [u|e]; wp; [split; [exact Hsdk | discriminate]|].
  destruct (is_400 e).
  - eapply run_conseq; [apply recreateUser_spec|].
    intros o w2 ((evs2 & F2 & _) & b & ->). cbv beta iota.
    pose proof (frame_sdk _ _ _ F2) as Hsdk2.
    destruct b; wp; (split; [congruence | discriminate]).
  - wp. split; [exact Hsdk | discriminate].
Qed.

(** One body: a link returned is not empty, and an error thrown is the
    guard's or carries the prefix of the outer [catch]. *)
Lemma linkAttempt_results (uid redirectUri : string) (brokerId : option string) w :
  run (linkAttempt uid redirectUri brokerId) w (fun o w' =>
    sdk w' = sdk w /\
    match o with
    | Ok (Return uri) => sdk w = true /\ uri <> ""
    | Ok Reenter => sdk w = true
    | Throw e =>
        (sdk w = false /\ e = Js.Error "SnapTrade SDK not initialized") \/
        (sdk w = true /\
         exists detail, e = Js.Error ("Failed to link account: " +:+ detail))
    end).
Proof.
  unfold linkAttempt. wp.
  change (sdk (log (CallCreateSnapTradeUserLink uid) w)) with (sdk w).
  destruct (sdk w) eqn:Hsdk; cbn [negb]; wp.
  2:{ split; [exact Hsdk|]. left. auto. }
  eapply run_conseq; [apply linkBody_uri|].
  intros o w1 (Hsdk1 & Huri). change (sdk (log _ w)) with (sdk w) in Hsdk1.
  destruct o as [uri|e]; wp.
  { split; [congruence|]. split; [reflexivity | apply Huri; reflexivity]. }
  destruct (bool_decide _); wp.
  - eapply run_conseq; [apply onNotRegistered_sdk|].
    intros o w2 (Hsdk2 & Hno).
    destruct o as [[uri|]|e2]; wp.
    + exfalso. apply (Hno uri). reflexivity.
    + split; [congruence | reflexivity].
    + split; [congruence|]. right. split; [reflexivity | eauto].
  - split; [congruence|]. right. split; [reflexivity | eauto].
Qed.

(** X16: whenever [createSnapTradeUserLink] settles, however many times
    its body was re-entered, a link it returns is a non-empty string, and
    an error it throws is "SnapTrade SDK not initialized" (exactly when
    the SDK is not initialised) or an error whose message starts with
    "Failed to link account: ". *)
Theorem link_results (fuel : nat) (uid redirectUri : string)
    (brokerId : option string) w (res : outcome string) (w' : World R) :
  createSnapTradeUserLink fuel uid redirectUri brokerId w = (Some res, w') ->
  sdk w' = sdk w /\
  match res with
  | Ok uri => sdk w = true /\ uri <> ""
  | Throw e =>
      (sdk w = false /\ e = Js.Error "SnapTrade SDK not initialized") \/
      (sdk w = true /\
       exists detail, e = Js.Error ("Failed to link account: " +:+ detail))
  end.
Proof.
  revert w. induction fuel as [|fuel IH]; intros w; simpl; [discriminate|].
  pose proof (run_result _ _ _ (linkAttempt_results uid redirectUri brokerId w)) as Hstep.
  destruct (linkAttempt uid redirectUri brokerId w) as [[[uri|]|e] w1];
    simpl in Hstep; destruct Hstep as [Hsdk1 Hres].
  - intros [= <- <-]. auto.
  - intros Hrest. destruct (IH _ Hrest) as [Hsdk' Hres'].
    rewrite Hsdk1 in Hsdk', Hres'. split; [exact Hsdk'|].
    destruct res as [uri|e]; exact Hres'.
  - intros [= <- <-]. auto.
Qed.

End LinkResults.

(** The remote is down: the login fails, and the error carries the
    prefix. *)
Lemma link_results_witness :
  exists w',
    createSnapTradeUserLink 1 "u1" "https://app.example/callback" None
      (world_u1 (real_row (registered_ago ms_per_day)))
    = (Some (Throw (Js.Error "Failed to link account: Network Error")), w') /\
    exists detail,
      Js.Error "Failed to link account: Network Error"
      = Js.Error ("Failed to link account: " +:+ detail).
Proof.
  set (w := world_u1 (real_row (registered_ago ms_per_day))).
  assert (Hl : createSnapTradeUserLink 1 "u1" "https://app.example/callback" None w
               = (Some (Throw (Js.Error "Failed to link account: Network Error")),
                  (createSnapTradeUserLink 1 "u1" "https://app.example/callback"
                     None w).2))
    by (vm_compute; reflexivity).
  eexists. split; [exact Hl|].
  destruct (link_results 1 "u1" "https://app.example/callback" None w _ _ Hl)
    as [_ [[Hc _]|[_ Hd]]]; [discriminate Hc | exact Hd].
Defined.

(** ** The callback: what it imports, and when it stops *)

Section CallbackProps.

Context {R : Type} `{SnapTradeApi R} `{SnapTradeApiExtra R} {dates : Js.Dates}.

Variable balance_type : Balance -> option string.

Implicit Types (s : Store R) (P : Asset -> Prop).

Lemma bind_eq {S A B : Type} (c : M S A) (k : A -> M S B) (s : S) (a : A) (s1 : S) :
  c s = (Ok a, s1) -> bind c k s = k a s1.
Proof. unfold bind. intros ->. reflexivity. Qed.

Lemma bind_throws {S A B : Type} (c : M S A) (k : A -> M S B) (s : S)
    (e : Js.error) (s1 : S) :
  c s = (Throw e, s1) -> bind c k s = (Throw e, s1).
Proof. unfold bind. intros ->. reflexivity. Qed.

(** *** Appending *)

Lemma appends_ret {A : Type} (a : A) s P : appends (ret a) s P.
Proof.
  exists (Ok a), [], s. split; [constructor|]. split; [reflexivity|].
  intros l. rewrite app_nil_r. reflexivity.
Qed.

Lemma appends_throw {A : Type} (e : Js.error) s P : appends (throw (A := A) e) s P.
Proof.
  exists (Throw e), [], s. split; [constructor|]. split; [reflexivity|].
  intros l. rewrite app_nil_r. reflexivity.
Qed.

Lemma appends_bind {A B : Type} (c : M (Store R) A) (k : A -> M (Store R) B) s P :
  appends c s P ->
  (forall a s1, store_category s1 = store_category s -> appends (k a) s1 P) ->
  appends (bind c k) s P.
Proof.
  intros (o & added & s1 & Hadded & Hcat & Hc) Hk. destruct o as [a|e].
  - destruct (Hk a s1 Hcat) as (o2 & added2 & s2 & Hadded2 & Hcat2 & Hk2).
    exists o2, (added ++ added2), s2.
    split; [apply Forall_app; split; assumption|]. split; [congruence|].
    intros l. unfold bind. rewrite Hc, app_assoc. apply Hk2.
  - exists (Throw e), added, s1. split; [exact Hadded|]. split; [exact Hcat|].
    intros l. unfold bind. rewrite Hc. reflexivity.
Qed.

Lemma appends_try {A : Type} (c : M (Store R) A) (h : Js.error -> M (Store R) A) s P :
  appends c s P ->
  (forall e s1, store_category s1 = store_category s -> appends (h e) s1 P) ->
  appends (try_catch c h) s P.
Proof.
  intros (o & added & s1 & Hadded & Hcat & Hc) Hh. destruct o as [a|e].
  - exists (Ok a), added, s1. split; [exact Hadded|]. split; [exact Hcat|].
    intros l. unfold try_catch. rewrite Hc. reflexivity.
  - destruct (Hh e s1 Hcat) as (o2 & added2 & s2 & Hadded2 & Hcat2 & Hh2).
    exists o2, (added ++ added2), s2.
    split; [apply Forall_app; split; assumption|]. split; [congruence|].
    intros l. unfold try_catch. rewrite Hc, app_assoc. apply Hh2.
Qed.

Lemma appends_on_world {A : Type} (c : M (World R) A) s P :
  appends (on_world c) s P.
Proof.
  destruct (c (store_world s)) as [o w'] eqn:Hc.
  exists o, [], (mkStore w' (store_assets s) (store_category s) (store_insert_faults s)).
  split; [constructor|]. split; [reflexivity|].
  intros l. unfold on_world, with_assets. simpl. rewrite Hc, app_nil_r. reflexivity.
Qed.

Lemma appends_insert (a : Asset) s P : P a -> appends (insert_asset a) s P.
Proof.
  intros Ha. destruct (store_insert_faults s) as [|[] fs] eqn:Hf.
  - exists (Ok None), [a], s. split; [repeat constructor; exact Ha|].
    split; [reflexivity|]. intros l. unfold insert_asset, with_assets. simpl.
    rewrite Hf. reflexivity.
  - exists (Ok (Some "store error")), [],
      (mkStore (store_world s) (store_assets s) (store_category s) fs).
    split; [constructor|]. split; [reflexivity|].
    intros l. unfold insert_asset, with_assets. simpl. rewrite Hf, app_nil_r.
    reflexivity.
  - exists (Ok None), [a],
      (mkStore (store_world s) (store_assets s) (store_category s) fs).
    split; [repeat constructor; exact Ha|]. split; [reflexivity|].
    intros l. unfold insert_asset, with_assets. simpl. rewrite Hf. reflexivity.
Qed.

Lemma appends_sleep (ms : Z) s P : appends (sleep ms) s P.
Proof.
  exists (Ok tt), [], (sleep ms s).2.
  split; [constructor|]. split; [reflexivity|].
  intros l. unfold sleep, with_assets. simpl. rewrite app_nil_r. reflexivity.
Qed.

Lemma appends_select_category {B : Type} (k : CategoryAnswer -> M (Store R) B) s P :
  appends (k (store_category s)) s P ->
  appends (bind select_category k) s P.
Proof.
  intros (o & added & s' & Hadded & Hcat & Hk).
  exists o, added, s'. split; [exact Hadded|]. split; [exact Hcat|].
  intros l. unfold bind, select_category. apply Hk.
Qed.

Lemma appends_weaken {A : Type} (c : M (Store R) A) s (P Q : Asset -> Prop) :
  (forall a, P a -> Q a) -> appends c s P -> appends c s Q.
Proof.
  intros HPQ (o & added & s' & Hadded & Hcat & Hc).
  exists o, added, s'. split; [|split; assumption].
  eapply Forall_impl; [exact Hadded | exact HPQ].
Qed.

Lemma positionAsset_imported (uid cid : string) (account : Account) (p : Position) :
  imported uid cid (positionAsset uid cid account p).
Proof. repeat split. Qed.

Lemma cashAsset_imported (uid cid : string) (account : Account) (b : Balance) :
  imported uid cid (cashAsset balance_type uid cid account b).
Proof. repeat split. Qed.

Lemma importPositions_appends (uid cid : string) (account : Account)
    (positions : list Position) s :
  appends (importPositions uid cid account positions) s (imported uid cid).
Proof.
  revert s. induction positions as [|p rest IH]; intros s; simpl.
  - apply appends_ret.
  - apply appends_bind; [|intros _ s1 _; apply IH].
    destruct (truthy_symbol (position_symbol p)); [|apply appends_ret].
    apply appends_bind; [|intros; apply appends_ret].
    apply appends_insert, positionAsset_imported.
Qed.

Lemma importBalances_appends (uid cid : string) (account : Account)
    (balances : list Balance) s :
  appends (importBalances balance_type uid cid account balances) s (imported uid cid).
Proof.
  revert s. induction balances as [|b rest IH]; intros s; simpl.
  - apply appends_ret.
  - apply appends_bind; [|intros _ s1 _; apply IH].
    destruct (importable balance_type account b); [|apply appends_ret].
    apply appends_bind; [|intros; apply appends_ret].
    apply appends_insert, cashAsset_imported.
Qed.

Lemma importAccount_appends (uid : string) (secret : option string) (cid : string)
    (account : Account) s :
  appends (importAccount balance_type uid secret cid account) s (imported uid cid).
Proof.
  unfold importAccount.
  apply appends_bind; [apply appends_on_world|]. intros [ps|] s1 _.
  - apply appends_bind; [apply importPositions_appends|]. intros _ s2 _.
    apply appends_bind; [apply appends_on_world|]. intros [bs|] s3 _;
      [apply importBalances_appends | apply appends_ret].
  - apply appends_bind; [apply appends_ret|]. intros _ s2 _.
    apply appends_bind; [apply appends_on_world|]. intros [bs|] s3 _;
      [apply importBalances_appends | apply appends_ret].
Qed.

Lemma importAccounts_appends (uid : string) (secret : option string) (cid : string)
    (accounts : list Account) s :
  appends (importAccounts balance_type uid secret cid accounts) s (imported uid cid).
Proof.
  revert s. induction accounts as [|a rest IH]; intros s; simpl.
  - apply appends_ret.
  - apply appends_bind; [apply importAccount_appends | intros _ s1 _; apply IH].
Qed.

(** X17: whatever the remote and the stores do, and whether it returns or
    throws, [handleSnapTradeCallback] only appends to the [assets] table:
    the rows already there are kept in front, and what is appended, what
    is returned and what is left elsewhere do not depend on them, so
    nothing is looked up before an insert and a second run inserts the
    same positions again. Every appended row belongs to the user, is not
    a liability, has the source "snaptrade", and carries the id that the
    category query answered. *)
Theorem callback_only_appends (uid authorizationId brokerage : string) s :
  exists o added s',
    (forall l,
       handleSnapTradeCallback balance_type uid authorizationId brokerage
         (with_assets l s)
       = (o, with_assets (l ++ added) s')) /\
    Forall (fun a => exists cid,
              category_id (store_category s) = Some cid /\ imported uid cid a)
      added.
Proof.
  set (P := fun a => exists cid,
              category_id (store_category s) = Some cid /\ imported uid cid a).
  assert (Happ : appends
            (handleSnapTradeCallback balance_type uid authorizationId brokerage) s P).
  { destruct (sdk (store_world s)) eqn:Hsdk.
    2:{ exists (Throw (Js.Error "SnapTrade SDK not initialized")), [], s.
        split; [constructor|]. split; [reflexivity|].
        intros l. unfold handleSnapTradeCallback, bind, get_store. simpl.
        rewrite Hsdk, app_nil_r. reflexivity. }
    assert (Hrest : appends
              (userSecret <- on_world (getUserSecret uid false) ;;
               on_world (markConnected uid (Some authorizationId) (Some brokerage)) ;;
               (if Js.truthy (Some authorizationId) then
                  try_catch
                    (on_world
                       (call_extra
                          (api_refreshBrokerageAuthorization authorizationId uid
                             userSecret)) ;;
                     sleep 1000)
                    (fun refreshError => ret tt)
                else ret tt) ;;
               accountsResponse <-
                 on_world (call (ApiListAccounts uid)
                             (api_listUserAccounts uid userSecret)) ;;
               match accountsResponse with
               | None => throw (Js.Error "Failed to fetch accounts")
               | Some accounts =>
                   categoryAnswer <- select_category ;;
                   match category_error categoryAnswer with
                   | Some msg => throw (Js.Error ("Category error: " +:+ msg))
                   | None =>
                       match category_id categoryAnswer with
                       | None => throw (Js.Error "Category not found")
                       | Some cid =>
                           importAccounts balance_type uid userSecret cid accounts ;;
                           ret accounts
                       end
                   end
               end) s P).
    { apply appends_bind; [apply appends_on_world|]. intros secret s1 Hc1.
      apply appends_bind; [apply appends_on_world|]. intros _ s2 Hc2.
      apply appends_bind.
      { destruct (Js.truthy (Some authorizationId)); [|apply appends_ret].
        apply appends_try; [|intros; apply appends_ret].
        apply appends_bind; [apply appends_on_world|].
        intros; apply appends_sleep. }
      intros _ s3 Hc3.
      apply appends_bind; [apply appends_on_world|]. intros [accounts|] s4 Hc4;
        [|apply appends_throw].
      assert (Hcat : store_category s4 = store_category s) by congruence.
      apply appends_select_category. rewrite Hcat.
      destruct (category_error (store_category s)); [apply appends_throw|].
      destruct (category_id (store_category s)) as [cid|] eqn:Hcid;
        [|apply appends_throw].
      apply appends_bind; [|intros; apply appends_ret].
      eapply appends_weaken; [|apply importAccounts_appends].
      intros a Ha. exists cid. split; [reflexivity | exact Ha]. }
    destruct Hrest as (o & added & s' & Hadded & Hcat & Hc).
    exists o, added, s'. split; [exact Hadded|]. split; [exact Hcat|].
    intros l. rewrite <- Hc.
    unfold handleSnapTradeCallback at 1. unfold bind at 1, get_store. simpl.
    rewrite Hsdk. reflexivity. }
  destruct Happ as (o & added & s' & Hadded & _ & Hc).
  exists o, added, s'. split; [exact Hc | exact Hadded].
Qed.

(** *** The loop stops at the first account that fails *)

Lemma importAccounts_app (uid : string) (secret : option string) (cid : string)
    (l1 l2 : list Account) s :
  importAccounts balance_type uid secret cid (l1 ++ l2) s
  = bind (importAccounts balance_type uid secret cid l1)
         (fun _ => importAccounts balance_type uid secret cid l2) s.
Proof.
  revert s. induction l1 as [|a l1 IH]; intros s; simpl.
  - reflexivity.
  - unfold bind in *.
    destruct (importAccount balance_type uid secret cid a s) as [[[]|e] s1];
      [apply IH | reflexivity].
Qed.

(** X18: the loop of [handleSnapTradeCallback] over the accounts has no
    handler of its own: when the positions of an account cannot be read,
    the loop ends with that very error, which the function rethrows; the
    rows imported for the accounts before stay in [assets], and the
    accounts after are not asked for. *)
Theorem import_stops_at_failing_account (uid : string) (secret : option string)
    (cid : string) (before : list Account) (a : Account) (after : list Account)
    s (s1 : Store R) (e : Js.error) (r' : R) :
  importAccounts balance_type uid secret cid before s = (Ok tt, s1) ->
  api_getUserAccountPositions uid secret (account_id a) (remote (store_world s1))
    = (Throw e, r') ->
  exists s',
    importAccounts balance_type uid secret cid (before ++ a :: after) s
      = (Throw e, s') /\
    store_assets s' = store_assets s1 /\
    trace (store_world s')
      = trace (store_world s1) ++ [ApiPositions (account_id a)].
Proof.
  intros Hbefore Hpos.
  assert (Ha : exists s',
            importAccount balance_type uid secret cid a s1 = (Throw e, s') /\
            store_assets s' = store_assets s1 /\
            trace (store_world s')
              = trace (store_world s1) ++ [ApiPositions (account_id a)]).
  { eexists. split.
    - unfold importAccount. apply bind_throws.
      unfold on_world, call. rewrite Hpos. reflexivity.
    - split; reflexivity. }
  destruct Ha as (s' & Ha & Hassets & Htrace).
  exists s'. split; [|split; assumption].
  rewrite importAccounts_app. erewrite bind_eq by exact Hbefore.
  simpl. apply bind_throws, Ha.
Qed.

(** *** The table of the connections *)

Lemma keeps_rows_ret {A : Type} (a : A) : keeps_rows (R := R) (ret a).
Proof. intros s o s' [= <- <-]. reflexivity. Qed.

Lemma keeps_rows_throw {A : Type} (e : Js.error) :
  keeps_rows (R := R) (throw (A := A) e).
Proof. intros s o s' [= <- <-]. reflexivity. Qed.

Lemma keeps_rows_bind {A B : Type} (c : M (Store R) A) (k : A -> M (Store R) B) :
  keeps_rows c -> (forall a, keeps_rows (k a)) -> keeps_rows (bind c k).
Proof.
  intros Hc Hk s o s'. unfold bind.
  destruct (c s) as [[a|e] s1] eqn:E; specialize (Hc _ _ _ E).
  - intros Hka. rewrite (Hk a _ _ _ Hka). exact Hc.
  - intros [= <- <-]. exact Hc.
Qed.

Lemma keeps_rows_try {A : Type} (c : M (Store R) A) (h : Js.error -> M (Store R) A) :
  keeps_rows c -> (forall e, keeps_rows (h e)) -> keeps_rows (try_catch c h).
Proof.
  intros Hc Hh s o s'. unfold try_catch.
  destruct (c s) as [[a|e] s1] eqn:E; specialize (Hc _ _ _ E).
  - intros [= <- <-]. exact Hc.
  - intros Hhe. rewrite (Hh e _ _ _ Hhe). exact Hc.
Qed.

Lemma keeps_rows_call {A : Type} (ev : Event) (f : R -> outcome A * R) :
  keeps_rows (on_world (call ev f)).
Proof.
  intros s o s'. unfold on_world, call.
  destruct (f (remote (store_world s))) as [o1 r1]. intros [= <- <-]. reflexivity.
Qed.

Lemma keeps_rows_call_extra {A : Type} (f : R -> outcome A * R) :
  keeps_rows (on_world (call_extra f)).
Proof.
  intros s o s'. unfold on_world, call_extra.
  destruct (f (remote (store_world s))) as [o1 r1]. intros [= <- <-]. reflexivity.
Qed.

Lemma keeps_rows_insert (a : Asset) : keeps_rows (R := R) (insert_asset a).
Proof.
  intros s o s'. unfold insert_asset.
  destruct (store_insert_faults s) as [|[] fs]; intros [= <- <-]; reflexivity.
Qed.

Lemma keeps_rows_sleep (ms : Z) : keeps_rows (R := R) (sleep ms).
Proof. intros s o s' [= <- <-]. reflexivity. Qed.

Lemma keeps_rows_select_category : keeps_rows (R := R) select_category.
Proof. intros s o s' [= <- <-]. reflexivity. Qed.

Lemma importPositions_rows (uid cid : string) (account : Account)
    (positions : list Position) :
  keeps_rows (R := R) (importPositions uid cid account positions).
Proof.
  induction positions as [|p rest IH]; simpl; [apply keeps_rows_ret|].
  apply keeps_rows_bind; [|intros _; exact IH].
  destruct (truthy_symbol (position_symbol p)); [|apply keeps_rows_ret].
  apply keeps_rows_bind; [apply keeps_rows_insert | intros; apply keeps_rows_ret].
Qed.

Lemma importBalances_rows (uid cid : string) (account : Account)
    (balances : list Balance) :
  keeps_rows (R := R) (importBalances balance_type uid cid account balances).
Proof.
  induction balances as [|b rest IH]; simpl; [apply keeps_rows_ret|].
  apply keeps_rows_bind; [|intros _; exact IH].
  destruct (importable balance_type account b); [|apply keeps_rows_ret].
  apply keeps_rows_bind; [apply keeps_rows_insert | intros; apply keeps_rows_ret].
Qed.

Lemma importAccounts_rows (uid : string) (secret : option string) (cid : string)
    (accounts : list Account) :
  keeps_rows (importAccounts balance_type uid secret cid accounts).
Proof.
  induction accounts as [|a rest IH]; simpl; [apply keeps_rows_ret|].
  apply keeps_rows_bind; [|intros _; exact IH].
  unfold importAccount.
  apply keeps_rows_bind; [apply keeps_rows_call|]. intros ps.
  apply keeps_rows_bind.
  { destruct ps; [apply importPositions_rows | apply keeps_rows_ret]. }
  intros _. apply keeps_rows_bind; [apply keeps_rows_call|]. intros bs.
  destruct bs; [apply importBalances_rows | apply keeps_rows_ret].
Qed.

(** X19: with an initialised SDK, a store that takes the writes and a
    stored secret that [getUserSecret] hands out at once,
    [handleSnapTradeCallback] marks the connection before anything else,
    and the mark stays whatever follows: whether the function returns or
    throws (the listing, the category query or an account may fail), the
    row of the user is active, holds the same secret, has
    [authorization_id], [brokerage] and [connected_at] set from the
    arguments and the clock, and every other key of [broker_data] as it
    was. *)
Theorem callback_connects_first (uid authorizationId brokerage : string) s
    (r : Row) (secret : option string) (o : outcome (list Account)) (s' : Store R) :
  sdk (store_world s) = true ->
  faults (store_world s) = [] ->
  rows (store_world s) !! uid = Some r ->
  cachedSecret (Some r) false (clock (store_world s)) = Some secret ->
  authorizationId <> "" ->
  brokerage <> "" ->
  handleSnapTradeCallback balance_type uid authorizationId brokerage s = (o, s') ->
  exists r',
    rows (store_world s') !! uid = Some r' /\
    is_active r' = true /\
    api_secret_encrypted r' = api_secret_encrypted r /\
    broker_data r' !! "authorization_id" = Some (Js.JStr authorizationId) /\
    broker_data r' !! "brokerage" = Some (Js.JStr brokerage) /\
    broker_data r' !! "connected_at" = Some (Js.JTime (clock (store_world s))) /\
    keeps_other_keys ["connected_at"; "brokerage"; "authorization_id"]
      (broker_data r) (broker_data r').
Proof.
  intros Hsdk Hf Hr Hc Ha Hb Hrun.
  unfold handleSnapTradeCallback in Hrun.
  erewrite bind_eq in Hrun by reflexivity. cbv beta in Hrun.
  rewrite Hsdk in Hrun. cbn [negb] in Hrun.
  assert (Hsecret : on_world (getUserSecret uid false) s = (Ok secret, s)).
  { unfold on_world.
    rewrite (getUserSecret_cached uid false (store_world s) secret
               (reliable_not_failing _ Hf)) by (rewrite Hr; exact Hc).
    rewrite (after_store_id _ Hf). destruct s; reflexivity. }
  erewrite bind_eq in Hrun by exact Hsecret.
  set (f := set_active_and_data true
              (<[ "connected_at" := Js.JTime (clock (store_world s)) ]>
               (<[ "brokerage" := Js.JStr brokerage ]>
               (<[ "authorization_id" := Js.JStr authorizationId ]>
                (broker_data r))))).
  assert (Hmark : exists w2,
            markConnected uid (Some authorizationId) (Some brokerage) (store_world s)
              = (Ok None, w2) /\
            rows w2 = alter f uid (rows (store_world s))).
  { eexists. unfold markConnected.
    erewrite bind_ok by apply select_connection_eq.
    erewrite bind_ok by reflexivity.
    rewrite update_connection_eq.
    unfold write_error, existingBrokerData, selection, failing, after_store.
    cbn [sdk rows remote clock faults trace]. rewrite Hf. cbn [hd tl].
    rewrite Hr. cbn [negb orb data]. unfold or_existing. simpl Js.truthy.
    rewrite (eqb_empty_false _ Ha), (eqb_empty_false _ Hb). simpl.
    split; reflexivity. }
  destruct Hmark as (w2 & Hmark & Hrows2).
  erewrite bind_eq in Hrun
    by (unfold on_world; rewrite Hmark; reflexivity).
  match type of Hrun with
  | ?c ?s2 = _ => assert (Htail : keeps_rows c)
  end.
  { apply keeps_rows_bind.
    { destruct (Js.truthy (Some authorizationId)); [|apply keeps_rows_ret].
      apply keeps_rows_try; [|intros; apply keeps_rows_ret].
      apply keeps_rows_bind; [apply keeps_rows_call_extra|].
      intros; apply keeps_rows_sleep. }
    intros _. apply keeps_rows_bind; [apply keeps_rows_call|].
    intros [accounts|]; [|apply keeps_rows_throw].
    apply keeps_rows_bind; [apply keeps_rows_select_category|]. intros answer.
    destruct (category_error answer); [apply keeps_rows_throw|].
    destruct (category_id answer); [|apply keeps_rows_throw].
    apply keeps_rows_bind; [apply importAccounts_rows|].
    intros; apply keeps_rows_ret. }
  apply Htail in Hrun. cbn [store_world] in Hrun.
  exists (f r). split.
  { rewrite Hrun, Hrows2. apply altered_row, Hr. }
  unfold f, set_active_and_data.
  cbn [broker_data is_active api_secret_encrypted].
  split; [reflexivity|]. split; [reflexivity|].
  split; [rewrite !lookup_insert_ne by discriminate; apply lookup_insert_eq|].
  split; [rewrite lookup_insert_ne by discriminate; apply lookup_insert_eq|].
  split; [apply lookup_insert_eq|].
  intros k Hk.
  assert (Hk3 : k <> "connected_at" /\ k <> "brokerage" /\ k <> "authorization_id").
  { repeat split; intros ->; apply Hk; apply list_elem_of_In; simpl; tauto. }
  destruct Hk3 as (Hk1 & Hk2 & Hk3).
  rewrite !lookup_insert_ne by congruence. reflexivity.
Qed.

End CallbackProps.

(** The positions of the second account cannot be read: the callback's
    loop throws, and the two rows of the first account are in [assets]. *)
Lemma import_stops_at_failing_account_witness :
  exists s',
    importAccounts no_balance_type "u1" (Some "real-secret-1") "cat-inv"
      [acct1; acct2] (store_of (start second_account_fails t0))
    = (Throw (Js.Error "Network Error"), s') /\
    length (store_assets s') = 2%nat.
Proof.
  set (s := store_of (start second_account_fails t0)).
  set (s1 := (importAccounts no_balance_type "u1" (Some "real-secret-1") "cat-inv"
                [acct1] s).2).
  assert (Hbefore : importAccounts no_balance_type "u1" (Some "real-secret-1")
                      "cat-inv" [acct1] s = (Ok tt, s1))
    by (vm_compute; reflexivity).
  assert (Hpos : api_getUserAccountPositions "u1" (Some "real-secret-1")
                   (account_id acct2) (remote (store_world s1))
                 = (Throw (Js.Error "Network Error"), second_account_fails))
    by (vm_compute; reflexivity).
  destruct (import_stops_at_failing_account no_balance_type "u1"
              (Some "real-secret-1") "cat-inv" [acct1] acct2 [] s s1 _ _
              Hbefore Hpos)
    as (s' & Hrun & Hassets & _).
  exists s'. split; [exact Hrun|]. rewrite Hassets. vm_compute. reflexivity.
Defined.

(** The category query fails: the callback throws, and "u1" is marked as
    connected all the same. *)
Lemma callback_connects_first_witness :
  let s := {| store_world := world_connected; store_assets := [];
              store_category :=
                {| category_id := None; category_error := Some "no rows" |};
              store_insert_faults := [] |} in
  (handleSnapTradeCallback no_balance_type "u1" "auth-1" "Questrade" s).1
    = Throw (Js.Error "Category error: no rows") /\
  exists r',
    rows (store_world
            (handleSnapTradeCallback no_balance_type "u1" "auth-1" "Questrade" s).2)
      !! "u1" = Some r' /\
    is_active r' = true /\
    broker_data r' !! "authorization_id" = Some (Js.JStr "auth-1").
Proof.
  intros s. split; [vm_compute; reflexivity|].
  assert (Hrow : rows (store_world s) !! "u1"
                 = Some (real_row (registered_ago ms_per_day)))
    by (vm_compute; reflexivity).
  assert (Hcached : cachedSecret (Some (real_row (registered_ago ms_per_day))) false
                      (clock (store_world s)) = Some (Some "real-secret-1"))
    by (vm_compute; reflexivity).
  assert (Hrun : handleSnapTradeCallback no_balance_type "u1" "auth-1" "Questrade" s
                 = ((handleSnapTradeCallback no_balance_type "u1" "auth-1"
                       "Questrade" s).1,
                    (handleSnapTradeCallback no_balance_type "u1" "auth-1"
                       "Questrade" s).2))
    by (destruct (handleSnapTradeCallback _ _ _ _ s); reflexivity).
  assert (Hauth : "auth-1" <> "") by discriminate.
  assert (Hbroker : "Questrade" <> "") by discriminate.
  destruct (callback_connects_first no_balance_type "u1" "auth-1" "Questrade" s
              (real_row (registered_ago ms_per_day)) (Some "real-secret-1") _ _
              eq_refl eq_refl Hrow Hcached Hauth Hbroker Hrun)
    as (r' & Hr' & Ha & _ & Hid & _).
  exists r'. split; [exact Hr'|]. split; [exact Ha | exact Hid].
Defined.

(** Run twice, the callback inserts the same rows twice. *)
Example callback_duplicates :
  let s := store_of world_connected in
  let s1 := (handleSnapTradeCallback no_balance_type "u1" "auth-1" "Questrade" s).2 in
  let s2 := (handleSnapTradeCallback no_balance_type "u1" "auth-1" "Questrade" s1).2 in
  length (store_assets s1) = 4%nat /\
  store_assets s2 = store_assets s1 ++ store_assets s1.
Proof. vm_compute. split; reflexivity. Qed.
